(** * Financial time-series EDA: the diagnostics engine of
      [scripts/eda/eda_finance.py], embedded and verified.

    Numbers are modelled as the values a NumPy float can take, with exact
    rational arithmetic on the finite ones: [NaN], the two infinities and a
    finite rational.  Rounding, overflow, underflow and the sign of zero
    are not modelled there: a statement about which values are missing,
    about the shape of a table or about what a field is computed from
    does not depend on them, a statement that a result is finite or
    positive does, and says so.  The tail index is embedded a second time
    on binary64 numbers (module [Binary64]) to show what an overflow
    does.  Library routines whose code lies outside the repository (the
    logarithm, the statistical tests, the plotting routines, the file
    system) are parameters of the sections that use them.
    [standardize_filename] of [rename_nf_residuals.py] is embedded at the
    end. *)

From Stdlib Require Import Ascii String ZArith QArith Qround Lqa Lia Bool Arith List.
From Stdlib Require Import Sorted.
From Stdlib Require PrimFloat FloatOps SpecFloat Uint63.
Import ListNotations.
Local Open Scope Q_scope.

(* ================================================================== *)
(** ** Floating-point values *)

Inductive npfloat : Type :=
| NaN
| NInf
| PInf
| Fin (q : Q).

Definition isnan (x : npfloat) : bool :=
  match x with NaN => true | _ => false end.

Definition notna (x : npfloat) : bool := negb (isnan x).

Definition isfinite (x : npfloat) : bool :=
  match x with Fin _ => true | _ => false end.

Definition Qlt_bool (a b : Q) : bool := negb (Qle_bool b a).

Definition positive_finite (x : npfloat) : bool :=
  match x with
  | Fin a => Qlt_bool 0 a
  | _ => false
  end.

Definition fopp (x : npfloat) : npfloat :=
  match x with
  | NaN => NaN
  | NInf => PInf
  | PInf => NInf
  | Fin a => Fin (- a)
  end.

Definition fadd (x y : npfloat) : npfloat :=
  match x, y with
  | NaN, _ | _, NaN => NaN
  | PInf, NInf | NInf, PInf => NaN
  | PInf, _ | _, PInf => PInf
  | NInf, _ | _, NInf => NInf
  | Fin a, Fin b => Fin (a + b)
  end.

Definition fsub (x y : npfloat) : npfloat := fadd x (fopp y).

(** Sign of an infinity times a finite factor: zero gives NaN. *)
Definition scale_inf (positive : bool) (a : Q) : npfloat :=
  match a ?= 0 with
  | Eq => NaN
  | Gt => if positive then PInf else NInf
  | Lt => if positive then NInf else PInf
  end.

Definition fmul (x y : npfloat) : npfloat :=
  match x, y with
  | NaN, _ | _, NaN => NaN
  | Fin a, Fin b => Fin (a * b)
  | PInf, Fin a | Fin a, PInf => scale_inf true a
  | NInf, Fin a | Fin a, NInf => scale_inf false a
  | PInf, PInf | NInf, NInf => PInf
  | PInf, NInf | NInf, PInf => NaN
  end.

(** NumPy division: a zero divisor gives an infinity (NaN for 0/0) and a
    warning, never an exception. *)
Definition fdiv (x y : npfloat) : npfloat :=
  match x, y with
  | NaN, _ | _, NaN => NaN
  | Fin a, Fin b =>
      match b ?= 0 with
      | Eq => match a ?= 0 with Eq => NaN | Gt => PInf | Lt => NInf end
      | _ => Fin (a / b)
      end
  | Fin _, PInf | Fin _, NInf => Fin 0
  | PInf, Fin b => if Qlt_bool b 0 then NInf else PInf
  | NInf, Fin b => if Qlt_bool b 0 then PInf else NInf
  | PInf, PInf | PInf, NInf | NInf, PInf | NInf, NInf => NaN
  end.

(** [x > y]; every comparison with NaN is false. *)
Definition fgt (x y : npfloat) : bool :=
  match x, y with
  | NaN, _ | _, NaN => false
  | NInf, _ => false
  | _, PInf => false
  | PInf, _ => true
  | Fin _, NInf => true
  | Fin a, Fin b => Qlt_bool b a
  end.

Definition flt (x y : npfloat) : bool := fgt y x.

(** [x <= y] on values that are not NaN. *)
Definition fle (x y : npfloat) : bool :=
  match x, y with
  | NaN, _ | _, NaN => false
  | NInf, _ => true
  | _, PInf => true
  | PInf, _ => false
  | Fin _, NInf => false
  | Fin a, Fin b => Qle_bool a b
  end.

Definition of_nat (n : nat) : npfloat := Fin (inject_Z (Z.of_nat n)).

(** What IEEE 754 and NumPy fix about the natural logarithm: the special
    values and the sign of the result. *)
Record log_axioms (np_log : npfloat -> npfloat) : Prop := {
  log_nan : np_log NaN = NaN;
  log_ninf : np_log NInf = NaN;
  log_pinf : np_log PInf = PInf;
  log_neg : forall q, q < 0 -> np_log (Fin q) = NaN;
  log_zero : forall q, q == 0 -> np_log (Fin q) = NInf;
  log_pos : forall q, 0 < q ->
            exists r, np_log (Fin q) = Fin r /\ (1 < q -> 0 < r)
}.

(** A rational function with the special values and the sign behaviour of
    the logarithm, [2 (x - 1) / (x + 1)] on the positive numbers: it
    instantiates the parameter where a run is evaluated. *)
Definition log_pade (x : npfloat) : npfloat :=
  match x with
  | NaN => NaN
  | NInf => NaN
  | PInf => PInf
  | Fin q =>
      match q ?= 0 with
      | Lt => NaN
      | Eq => NInf
      | Gt => Fin (Qred ((2 * (q - 1)) / (q + 1)))
      end
  end.

(* ================================================================== *)
(** ** Exceptions *)

Inductive exn : Type :=
| ValueError (msg : string)
| TypeError (msg : string)
| KeyError (key : string)
| IndexError (msg : string)
| FileNotFoundError (msg : string)
| LibraryError (msg : string).

Inductive result (A : Type) : Type :=
| Ok (a : A)
| Raise (e : exn).
Arguments Ok {A} a.
Arguments Raise {A} e.

Definition bind {A B} (c : result A) (k : A -> result B) : result B :=
  match c with
  | Ok a => k a
  | Raise e => Raise e
  end.

Notation "x <- c ;; k" := (bind c (fun x => k))
  (at level 61, c at next level, right associativity).

(** [try: c except: h] with a bare [except]. *)
Definition try_except {A} (c : result A) (h : exn -> result A) : result A :=
  match c with
  | Ok a => Ok a
  | Raise e => h e
  end.

(* ================================================================== *)
(** ** Series *)

(** A pandas Series: float dtype (missing entries are NaN) or object
    dtype (here: strings, [None] for a missing entry). *)
Inductive Series : Type :=
| NumSeries (values : list npfloat)
| ObjSeries (values : list (option string)).

Definition dropna_values (v : list npfloat) : list npfloat := filter notna v.

Definition is_some {A} (o : option A) : bool :=
  match o with Some _ => true | None => false end.

(** [Series.dropna()] *)
Definition series_dropna (s : Series) : Series :=
  match s with
  | NumSeries v => NumSeries (dropna_values v)
  | ObjSeries v => ObjSeries (filter is_some v)
  end.

(** [len(series)] *)
Definition series_length (s : Series) : nat :=
  match s with
  | NumSeries v => length v
  | ObjSeries v => length v
  end.

(** [Series.notna()] *)
Definition series_notna (s : Series) : list bool :=
  match s with
  | NumSeries v => map notna v
  | ObjSeries v => map is_some v
  end.

Fixpoint insert_sorted (x : npfloat) (l : list npfloat) : list npfloat :=
  match l with
  | [] => [x]
  | y :: l' => if fle x y then x :: y :: l' else y :: insert_sorted x l'
  end.

Definition sort_values (l : list npfloat) : list npfloat :=
  fold_right insert_sorted [] l.

(** NumPy's [_lerp]. *)
Definition lerp (a b : npfloat) (t : Q) : npfloat :=
  let diff_b_a := fsub b a in
  if Qle_bool (1 # 2) t
  then fsub b (fmul diff_b_a (Fin (1 - t)))
  else fadd a (fmul diff_b_a (Fin t)).

(** [np.percentile(values, 100 q, method="linear")] on values without NaN;
    pandas returns NaN when nothing is left. *)
Definition percentile_linear (values : list npfloat) (q : Q) : npfloat :=
  let arr := sort_values values in
  match arr with
  | [] => NaN
  | _ =>
      let n := length arr in
      let virtual_index := inject_Z (Z.of_nat (n - 1)) * q in
      let previous_index := Z.to_nat (Qfloor virtual_index) in
      let next_index := Nat.min (previous_index + 1) (n - 1) in
      let gamma := virtual_index - inject_Z (Qfloor virtual_index) in
      lerp (nth previous_index arr NaN) (nth next_index arr NaN) gamma
  end.

Definition validate_percentile (q : npfloat) : result Q :=
  match q with
  | Fin q' =>
      if Qle_bool 0 q' && Qle_bool q' 1 then Ok q'
      else Raise (ValueError "percentiles should all be in the interval [0, 1]")
  | _ => Raise (ValueError "percentiles should all be in the interval [0, 1]")
  end.

(** [Series.quantile(q)], linear interpolation, missing values skipped. *)
Definition quantile (s : Series) (q : npfloat) : result npfloat :=
  q' <- validate_percentile q ;;
  match s with
  | NumSeries v => Ok (percentile_linear (dropna_values v) q')
  | ObjSeries _ => Raise (TypeError "unsupported operand type")
  end.

(** [series[series > threshold]] *)
Definition select_gt (s : Series) (threshold : npfloat) : result (list npfloat) :=
  match s with
  | NumSeries v => Ok (filter (fun x => fgt x threshold) v)
  | ObjSeries _ => Raise (TypeError "'>' not supported between 'str' and 'float'")
  end.

Definition sum_values (v : list npfloat) : npfloat :=
  fold_right fadd (Fin 0) v.

(** [Series.mean()]: pandas skips NaN ([skipna=True]); NaN when nothing
    is left. *)
Definition mean (v : list npfloat) : npfloat :=
  let present := dropna_values v in
  match present with
  | [] => NaN
  | _ => fdiv (sum_values present) (of_nat (length present))
  end.

(** The arithmetic mean of the spec: every element counts. *)
Definition mean_all (v : list npfloat) : npfloat :=
  fdiv (sum_values v) (of_nat (length v)).

(* ================================================================== *)
(** ** The Hill tail-index estimator *)

Section Tails.
Variable np_log : npfloat -> npfloat.

Definition log_exceedances (tail_data : list npfloat) (threshold : npfloat)
  : list npfloat :=
  map np_log (map (fun x => fdiv x threshold) tail_data).

(** The body of the [try] block of [hill_tail_index]. *)
Definition hill_body (series : Series) (threshold_quantile : npfloat)
  : result npfloat :=
  threshold <- quantile series threshold_quantile ;;
  tail_data <- select_gt series threshold ;;
  if (length tail_data <? 10)%nat then Ok NaN
  else
    let hill_index :=
      fdiv (Fin 1) (mean (log_exceedances tail_data threshold)) in
    Ok hill_index.

Definition hill_tail_index (series : Series) (threshold_quantile : npfloat)
  : result npfloat :=
  try_except (hill_body series threshold_quantile) (fun _ => Ok NaN).

(** The estimator as section 4.5 of the spec words it, on a numeric
    series: [1 / mean(ln(x / u) for x in T)] with the plain mean. *)
Definition hill_spec (X : list npfloat) (u : npfloat) : npfloat :=
  let T := filter (fun x => fgt x u) X in
  if (length T <? 10)%nat then NaN
  else fdiv (Fin 1) (mean_all (map (fun x => np_log (fdiv x u)) T)).
End Tails.

Definition default_threshold_quantile : npfloat := Fin (95 # 100).

(* ================================================================== *)
(** ** Strings *)

Definition lower_ascii (c : Ascii.ascii) : Ascii.ascii :=
  let n := Ascii.nat_of_ascii c in
  if ((65 <=? n) && (n <=? 90))%nat then Ascii.ascii_of_nat (n + 32) else c.

(** [str.lower()] on ASCII text *)
Fixpoint lower (s : string) : string :=
  match s with
  | EmptyString => EmptyString
  | String c s' => String (lower_ascii c) (lower s')
  end.

(** [needle in hay] *)
Fixpoint contains (needle hay : string) : bool :=
  String.prefix needle hay
  || match hay with
     | EmptyString => false
     | String _ hay' => contains needle hay'
     end.

Definition mem_string (x : string) (l : list string) : bool :=
  existsb (String.eqb x) l.

(* ================================================================== *)
(** ** Data frames *)

Inductive Index : Type :=
| RangeIndex (labels : list nat)
| DatetimeIndex (name : string) (stamps : list Z).

Definition index_length (i : Index) : nat :=
  match i with
  | RangeIndex l => length l
  | DatetimeIndex _ l => length l
  end.

(** A DataFrame: the row index and the named columns, in order. *)
Record DataFrame : Type := mkDataFrame {
  index : Index;
  columns : list (string * Series)
}.

Definition nrows (df : DataFrame) : nat := index_length (index df).

Definition column_names (df : DataFrame) : list string :=
  map fst (columns df).

(** [df.empty]: no rows or no columns. *)
Definition df_empty (df : DataFrame) : bool :=
  (nrows df =? 0)%nat
  || match columns df with [] => true | _ => false end.

Fixpoint zip_with {A B C} (f : A -> B -> C) (l : list A) (l' : list B)
  : list C :=
  match l, l' with
  | a :: t, b :: t' => f a b :: zip_with f t t'
  | _, _ => []
  end.

Fixpoint select_rows {A} (keep : list bool) (l : list A) : list A :=
  match keep, l with
  | true :: keep', a :: l' => a :: select_rows keep' l'
  | false :: keep', _ :: l' => select_rows keep' l'
  | _, _ => []
  end.

Definition series_select (keep : list bool) (s : Series) : Series :=
  match s with
  | NumSeries v => NumSeries (select_rows keep v)
  | ObjSeries v => ObjSeries (select_rows keep v)
  end.

Definition index_select (keep : list bool) (i : Index) : Index :=
  match i with
  | RangeIndex l => RangeIndex (select_rows keep l)
  | DatetimeIndex name l => DatetimeIndex name (select_rows keep l)
  end.

(** The rows without a missing value in any column. *)
Definition complete_rows (df : DataFrame) : list bool :=
  fold_right (fun c keep => zip_with andb (series_notna (snd c)) keep)
    (repeat true (nrows df)) (columns df).

(** [DataFrame.dropna()]: drops the rows with a missing value; infinite
    values are not missing. *)
Definition df_dropna (df : DataFrame) : DataFrame :=
  let keep := complete_rows df in
  mkDataFrame (index_select keep (index df))
    (map (fun c => (fst c, series_select keep (snd c))) (columns df)).

(** [shift(1)] on the values of a column *)
Definition shift1 {A} (missing : A) (v : list A) : list A :=
  match v with
  | [] => []
  | _ => missing :: removelast v
  end.

Definition series_shift (s : Series) : Series :=
  match s with
  | NumSeries v => NumSeries (shift1 NaN v)
  | ObjSeries v => ObjSeries (shift1 None v)
  end.

(** [DataFrame.shift(1)] *)
Definition df_shift (df : DataFrame) : DataFrame :=
  mkDataFrame (index df)
    (map (fun c => (fst c, series_shift (snd c))) (columns df)).

(** Element-wise arithmetic of two columns; a string operand raises. *)
Definition series_binop (op : npfloat -> npfloat -> npfloat) (a b : Series)
  : result Series :=
  match a, b with
  | NumSeries x, NumSeries y => Ok (NumSeries (zip_with op x y))
  | ObjSeries [], ObjSeries [] => Ok (ObjSeries [])
  | _, _ => Raise (TypeError "unsupported operand type(s)")
  end.

Definition series_unop (op : npfloat -> npfloat) (a : Series) : result Series :=
  match a with
  | NumSeries x => Ok (NumSeries (map op x))
  | ObjSeries [] => Ok (ObjSeries [])
  | ObjSeries _ => Raise (TypeError "loop of ufunc does not support argument")
  end.

Fixpoint map_result {A B} (f : A -> result B) (l : list A) : result (list B) :=
  match l with
  | [] => Ok []
  | a :: l' =>
      b <- f a ;;
      bs <- map_result f l' ;;
      Ok (b :: bs)
  end.

(** Arithmetic of two frames with the same labels, column by column. *)
Definition df_binop (op : npfloat -> npfloat -> npfloat) (a b : DataFrame)
  : result DataFrame :=
  cols <- map_result
            (fun cc => s <- series_binop op (snd (fst cc)) (snd (snd cc)) ;;
                       Ok (fst (fst cc), s))
            (combine (columns a) (columns b)) ;;
  Ok (mkDataFrame (index a) cols).

Definition df_unop (op : npfloat -> npfloat) (a : DataFrame)
  : result DataFrame :=
  cols <- map_result
            (fun c => s <- series_unop op (snd c) ;; Ok (fst c, s))
            (columns a) ;;
  Ok (mkDataFrame (index a) cols).

(* ================================================================== *)
(** ** Returns and summary statistics *)

Section Returns.
Variable np_log : npfloat -> npfloat.

Definition compute_returns (prices : DataFrame) (return_type : string)
  : result DataFrame :=
  if String.eqb (lower return_type) "log" then
    ratio <- df_binop fdiv prices (df_shift prices) ;;
    returns <- df_unop np_log ratio ;;
    Ok (df_dropna returns)
  else
    diff <- df_binop fsub prices (df_shift prices) ;;
    returns <- df_binop fdiv diff (df_shift prices) ;;
    Ok (df_dropna returns).

End Returns.

(** One row of the summary table. *)
Record SummaryRow : Type := mkSummaryRow {
  sum_Series : string;
  sum_Mean : npfloat;
  sum_Std : npfloat;
  sum_Skewness : npfloat;
  sum_Excess_Kurtosis : npfloat;
  sum_JB_Statistic : npfloat;
  sum_JB_p_value : npfloat;
  sum_Min : npfloat;
  sum_Max : npfloat;
  sum_Q25 : npfloat;
  sum_Q75 : npfloat;
  sum_Observations : nat
}.

(** [Series.min()] and [Series.max()], missing values skipped. *)
Definition min_values (v : list npfloat) : npfloat :=
  hd NaN (sort_values (dropna_values v)).

Definition max_values (v : list npfloat) : npfloat :=
  last (sort_values (dropna_values v)) NaN.

Section Summary.
(** Sample moments of pandas and the Jarque-Bera test of SciPy. *)
Variable series_std series_skew series_kurtosis : list npfloat -> npfloat.
Variable jarque_bera : list npfloat -> result (npfloat * npfloat).

Definition summary_row (col : string) (column : Series) : result SummaryRow :=
  match series_dropna column with
  | ObjSeries _ => Raise (TypeError "could not convert string to float")
  | NumSeries series =>
      let mean_val := mean series in
      let std_val := series_std series in
      let skew_val := series_skew series in
      let kurt_val := series_kurtosis series in
      jb <- jarque_bera series ;;
      let min_val := min_values series in
      let max_val := max_values series in
      q25 <- quantile (NumSeries series) (Fin (25 # 100)) ;;
      q75 <- quantile (NumSeries series) (Fin (75 # 100)) ;;
      Ok (mkSummaryRow col mean_val std_val skew_val kurt_val (fst jb) (snd jb)
            min_val max_val q25 q75 (length series))
  end.

Definition summary_statistics (returns : DataFrame) : result (list SummaryRow) :=
  map_result (fun c => summary_row (fst c) (snd c)) (columns returns).

End Summary.

(* ================================================================== *)
(** ** Numeric panels *)

(** A price or return panel: every column has float dtype. *)
Definition map_cols {A B} (f : A -> B) (cols : list (string * A))
  : list (string * B) :=
  map (fun c => (fst c, f (snd c))) cols.

Definition num_frame (idx : Index) (cols : list (string * list npfloat))
  : DataFrame :=
  mkDataFrame idx (map_cols NumSeries cols).

Definition index_tail (i : Index) : Index :=
  match i with
  | RangeIndex l => RangeIndex (tl l)
  | DatetimeIndex name l => DatetimeIndex name (tl l)
  end.

(** The log returns of the spec: [ln(price[t] / price[t-1])] for every
    row [t] after the first. *)
Definition log_returns (np_log : npfloat -> npfloat) (price : list npfloat)
  : list npfloat :=
  zip_with (fun p prev => np_log (fdiv p prev)) (tl price) price.

(** The two transforms of [compute_returns] on one column, before the
    rows with a missing value are dropped. *)
Definition log_transform (np_log : npfloat -> npfloat) (price : list npfloat)
  : list npfloat :=
  map np_log (zip_with fdiv price (shift1 NaN price)).

Definition simple_transform (price : list npfloat) : list npfloat :=
  zip_with fdiv (zip_with fsub price (shift1 NaN price)) (shift1 NaN price).

Definition transform (np_log : npfloat -> npfloat) (return_type : string)
  (price : list npfloat) : list npfloat :=
  if String.eqb (lower return_type) "log" then log_transform np_log price
  else simple_transform price.

(* ================================================================== *)
(** ** Configuration *)

(** A Python [dict] with string keys; a missing key raises [KeyError]. *)
Fixpoint dict_get {V} (key : string) (d : list (string * V)) : result V :=
  match d with
  | [] => Raise (KeyError key)
  | (k, v) :: d' => if String.eqb k key then Ok v else dict_get key d'
  end.

Record EDAConfig : Type := mkEDAConfig {
  input_csv : string;
  date_column : string;
  parse_dates : bool;
  dropna : bool;
  price_columns_include : list string;
  price_columns_exclude : list string;
  resample : option string;
  return_type : string;
  plots : list (string * bool);
  tests : list (string * npfloat);
  tails : list (string * npfloat);
  output_dirs : list (string * string);
  seed : Z
}.

(* ================================================================== *)
(** ** Stationarity tests and stylized facts *)

Record StationarityRow : Type := mkStationarityRow {
  st_Series : string;
  ADF_Statistic : npfloat;
  ADF_p_value : npfloat;
  ADF_Result : string;
  KPSS_Statistic : npfloat;
  KPSS_p_value : npfloat;
  KPSS_Result : string
}.

Record StylizedRow : Type := mkStylizedRow {
  sf_Series : string;
  Ljung_Box_Stat : npfloat;
  Ljung_Box_p_value : npfloat;
  ARCH_LM_Stat : npfloat;
  ARCH_LM_p_value : npfloat;
  Hill_Tail_Index : npfloat;
  sf_Excess_Kurtosis : npfloat
}.

(** [a, b = t]: the tuple must have exactly two components. *)
Definition unpack2 {A} (t : list A) : result (A * A) :=
  match t with
  | [a; b] => Ok (a, b)
  | [] | [_] => Raise (ValueError "not enough values to unpack (expected 2)")
  | _ => Raise (ValueError "too many values to unpack (expected 2)")
  end.

(** [t[:3]] unpacked into three names. *)
Definition unpack3_prefix {A} (t : list A) : result (A * A * A) :=
  match t with
  | a :: b :: c :: _ => Ok (a, b, c)
  | _ => Raise (ValueError "not enough values to unpack (expected 3)")
  end.

(** [a[-1]] *)
Definition last_item (a : list npfloat) : result npfloat :=
  match a with
  | [] => Raise (IndexError "index -1 is out of bounds")
  | _ => Ok (last a NaN)
  end.

Section Diagnostics.
Variable np_log : npfloat -> npfloat.
(** The tests of statsmodels: each returns a tuple or raises. *)
Variable adfuller : Series -> result (list npfloat).
Variable kpss : Series -> result (list npfloat).
Variable acorr_ljungbox : Series -> npfloat -> result (list (list npfloat)).
Variable het_arch : Series -> npfloat -> result (list npfloat).
(** [Series.kurtosis()] on a float column. *)
Variable series_kurtosis : list npfloat -> npfloat.

(** The bodies of the two [try] blocks of [stationarity_tests]. *)
Definition adf_body (series : Series) (alpha : npfloat)
  : result (npfloat * npfloat * string) :=
  t <- adfuller series ;;
  r <- unpack3_prefix t ;;
  let '(adf_stat, adf_pval, adf_crit) := r in
  let adf_result :=
    if flt adf_pval alpha then "Stationary"%string
    else "Non-stationary"%string in
  Ok (adf_stat, adf_pval, adf_result).

Definition adf_test (series : Series) (alpha : npfloat)
  : result (npfloat * npfloat * string) :=
  try_except (adf_body series alpha) (fun _ => Ok (NaN, NaN, "Error"%string)).

Definition kpss_body (series : Series) (alpha : npfloat)
  : result (npfloat * npfloat * string) :=
  t <- kpss series ;;
  r <- unpack3_prefix t ;;
  let '(kpss_stat, kpss_pval, kpss_crit) := r in
  let kpss_result :=
    if fgt kpss_pval alpha then "Stationary"%string
    else "Non-stationary"%string in
  Ok (kpss_stat, kpss_pval, kpss_result).

Definition kpss_test (series : Series) (alpha : npfloat)
  : result (npfloat * npfloat * string) :=
  try_except (kpss_body series alpha) (fun _ => Ok (NaN, NaN, "Error"%string)).

(** The body of the loop of [stationarity_tests]. *)
Definition stationarity_row (col : string) (column : Series) (alpha : npfloat)
  : result StationarityRow :=
  let series := series_dropna column in
  adf <- adf_test series alpha ;;
  kp <- kpss_test series alpha ;;
  Ok (mkStationarityRow col
        (fst (fst adf)) (snd (fst adf)) (snd adf)
        (fst (fst kp)) (snd (fst kp)) (snd kp)).

Definition stationarity_tests (data : DataFrame) (alpha : npfloat)
  : result (list StationarityRow) :=
  map_result (fun c => stationarity_row (fst c) (snd c) alpha) (columns data).

(** The bodies of the two [try] blocks of [stylized_facts]. *)
Definition ljung_box_body (series : Series) (config : EDAConfig)
  : result (npfloat * npfloat) :=
  lags <- dict_get "lb_lags" (tests config) ;;
  t <- acorr_ljungbox series lags ;;
  r <- unpack2 t ;;
  let '(lb_stat, lb_pval) := r in
  s <- last_item lb_stat ;;
  p <- last_item lb_pval ;;
  Ok (s, p).

Definition ljung_box_test (series : Series) (config : EDAConfig)
  : result (npfloat * npfloat) :=
  try_except (ljung_box_body series config) (fun _ => Ok (NaN, NaN)).

Definition arch_lm_body (series : Series) (config : EDAConfig)
  : result (npfloat * npfloat) :=
  nlags <- dict_get "arch_lm_lags" (tests config) ;;
  t <- het_arch series nlags ;;
  r <- unpack2 t ;;
  let '(arch_stat, arch_pval) := r in
  Ok (arch_stat, arch_pval).

Definition arch_lm_test (series : Series) (config : EDAConfig)
  : result (npfloat * npfloat) :=
  try_except (arch_lm_body series config) (fun _ => Ok (NaN, NaN)).

Definition kurtosis_of (series : Series) : result npfloat :=
  match series with
  | NumSeries v => Ok (series_kurtosis v)
  | ObjSeries _ => Raise (TypeError "could not convert string to float")
  end.

(** The body of the loop of [stylized_facts]. *)
Definition stylized_row (col : string) (column : Series) (config : EDAConfig)
  : result StylizedRow :=
  let series := series_dropna column in
  lb_result <- ljung_box_test series config ;;
  arch_result <- arch_lm_test series config ;;
  q <- dict_get "hill_threshold_quantile" (tails config) ;;
  hill_idx <- hill_tail_index np_log series q ;;
  excess_kurt <- kurtosis_of series ;;
  Ok (mkStylizedRow col (fst lb_result) (snd lb_result)
        (fst arch_result) (snd arch_result) hill_idx excess_kurt).

Definition stylized_facts (returns : DataFrame) (config : EDAConfig)
  : result (list StylizedRow) :=
  map_result (fun c => stylized_row (fst c) (snd c) config) (columns returns).

End Diagnostics.

(** What section 4.4 of the spec says of one row of the stationarity
    table, given the outcome of each test on the series. *)
Definition adf_fields_ok (outcome : result (list npfloat)) (alpha : npfloat)
  (row : StationarityRow) : Prop :=
  match outcome with
  | Ok (stat :: pval :: _ :: _) =>
      ADF_Statistic row = stat /\ ADF_p_value row = pval /\
      ADF_Result row = (if flt pval alpha then "Stationary"%string
                        else "Non-stationary"%string)
  | _ =>
      ADF_Statistic row = NaN /\ ADF_p_value row = NaN /\
      ADF_Result row = "Error"%string
  end.

Definition kpss_fields_ok (outcome : result (list npfloat)) (alpha : npfloat)
  (row : StationarityRow) : Prop :=
  match outcome with
  | Ok (stat :: pval :: _ :: _) =>
      KPSS_Statistic row = stat /\ KPSS_p_value row = pval /\
      KPSS_Result row = (if fgt pval alpha then "Stationary"%string
                         else "Non-stationary"%string)
  | _ =>
      KPSS_Statistic row = NaN /\ KPSS_p_value row = NaN /\
      KPSS_Result row = "Error"%string
  end.

(** The same for one row of the table of stylized facts: the fields of a
    test hold its outcome, the last lag for Ljung-Box, and NaN when the
    test raised or did not return what is unpacked. *)
Definition ljung_box_fields_ok (outcome : result (list (list npfloat)))
  (row : StylizedRow) : Prop :=
  match outcome with
  | Ok [stat :: stats; pval :: pvals] =>
      Ljung_Box_Stat row = last (stat :: stats) NaN /\
      Ljung_Box_p_value row = last (pval :: pvals) NaN
  | _ => Ljung_Box_Stat row = NaN /\ Ljung_Box_p_value row = NaN
  end.

Definition arch_lm_fields_ok (outcome : result (list npfloat))
  (row : StylizedRow) : Prop :=
  match outcome with
  | Ok [stat; pval] => ARCH_LM_Stat row = stat /\ ARCH_LM_p_value row = pval
  | _ => ARCH_LM_Stat row = NaN /\ ARCH_LM_p_value row = NaN
  end.

(* ================================================================== *)
(** ** Effects: output and exceptions *)

(** A computation that emits outputs of type [E] and returns or raises;
    what was emitted before an exception stays emitted. *)
Definition eff (E A : Type) : Type := (list E * result A)%type.

Definition eret {E A} (a : A) : eff E A := ([], Ok a).

Definition lift {E A} (r : result A) : eff E A := ([], r).

Definition emit {E} (x : E) : eff E unit := ([x], Ok tt).

Definition ebind {E A B} (c : eff E A) (k : A -> eff E B) : eff E B :=
  match c with
  | (out, Ok a) => (out ++ fst (k a), snd (k a))
  | (out, Raise e) => (out, Raise e)
  end.

Definition etry {E A} (c : eff E A) (h : exn -> eff E A) : eff E A :=
  match c with
  | (out, Ok a) => (out, Ok a)
  | (out, Raise e) => (out ++ fst (h e), snd (h e))
  end.

Notation "x <~ c ;; k" := (ebind c (fun x => k))
  (at level 61, c at next level, right associativity).
Notation "c ;;; k" := (ebind c (fun _ => k))
  (at level 61, right associativity).

(** [str(e)] *)
Definition exn_message (e : exn) : string :=
  match e with
  | ValueError msg | TypeError msg | IndexError msg
  | FileNotFoundError msg | LibraryError msg => msg
  | KeyError key => ("'" ++ key ++ "'")%string
  end.

(* ================================================================== *)
(** ** Loading the price panel *)

Definition is_numeric_dtype (s : Series) : bool :=
  match s with
  | NumSeries _ => true
  | ObjSeries _ => false
  end.

(** [df[name]] *)
Definition lookup_column (name : string) (df : DataFrame) : result Series :=
  match find (fun c => String.eqb (fst c) name) (columns df) with
  | Some c => Ok (snd c)
  | None => Raise (KeyError name)
  end.

(** [df[names]].  pandas names every missing label in the message of
    its [KeyError]; the key kept here is the first of them. *)
Definition select_columns (names : list string) (df : DataFrame)
  : result DataFrame :=
  cols <- map_result (fun name => s <- lookup_column name df ;; Ok (name, s))
            names ;;
  Ok (mkDataFrame (index df) cols).

(** [df.set_index(name)] once the column holds timestamps. *)
Definition set_index (df : DataFrame) (name : string) (stamps : list Z)
  : DataFrame :=
  mkDataFrame (DatetimeIndex name stamps)
    (filter (fun c => negb (String.eqb (fst c) name)) (columns df)).

Definition is_date_like (col : string) : bool :=
  contains "date" (lower col) || contains "time" (lower col).

Definition exclude_patterns : list string :=
  ["date"; "time"; "index"; "id"]%string.

Fixpoint insert_bin (b : Z) (bins : list Z) : list Z :=
  match bins with
  | [] => [b]
  | b' :: rest =>
      if (b <? b')%Z then b :: bins
      else if (b =? b')%Z then bins
      else b' :: insert_bin b rest
  end.

(** The periods that hold a row, in order. *)
Definition bins_of (periods : list Z) : list Z :=
  fold_right insert_bin [] periods.

Definition last_valid (v : list npfloat) : npfloat :=
  last (dropna_values v) NaN.

Definition last_valid_obj (v : list (option string)) : option string :=
  last (filter is_some v) None.

Definition series_last_by_bin (periods bins : list Z) (s : Series) : Series :=
  let rows_of b := map (fun p => (p =? b)%Z) periods in
  match s with
  | NumSeries v =>
      NumSeries (map (fun b => last_valid (select_rows (rows_of b) v)) bins)
  | ObjSeries v =>
      ObjSeries (map (fun b => last_valid_obj (select_rows (rows_of b) v)) bins)
  end.

Section Loader.
(** The file system, the CSV reader and the date parser of pandas, and
    the period in which a resampling rule puts a timestamp. *)
Variable path_exists : string -> bool.
Variable read_csv : string -> result DataFrame.
Variable to_datetime : Series -> result (list Z).
Variable period_of : string -> result (Z -> Z).

(** [df[name] = pd.to_datetime(df[name]); df.set_index(name)] *)
Definition use_date_column (df : DataFrame) (name : string)
  : result DataFrame :=
  col <- lookup_column name df ;;
  stamps <- to_datetime col ;;
  Ok (set_index df name stamps).

(** The block "Handle date column" of [load_data]. *)
Definition handle_date_column (config : EDAConfig) (df : DataFrame)
  : eff string DataFrame :=
  if negb (String.eqb (date_column config) "")
     && mem_string (date_column config) (column_names df)
  then lift (use_date_column df (date_column config))
  else if parse_dates config then
    let date_cols := filter is_date_like (column_names df) in
    match date_cols with
    | c :: _ => lift (use_date_column df c)
    | [] =>
        first_col <~ lift (match column_names df with
                           | c :: _ => Ok c
                           | [] => Raise (IndexError "index 0 is out of bounds")
                           end) ;;
        etry (lift (use_date_column df first_col))
          (fun _ =>
             emit "Could not parse dates automatically. Using index as dates."%string
             ;;; eret df)
    end
  else eret df.

(** The blocks "Identify price columns" and "Apply exclusions". *)
Definition resolve_price_columns (config : EDAConfig) (df : DataFrame)
  : list string :=
  let price_cols :=
    match price_columns_include config with
    | _ :: _ => price_columns_include config
    | [] =>
        map fst
          (filter (fun c =>
                     negb (existsb (fun pattern => contains pattern (lower (fst c)))
                             exclude_patterns)
                     && is_numeric_dtype (snd c))
             (columns df))
    end in
  filter (fun col => negb (mem_string col (price_columns_exclude config)))
    price_cols.

(** [df.resample(rule).last()].  Periods without any row, which pandas
    fills with missing values, are left out: the [dropna] that follows in
    [load_data] removes them. *)
Definition resample_last (rule : string) (df : DataFrame) : result DataFrame :=
  match index df with
  | RangeIndex _ =>
      Raise (TypeError "Only valid with DatetimeIndex, TimedeltaIndex or PeriodIndex")
  | DatetimeIndex name stamps =>
      period <- period_of rule ;;
      let periods := map period stamps in
      let bins := bins_of periods in
      Ok (mkDataFrame (DatetimeIndex name bins)
            (map (fun c => (fst c, series_last_by_bin periods bins (snd c)))
               (columns df)))
  end.

Definition load_data (config : EDAConfig) : eff string DataFrame :=
  emit ("Loading data from " ++ input_csv config)%string ;;;
  (if path_exists (input_csv config) then eret tt
   else lift (Raise (FileNotFoundError "Data file not found"))) ;;;
  df <~ lift (try_except (read_csv (input_csv config))
                (fun _ => Raise (ValueError "Failed to load data"))) ;;
  df <~ handle_date_column config df ;;
  let price_cols := resolve_price_columns config df in
  (match price_cols with
   | [] => lift (Raise (ValueError "No price columns found!"))
   | _ => eret tt
   end) ;;;
  emit "Found price columns"%string ;;;
  df <~ lift (select_columns price_cols df) ;;
  (if df_empty df
   then lift (Raise (ValueError "No data found after selecting price columns"))
   else eret tt) ;;;
  df <~ (if dropna config then
           let df := df_dropna df in
           emit "Data shape after dropping NA"%string ;;;
           (if df_empty df
            then lift (Raise (ValueError "No data remaining after dropping NA values"))
            else eret tt) ;;;
           eret df
         else eret df) ;;
  df <~ (match resample config with
         | Some rule =>
             if String.eqb rule "" then eret df
             else
               resampled <~ lift (resample_last rule df) ;;
               let df := df_dropna resampled in
               emit "Resampled"%string ;;;
               eret df
         | None => eret df
         end) ;;
  eret df.

End Loader.

(** The precedence of section 4.1 of the spec for the temporal index. *)
Inductive index_choice : Type :=
| UseColumn (name : string)
| TryFirstColumn
| KeepOrdinal (warning : bool).

Definition index_choice_spec (config : EDAConfig) (names : list string)
  : index_choice :=
  if negb (String.eqb (date_column config) "")
     && mem_string (date_column config) names
  then UseColumn (date_column config)
  else
    match filter is_date_like names with
    | c :: _ => UseColumn c
    | [] => if parse_dates config then TryFirstColumn else KeepOrdinal true
    end.

(** The same decision as [handle_date_column] takes it. *)
Definition index_choice_code (config : EDAConfig) (names : list string)
  : index_choice :=
  if negb (String.eqb (date_column config) "")
     && mem_string (date_column config) names
  then UseColumn (date_column config)
  else if parse_dates config then
    match filter is_date_like names with
    | c :: _ => UseColumn c
    | [] => TryFirstColumn
    end
  else KeepOrdinal false.

(* ================================================================== *)
(** ** The figures *)

(** The calls of [create_plots] that draw or save something.  Titles,
    tick labels, layout and closing of a figure are left out. *)
Inductive plot_call : Type :=
| PlotPrint (line : string)
| NewFigure
| Subplot (num : nat)
| PlotLine (col : string)
| Heatmap
| AcfPlot (col : string)
| PacfPlot (col : string)
| ProbPlot (col : string)
| SaveFig (path : string).

(** [plt.subplot(3, 3, num)]: matplotlib rejects a number outside the
    grid. *)
Definition subplot (num : nat) : eff plot_call unit :=
  if (1 <=? num)%nat && (num <=? 9)%nat then emit (Subplot num)
  else lift (Raise (ValueError "num must be an integer with 1 <= num <= 9")).

(** [for col in columns: body] *)
Fixpoint for_each {E A} (l : list A) (body : A -> eff E unit) : eff E unit :=
  match l with
  | [] => eret tt
  | a :: rest => body a ;;; for_each rest body
  end.

(** [for i, col in enumerate(df.columns, i): ...; if i >= 9: break] *)
Fixpoint panel_loop (df : DataFrame) (i : nat) (cols : list string)
  : eff plot_call unit :=
  match cols with
  | [] => eret tt
  | col :: rest =>
      subplot i ;;;
      _ <~ lift (lookup_column col df) ;;
      emit (PlotLine col) ;;;
      if (9 <=? i)%nat then eret tt else panel_loop df (S i) rest
  end.

Definition plot_flags : list string :=
  ["timeseries"; "returns"; "heatmap"; "acf_pacf"; "qq"]%string.

Section Plots.
(** The routines of pandas, seaborn, statsmodels and SciPy that compute
    before they draw: the correlation matrix, the autocorrelation plot,
    the partial autocorrelation plot with its number of lags, and the
    probability plot. *)
Variable corr : DataFrame -> result unit.
Variable autocorrelation_plot : Series -> result unit.
Variable plot_pacf : Series -> nat -> result unit.
Variable probplot : Series -> result unit.

(** [plt.savefig(f"{config.output_dirs['reports']}/name", ...)] *)
Definition savefig (config : EDAConfig) (name : string)
  : eff plot_call unit :=
  reports <~ lift (dict_get "reports" (output_dirs config)) ;;
  emit (SaveFig (reports ++ "/" ++ name)).

(** The blocks "Time series plots" and "Returns plots". *)
Definition panel_figure (config : EDAConfig) (df : DataFrame) (name : string)
  : eff plot_call unit :=
  emit NewFigure ;;;
  panel_loop df 1 (column_names df) ;;;
  savefig config name.

Definition create_plots (prices returns : DataFrame) (config : EDAConfig)
  : eff plot_call unit :=
  emit (PlotPrint "Creating visualizations...") ;;;
  flag <~ lift (dict_get "timeseries" (plots config)) ;;
  (if flag : bool then panel_figure config prices "prices.png" else eret tt) ;;;
  flag <~ lift (dict_get "returns" (plots config)) ;;
  (if flag : bool then panel_figure config returns "returns.png" else eret tt) ;;;
  flag <~ lift (dict_get "heatmap" (plots config)) ;;
  (if flag : bool then
     emit NewFigure ;;;
     lift (corr returns) ;;;
     emit Heatmap ;;;
     savefig config "corr_heatmap.png"
   else eret tt) ;;;
  flag <~ lift (dict_get "acf_pacf" (plots config)) ;;
  (if flag : bool then
     for_each (column_names returns)
       (fun col =>
          emit NewFigure ;;;
          s <~ lift (lookup_column col returns) ;;
          lift (autocorrelation_plot s) ;;;
          emit (AcfPlot col) ;;;
          s <~ lift (lookup_column col returns) ;;
          lift (plot_pacf (series_dropna s) 40) ;;;
          emit (PacfPlot col) ;;;
          savefig config ("acf_" ++ col ++ ".png"))
   else eret tt) ;;;
  flag <~ lift (dict_get "qq" (plots config)) ;;
  (if flag : bool then
     for_each (column_names returns)
       (fun col =>
          emit NewFigure ;;;
          s <~ lift (lookup_column col returns) ;;
          lift (probplot (series_dropna s)) ;;;
          emit (ProbPlot col) ;;;
          savefig config ("qq_" ++ col ++ ".png"))
   else eret tt).

End Plots.

(* ================================================================== *)
(** ** The run *)

Inductive artifact : Type :=
| SummaryTable (rows : list SummaryRow)
| StationarityTable (rows : list StationarityRow)
| StylizedTable (rows : list StylizedRow).

(** What a run does to the outside world. *)
Inductive event : Type :=
| Print (line : string)
| MakeDirs (path : string)
| Plot (call : plot_call)
| WriteCsv (path : string) (table : artifact)
| WriteReport (path : string).

(** The routines of the libraries and of the operating system. *)
Record Library : Type := mkLibrary {
  yaml_dict : Type;
  lib_log : npfloat -> npfloat;
  lib_std : list npfloat -> npfloat;
  lib_skew : list npfloat -> npfloat;
  lib_kurtosis : list npfloat -> npfloat;
  lib_jarque_bera : list npfloat -> result (npfloat * npfloat);
  lib_adfuller : Series -> result (list npfloat);
  lib_kpss : Series -> result (list npfloat);
  lib_acorr_ljungbox : Series -> npfloat -> result (list (list npfloat));
  lib_het_arch : Series -> npfloat -> result (list npfloat);
  lib_path_exists : string -> bool;
  lib_read_csv : string -> result DataFrame;
  lib_to_datetime : Series -> result (list Z);
  lib_period_of : string -> result (Z -> Z);
  lib_yaml_safe_load : string -> result (option yaml_dict);
  lib_make_config : yaml_dict -> result EDAConfig;
  lib_corr : DataFrame -> result unit;
  lib_autocorrelation_plot : Series -> result unit;
  lib_plot_pacf : Series -> nat -> result unit;
  lib_probplot : Series -> result unit
}.

Definition prints {A} (c : eff string A) : eff event A :=
  (map Print (fst c), snd c).

(** The progress line of [create_plots] is a printed line like the
    others; its other calls are events of their own. *)
Definition plot_event (call : plot_call) : event :=
  match call with
  | PlotPrint line => Print line
  | _ => Plot call
  end.

Definition plotting {A} (c : eff plot_call A) : eff event A :=
  (map plot_event (fst c), snd c).

Definition load_config (lib : Library) (config_path : string)
  : result EDAConfig :=
  if lib_path_exists lib config_path then
    try_except
      (config_dict <- lib_yaml_safe_load lib config_path ;;
       match config_dict with
       | None => Raise (ValueError "Configuration file is empty or invalid")
       | Some d => lib_make_config lib d
       end)
      (fun _ => Raise (ValueError "Failed to load configuration"))
  else Raise (FileNotFoundError "Configuration file not found").

Definition setup_output_dirs (config : EDAConfig) : eff event unit :=
  fold_right (fun d rest => emit (MakeDirs (snd d)) ;;; rest) (eret tt)
    (output_dirs config).

(** [generate_report]: the text of the report is not modelled, the event
    records that the file is written. *)
Definition generate_report (config : EDAConfig) : eff event unit :=
  emit (Print "Generating EDA report...") ;;;
  reports <~ lift (dict_get "reports" (output_dirs config)) ;;
  emit (WriteReport (reports ++ "/EDA_Report.md")) ;;;
  emit (Print "Report saved").

(** The [try] block of [main].  The progress line that each analyzer
    prints first is emitted here, before the analyzer is called. *)
Definition run_pipeline (lib : Library) (config_path : string)
  : eff event unit :=
  config <~ lift (load_config lib config_path) ;;
  setup_output_dirs config ;;;
  prices <~ prints (load_data (lib_path_exists lib) (lib_read_csv lib)
                      (lib_to_datetime lib) (lib_period_of lib) config) ;;
  returns <~ lift (compute_returns (lib_log lib) prices (return_type config)) ;;
  emit (Print "Computing summary statistics...") ;;;
  summary_stats <~ lift (summary_statistics (lib_std lib) (lib_skew lib)
                           (lib_kurtosis lib) (lib_jarque_bera lib) returns) ;;
  alpha <~ lift (dict_get "adf_alpha" (tests config)) ;;
  emit (Print "Performing stationarity tests...") ;;;
  stationarity <~ lift (stationarity_tests (lib_adfuller lib) (lib_kpss lib)
                          returns alpha) ;;
  emit (Print "Computing stylized facts...") ;;;
  stylized_facts_df <~ lift (stylized_facts (lib_log lib)
                               (lib_acorr_ljungbox lib) (lib_het_arch lib)
                               (lib_kurtosis lib) returns config) ;;
  plotting (create_plots (lib_corr lib) (lib_autocorrelation_plot lib)
              (lib_plot_pacf lib) (lib_probplot lib) prices returns config) ;;;
  artifacts <~ lift (dict_get "artifacts" (output_dirs config)) ;;
  emit (WriteCsv (artifacts ++ "/summary_stats.csv")
          (SummaryTable summary_stats)) ;;;
  emit (WriteCsv (artifacts ++ "/stationarity.csv")
          (StationarityTable stationarity)) ;;;
  emit (WriteCsv (artifacts ++ "/stylized_facts.csv")
          (StylizedTable stylized_facts_df)) ;;;
  generate_report config ;;;
  emit (Print "EDA analysis completed successfully!") ;;;
  emit (Print "Results saved to:") ;;;
  artifacts <~ lift (dict_get "artifacts" (output_dirs config)) ;;
  emit (Print ("   - Artifacts: " ++ artifacts)) ;;;
  reports <~ lift (dict_get "reports" (output_dirs config)) ;;
  emit (Print ("   - Reports: " ++ reports)).

(** [main]: the events of the run and the exit status of the process. *)
Definition main (lib : Library) (config_path : string) : list event * Z :=
  match run_pipeline lib config_path with
  | (out, Ok _) => (out, 0%Z)
  | (out, Raise e) =>
      (out ++ [Print ("Error during EDA analysis: " ++ exn_message e)], 1%Z)
  end.

Definition is_write_csv (e : event) : bool :=
  match e with
  | WriteCsv _ _ => true
  | _ => false
  end.

(* ================================================================== *)
(** ** Sample inputs *)

Definition Fz (z : Z) : npfloat := Fin (inject_Z z).

(** The series 1, 2, ..., 20. *)
Definition ramp20 : list npfloat :=
  map Fz [1; 2; 3; 4; 5; 6; 7; 8; 9; 10;
          11; 12; 13; 14; 15; 16; 17; 18; 19; 20]%Z.

Definition ramp20_median : npfloat :=
  Eval vm_compute in
    match quantile (NumSeries ramp20) (Fin (1 # 2)) with
    | Ok u => u
    | Raise _ => NaN
    end.

Definition ramp20_q55 : npfloat :=
  Eval vm_compute in
    match quantile (NumSeries ramp20) (Fin (55 # 100)) with
    | Ok u => u
    | Raise _ => NaN
    end.

(** A return-like series with both signs: one loss of 4, five losses of
    2 and five gains of 2. *)
Definition mixed_sign : list npfloat :=
  map Fz [-4; -2; 2; -2; 2; -2; 2; -2; 2; -2; 2]%Z.

Definition mixed_sign_threshold : npfloat :=
  Eval vm_compute in
    match quantile (NumSeries mixed_sign) (Fin (5 # 100)) with
    | Ok u => u
    | Raise _ => NaN
    end.

(** A panel of two price series over three days. *)
Definition prices_ab : list (string * list npfloat) :=
  [("A"%string, map Fz [100; 110; 121]%Z);
   ("B"%string, map Fz [50; 40; 60]%Z)].

(** A price series that touches zero on the second day. *)
Definition prices_zero : list (string * list npfloat) :=
  [("A"%string, map Fz [1; 0; 2]%Z)].

(** Stand-ins for the library routines, used where a run is evaluated. *)
Definition moment_stub (v : list npfloat) : npfloat := NaN.

Definition jarque_bera_stub (v : list npfloat) : result (npfloat * npfloat) :=
  Ok (NaN, NaN).

(** The rows kept by [dropna] when only the first row is incomplete. *)
Definition all_but_first (n : nat) : list bool :=
  match n with
  | O => []
  | S m => false :: repeat true m
  end.

(** The scenario of the spec: two columns [A] and [B], 252 rows of
    strictly positive synthetic prices. *)
Definition prices_252 : list (string * list npfloat) :=
  [("A"%string, map (fun t => Fz (100 + Z.of_nat t)) (seq 0 252));
   ("B"%string, map (fun t => Fz (50 + 2 * Z.of_nat t)) (seq 0 252))].

Definition days_252 : Index := RangeIndex (seq 0 252).

(** A return panel with a constant series (a constant price) next to a
    moving one. *)
Definition returns_flat_up : list (string * list npfloat) :=
  [("FLAT"%string, [Fin 0; Fin 0; Fin 0; Fin 0]);
   ("UP"%string, [Fin (1 # 100); Fin (-2 # 100); Fin (3 # 100); Fin (1 # 100)])].

(** Forty days of returns: a series that never moves and one that
    does (a congruential sequence, in hundredths). *)
Fixpoint congruential (n : nat) : Z :=
  match n with
  | O => 1%Z
  | S k => ((75 * congruential k + 74) mod 65537)%Z
  end.

Definition returns_flat_wave : list (string * list npfloat) :=
  [("FLAT"%string, repeat (Fin 0) 40);
   ("WAVE"%string,
    map (fun t => Fin ((congruential t mod 201 - 100) # 100)) (seq 1 40))].

Definition days_40 : Index := RangeIndex (seq 1 40).

Definition is_constant (s : Series) : bool :=
  match s with
  | NumSeries [] => true
  | NumSeries v => fle (max_values v) (min_values v)
  | ObjSeries _ => false
  end.

(** Stand-ins for the tests of statsmodels: the unit-root tests reject a
    constant or empty series with an exception; [het_arch] returns its
    four values. *)
Definition adfuller_stub (s : Series) : result (list npfloat) :=
  if is_constant s then Raise (ValueError "Invalid input, x is constant")
  else Ok [Fin (-4); Fin (1 # 100); Fin 0; Fin 3].

Definition kpss_stub (s : Series) : result (list npfloat) :=
  if is_constant s then Raise (ValueError "cannot convert float NaN to integer")
  else Ok [Fin (1 # 10); Fin (1 # 10); Fin 1].

Definition acorr_ljungbox_stub (s : Series) (lags : npfloat)
  : result (list (list npfloat)) :=
  Ok [[Fin 1; Fin 2]; [Fin (1 # 2); Fin (3 # 10)]].

Definition het_arch_stub (s : Series) (nlags : npfloat)
  : result (list npfloat) :=
  Ok [Fin 1; Fin (1 # 2); Fin 1; Fin (1 # 2)].

Definition sample_config : EDAConfig :=
  mkEDAConfig "data/prices.csv" "Date" true true [] [] None "log"
    [("timeseries"%string, false)]
    [("adf_alpha"%string, Fin (5 # 100)); ("lb_lags"%string, Fin 20);
     ("arch_lm_lags"%string, Fin 12)]
    [("hill_threshold_quantile"%string, Fin (95 # 100))]
    [("artifacts"%string, "artifacts/eda"%string);
     ("reports"%string, "reports/eda"%string)]
    123.

(** The same configuration with the five figures named and switched
    off. *)
Definition config_plots_off : EDAConfig :=
  mkEDAConfig "data/prices.csv" "Date" true true [] [] None "log"
    [("timeseries"%string, false); ("returns"%string, false);
     ("heatmap"%string, false); ("acf_pacf"%string, false);
     ("qq"%string, false)]
    [("adf_alpha"%string, Fin (5 # 100)); ("lb_lags"%string, Fin 20);
     ("arch_lm_lags"%string, Fin 12)]
    [("hill_threshold_quantile"%string, Fin (95 # 100))]
    [("artifacts"%string, "artifacts/eda"%string);
     ("reports"%string, "reports/eda"%string)]
    123.

(** A CSV file with a date column, a price column and a column without
    any value, and a configuration that resamples it by week without
    dropping missing rows first. *)
Definition csv_with_gap : DataFrame :=
  mkDataFrame (RangeIndex [0; 1; 2]%nat)
    [("Date"%string,
      ObjSeries [Some "2024-01-01"; Some "2024-01-02"; Some "2024-01-10"]%string);
     ("A"%string, NumSeries [Fin 100; Fin 101; Fin 102]);
     ("B"%string, NumSeries [NaN; NaN; NaN])].

Definition config_resample : EDAConfig :=
  mkEDAConfig "data/prices.csv" "Date" true false [] [] (Some "W"%string) "log"
    [("timeseries"%string, false); ("returns"%string, false);
     ("heatmap"%string, false); ("acf_pacf"%string, false);
     ("qq"%string, false)]
    [("adf_alpha"%string, Fin (5 # 100)); ("lb_lags"%string, Fin 20);
     ("arch_lm_lags"%string, Fin 12)]
    [("hill_threshold_quantile"%string, Fin (95 # 100))]
    [("artifacts"%string, "artifacts/eda"%string);
     ("reports"%string, "reports/eda"%string)]
    123.

(** A CSV file with a date column and one numeric column named [id]. *)
Definition csv_only_id : DataFrame :=
  mkDataFrame (RangeIndex [0; 1]%nat)
    [("Date"%string, ObjSeries [Some "2024-01-01"; Some "2024-01-02"]%string);
     ("id"%string, NumSeries [Fin 1; Fin 2])].

(** A CSV file whose date column is not announced by the configuration. *)
Definition csv_dated : DataFrame :=
  mkDataFrame (RangeIndex [0; 1]%nat)
    [("Date"%string, ObjSeries [Some "2024-01-01"; Some "2024-01-02"]%string);
     ("A"%string, NumSeries [Fin 100; Fin 101])].

Definition config_no_dates : EDAConfig :=
  mkEDAConfig "data/prices.csv" "" false true [] [] None "log"
    [] [("adf_alpha"%string, Fin (5 # 100))]
    [("hill_threshold_quantile"%string, Fin (95 # 100))]
    [("artifacts"%string, "artifacts/eda"%string);
     ("reports"%string, "reports/eda"%string)]
    123.

(** Stand-ins for the operating system and pandas: every path exists,
    the date parser numbers the days of January 2024 and rejects floats,
    the rule [W] puts seven days in a period. *)
Definition to_datetime_stub (s : Series) : result (list Z) :=
  match s with
  | ObjSeries v =>
      map_result
        (fun o =>
           match o with
           | Some "2024-01-01"%string => Ok 0%Z
           | Some "2024-01-02"%string => Ok 1%Z
           | Some "2024-01-10"%string => Ok 9%Z
           | _ => Raise (ValueError "Unknown datetime string format")
           end) v
  | NumSeries _ => Raise (ValueError "Unknown datetime string format")
  end.

Definition period_of_stub (rule : string) : result (Z -> Z) :=
  if String.eqb rule "W" then Ok (fun t => (t / 7)%Z)
  else Raise (ValueError "Invalid frequency").

(** Stand-ins for the plotting routines: they draw whatever they are
    given, except that the partial autocorrelation needs more than twice
    as many observations as lags. *)
Definition plot_stub {A} (x : A) : result unit := Ok tt.

Definition plot_pacf_stub (s : Series) (lags : nat) : result unit :=
  if (lags <? series_length s / 2)%nat then Ok tt
  else Raise (ValueError "Can only compute partial correlations for lags up to 50% of the sample size").

Definition library_stub (csv : DataFrame) (config : EDAConfig) : Library :=
  mkLibrary unit log_pade moment_stub moment_stub moment_stub jarque_bera_stub
    adfuller_stub kpss_stub acorr_ljungbox_stub het_arch_stub
    (fun _ => true) (fun _ => Ok csv) to_datetime_stub period_of_stub
    (fun _ => Ok (Some tt)) (fun _ => Ok config)
    plot_stub plot_stub plot_pacf_stub plot_stub.

(* ================================================================== *)
(** ** Order *)

Definition sorted_values (l : list npfloat) : Prop :=
  StronglySorted (fun a b => fle a b = true) l.

(* ================================================================== *)
(** ** Simple returns and the shape of a frame *)

(** The simple returns: [(price[t] - price[t-1]) / price[t-1]] for every
    row [t] after the first. *)
Definition simple_returns (price : list npfloat) : list npfloat :=
  zip_with (fun p prev => fdiv (fsub p prev) prev) (tl price) price.

Definition nonzero_finite (x : npfloat) : bool :=
  match x with
  | Fin a => negb (Qeq_bool a 0)
  | _ => false
  end.

(** Every column has one entry per row. *)
Definition rectangular (df : DataFrame) : Prop :=
  Forall (fun c => series_length (snd c) = nrows df) (columns df).

(** A configuration without the tail parameters. *)
Definition config_no_hill : EDAConfig :=
  mkEDAConfig "data/prices.csv" "Date" true true [] [] None "log"
    [] [("adf_alpha"%string, Fin (5 # 100)); ("lb_lags"%string, Fin 20);
        ("arch_lm_lags"%string, Fin 12)]
    []
    [("artifacts"%string, "artifacts/eda"%string);
     ("reports"%string, "reports/eda"%string)]
    123.

(** Configurations without the significance level, and without the
    reports directory. *)
Definition config_no_alpha : EDAConfig :=
  mkEDAConfig "data/prices.csv" "Date" true true [] [] None "log"
    [] [("lb_lags"%string, Fin 20); ("arch_lm_lags"%string, Fin 12)]
    [("hill_threshold_quantile"%string, Fin (95 # 100))]
    [("artifacts"%string, "artifacts/eda"%string);
     ("reports"%string, "reports/eda"%string)]
    123.

Definition config_no_reports : EDAConfig :=
  mkEDAConfig "data/prices.csv" "Date" true true [] [] None "log"
    [("timeseries"%string, false); ("returns"%string, false);
     ("heatmap"%string, false); ("acf_pacf"%string, false);
     ("qq"%string, false)]
    [("adf_alpha"%string, Fin (5 # 100)); ("lb_lags"%string, Fin 20);
        ("arch_lm_lags"%string, Fin 12)]
    [("hill_threshold_quantile"%string, Fin (95 # 100))]
    [("artifacts"%string, "artifacts/eda"%string)]
    123.

(* ================================================================== *)
(** ** Properties of a loaded panel *)

(** No column misses a value. *)
Definition complete_frame (df : DataFrame) : Prop :=
  Forall (fun c => forallb (fun b => b) (series_notna (snd c)) = true)
    (columns df).

(** A resampling rule is configured. *)
Definition resample_active (config : EDAConfig) : Prop :=
  exists rule, resample config = Some rule /\ String.eqb rule "" = false.

(** A CSV file with a close price, a bid and a volume index. *)
Definition csv_bid : DataFrame :=
  mkDataFrame (RangeIndex [0; 1]%nat)
    [("Date"%string, ObjSeries [Some "2024-01-01"; Some "2024-01-02"]%string);
     ("Close"%string, NumSeries [Fin 100; Fin 101]);
     ("bid"%string, NumSeries [Fin 99; Fin 100]);
     ("Volume_Index"%string, NumSeries [Fin 5; Fin 6])].

(** A configuration whose include list names the date column. *)
Definition config_include_date : EDAConfig :=
  mkEDAConfig "data/prices.csv" "Date" true true ["Date"; "A"]%string [] None
    "log" [] [("adf_alpha"%string, Fin (5 # 100))]
    [("hill_threshold_quantile"%string, Fin (95 # 100))]
    [("artifacts"%string, "artifacts/eda"%string);
     ("reports"%string, "reports/eda"%string)]
    123.

(** A configuration that resamples by week without any date column. *)
Definition config_resample_no_dates : EDAConfig :=
  mkEDAConfig "data/prices.csv" "" false true [] [] (Some "W"%string) "log"
    [] [("adf_alpha"%string, Fin (5 # 100))]
    [("hill_threshold_quantile"%string, Fin (95 # 100))]
    [("artifacts"%string, "artifacts/eda"%string);
     ("reports"%string, "reports/eda"%string)]
    123.

(* ================================================================== *)
(** ** What the figures hold *)

(** The panels of a figure: one numbered cell per column. *)
Definition panels (i : nat) (cols : list string) : list plot_call :=
  flat_map (fun p => [Subplot (fst p); PlotLine (snd p)])
    (combine (seq i (10 - i)) cols).

Definition saved_path (c : plot_call) : list string :=
  match c with SaveFig path => [path] | _ => [] end.

(** The files a run of [create_plots] saves, in order. *)
Definition saved_files (calls : list plot_call) : list string :=
  flat_map saved_path calls.

Definition flag_on (config : EDAConfig) (key : string) : bool :=
  match dict_get key (plots config) with Ok true => true | _ => false end.

(** A configuration with every figure switched on, and a panel of
    eleven columns. *)
Definition config_all_plots : EDAConfig :=
  mkEDAConfig "data/prices.csv" "Date" true true [] [] None "log"
    [("timeseries"%string, true); ("returns"%string, true);
     ("heatmap"%string, true); ("acf_pacf"%string, true);
     ("qq"%string, true)]
    [("adf_alpha"%string, Fin (5 # 100))]
    [("hill_threshold_quantile"%string, Fin (95 # 100))]
    [("artifacts"%string, "artifacts/eda"%string);
     ("reports"%string, "reports/eda"%string)]
    123.

(** A hundred days of two series. *)
Definition panel_100 : DataFrame :=
  num_frame (RangeIndex (seq 1 100))
    [("A"%string,
      map (fun t => Fin ((congruential t mod 201 - 100) # 100)) (seq 1 100));
     ("B"%string,
      map (fun t => Fin ((congruential (t + 7) mod 201 - 100) # 100))
        (seq 1 100))].

Definition panel_ab : DataFrame :=
  mkDataFrame (RangeIndex [0; 1]%nat)
    [("A"%string, NumSeries [Fin 1; Fin 2]);
     ("B"%string, NumSeries [Fin 3; Fin 4])].

(* ================================================================== *)
(** ** Standardized names of the residual files ([rename_nf_residuals.py]) *)

Definition is_upper (c : Ascii.ascii) : bool :=
  let n := Ascii.nat_of_ascii c in ((65 <=? n) && (n <=? 90))%nat.

Definition is_alpha (c : Ascii.ascii) : bool :=
  let n := Ascii.nat_of_ascii c in
  is_upper c || ((97 <=? n) && (n <=? 122))%nat.

(** The regular expressions of [standardize_filename] are sequences of
    literal text and of groups [([a-zA-Z]+)] and [([A-Z]+)], between [^]
    and [$]. *)
Inductive re_item : Type :=
| Lit (text : string)
| Group (class : Ascii.ascii -> bool).

Fixpoint strip_prefix (text s : string) : option string :=
  match text with
  | EmptyString => Some s
  | String a text' =>
      match s with
      | String b s' => if Ascii.eqb a b then strip_prefix text' s' else None
      | EmptyString => None
      end
  end.

Fixpoint run_length (class : Ascii.ascii -> bool) (s : string) : nat :=
  match s with
  | String c s' => if class c then S (run_length class s') else 0%nat
  | EmptyString => 0%nat
  end.

Fixpoint string_take (k : nat) (s : string) : string :=
  match k, s with
  | S k', String c s' => String c (string_take k' s')
  | _, _ => EmptyString
  end.

Fixpoint string_drop (k : nat) (s : string) : string :=
  match k, s with
  | S k', String _ s' => string_drop k' s'
  | _, _ => s
  end.

Definition newline : Ascii.ascii := "010"%char.

(** [$]: the end of the string, or just before a newline that ends it. *)
Definition at_end (s : string) : bool :=
  match s with
  | EmptyString => true
  | String c EmptyString => Ascii.eqb c newline
  | _ => false
  end.

(** The first success among [f k], [f (k - 1)], ..., [f 1]: a greedy
    [+] gives back one character at a time. *)
Fixpoint longest_first {X} (k : nat) (f : nat -> option X) : option X :=
  match k with
  | O => None
  | S k' =>
      match f (S k') with
      | Some x => Some x
      | None => longest_first k' f
      end
  end.

(** [re.match(pattern, s)]: the groups of the match, if there is one. *)
Fixpoint re_match (pattern : list re_item) (s : string)
  : option (list string) :=
  match pattern with
  | [] => if at_end s then Some [] else None
  | Lit text :: pattern' =>
      match strip_prefix text s with
      | Some s' => re_match pattern' s'
      | None => None
      end
  | Group class :: pattern' =>
      longest_first (run_length class s)
        (fun k =>
           match re_match pattern' (string_drop k s) with
           | Some groups => Some (string_take k s :: groups)
           | None => None
           end)
  end.

(** [s.replace(old, '')] for a non-empty [old]; [skip] counts the
    characters of an occurrence that are still to be dropped. *)
Fixpoint remove_from (old : string) (skip : nat) (s : string) : string :=
  match s with
  | EmptyString => EmptyString
  | String c s' =>
      match skip with
      | S k => remove_from old k s'
      | O =>
          if String.prefix old (String c s')
          then remove_from old (String.length old - 1) s'
          else String c (remove_from old 0 s')
      end
  end.

Definition str_remove (old s : string) : string := remove_from old 0 s.

Definition patterns : list (list re_item) :=
  [ [Group is_alpha; Lit "_"; Group is_alpha; Lit "_"; Group is_alpha;
     Lit "_"; Group is_upper; Lit "_residuals_synthetic"];
    [Group is_alpha; Lit "_"; Group is_upper; Lit "_residuals_";
     Group is_alpha; Lit "_"; Group is_alpha;
     Lit "_residuals_synthetic_synthetic"];
    [Group is_alpha; Lit "_"; Group is_upper; Lit "_TS_CV_residuals_";
     Group is_alpha; Lit "_"; Group is_alpha;
     Lit "_residuals_synthetic_synthetic"];
    [Group is_alpha; Lit "_"; Group is_upper; Lit "_Chrono_Split_residuals_";
     Group is_alpha; Lit "_"; Group is_alpha;
     Lit "_residuals_synthetic_synthetic"] ]%string.

(** [f"{config}_{dist}_{asset_type}_{asset}_residuals_synthetic.csv"] *)
Definition standard_name (config dist asset_type asset : string) : string :=
  (config ++ "_" ++ dist ++ "_" ++ asset_type ++ "_" ++ asset
   ++ "_residuals_synthetic.csv")%string.

(** The loop over the patterns: the first pattern that matches with four
    groups decides. *)
Fixpoint first_pattern (ps : list (list re_item)) (name : string)
  : option string :=
  match ps with
  | [] => None
  | pattern :: ps' =>
      match re_match pattern name with
      | Some [g1; g2; g3; g4] =>
          if mem_string g1 ["fx"; "equity"]%string
          then Some (standard_name g3 g4 g1 g2)
          else Some (standard_name g1 g2 g3 g4)
      | _ => first_pattern ps' name
      end
  end.

Definition standardize_filename (filename : string) : string :=
  let name := str_remove ".csv" filename in
  match first_pattern patterns name with
  | Some new_name => new_name
  | None => filename
  end.

(** Words and names made of words. *)
Fixpoint string_forall (p : Ascii.ascii -> bool) (s : string) : bool :=
  match s with
  | EmptyString => true
  | String c s' => p c && string_forall p s'
  end.

Definition word (class : Ascii.ascii -> bool) (w : string) : bool :=
  match w with
  | EmptyString => false
  | _ => string_forall class w
  end.

(** ['_'.join(words)] *)
Fixpoint join (words : list string) : string :=
  match words with
  | [] => EmptyString
  | [w] => w
  | w :: rest => (w ++ String "_" (join rest))%string
  end.

(** A pattern seen word by word. *)
Inductive token : Type :=
| TWord (w : string)
| TGroup (class : Ascii.ascii -> bool).

Fixpoint token_match (tokens : list token) (words : list string)
  : option (list string) :=
  match tokens, words with
  | [], [] => Some []
  | TWord w :: tokens', d :: words' =>
      if String.eqb w d then token_match tokens' words' else None
  | TGroup class :: tokens', d :: words' =>
      if string_forall class d
      then option_map (cons d) (token_match tokens' words')
      else None
  | _, _ => None
  end.

Definition token_item (t : token) : re_item :=
  match t with
  | TWord w => Lit w
  | TGroup class => Group class
  end.

(** The pattern of a list of tokens, with one literal per word and per
    underscore. *)
Fixpoint token_pattern (tokens : list token) : list re_item :=
  match tokens with
  | [] => []
  | [t] => [token_item t]
  | t :: rest => token_item t :: Lit "_" :: token_pattern rest
  end.

Definition well_formed_token (t : token) : bool :=
  match t with
  | TWord w => word is_alpha w
  | TGroup class => negb (class "_"%char)
  end.

(** The four layouts, word by word. *)
Definition layouts : list (list token) :=
  [ [TGroup is_alpha; TGroup is_alpha; TGroup is_alpha; TGroup is_upper;
     TWord "residuals"; TWord "synthetic"];
    [TGroup is_alpha; TGroup is_upper; TWord "residuals";
     TGroup is_alpha; TGroup is_alpha;
     TWord "residuals"; TWord "synthetic"; TWord "synthetic"];
    [TGroup is_alpha; TGroup is_upper; TWord "TS"; TWord "CV";
     TWord "residuals"; TGroup is_alpha; TGroup is_alpha;
     TWord "residuals"; TWord "synthetic"; TWord "synthetic"];
    [TGroup is_alpha; TGroup is_upper; TWord "Chrono"; TWord "Split";
     TWord "residuals"; TGroup is_alpha; TGroup is_alpha;
     TWord "residuals"; TWord "synthetic"; TWord "synthetic"] ]%string.

(** Two patterns that match the same strings with the same groups. *)
Definition re_equiv (p q : list re_item) : Prop :=
  forall s, re_match p s = re_match q s.

(** The loop over the patterns, word by word. *)
Fixpoint first_layout (ls : list (list token)) (words : list string)
  : option string :=
  match ls with
  | [] => None
  | tokens :: ls' =>
      match token_match tokens words with
      | Some [g1; g2; g3; g4] =>
          if mem_string g1 ["fx"; "equity"]%string
          then Some (standard_name g3 g4 g1 g2)
          else Some (standard_name g1 g2 g3 g4)
      | _ => first_layout ls' words
      end
  end.

(** The characters of a name made of words. *)
Definition name_char (c : Ascii.ascii) : bool :=
  is_alpha c || Ascii.eqb c "_"%char.

(* ================================================================== *)
(** ** The tail index on the floats of the machine *)


(** [hill_tail_index] once more, on IEEE 754 binary64 numbers with their
    rounding, overflow and underflow, term for term as above.  A series
    is the list of its values. *)
Module Binary64.
Import PrimFloat.
Local Open Scope float_scope.

Definition of_nat (n : nat) : float := of_uint63 (Uint63.of_Z (Z.of_nat n)).

(** The integer part of a non-negative finite float. *)
Definition floor_index (x : float) : nat :=
  match FloatOps.Prim2SF x with
  | SpecFloat.S754_finite false m e =>
      Z.to_nat (if (0 <=? e)%Z then Z.pos m * 2 ^ e
                else Z.pos m / 2 ^ (- e))
  | _ => 0%nat
  end.

Definition dropna_values (v : list float) : list float :=
  filter (fun x => negb (is_nan x)) v.

Fixpoint insert_sorted (x : float) (l : list float) : list float :=
  match l with
  | [] => [x]
  | y :: l' => if x <=? y then x :: y :: l' else y :: insert_sorted x l'
  end.

Definition sort_values (l : list float) : list float :=
  fold_right insert_sorted [] l.

(** NumPy's [_lerp]. *)
Definition lerp (a b t : float) : float :=
  let diff_b_a := b - a in
  if 0.5 <=? t
  then b - diff_b_a * (1 - t)
  else a + diff_b_a * t.

(** [np.percentile(values, q * 100.0, method="linear")]: NumPy divides
    the percentage by 100 again. *)
Definition percentile_linear (values : list float) (q : float) : float :=
  let arr := sort_values values in
  match arr with
  | [] => nan
  | _ =>
      let n := length arr in
      let virtual_index := of_nat (n - 1) * ((q * 100) / 100) in
      let previous_index := floor_index virtual_index in
      let next_index := Nat.min (previous_index + 1) (n - 1) in
      let gamma := virtual_index - of_nat previous_index in
      lerp (nth previous_index arr nan) (nth next_index arr nan) gamma
  end.

Definition validate_percentile (q : float) : result float :=
  if (0 <=? q) && (q <=? 1) then Ok q
  else Raise (ValueError "percentiles should all be in the interval [0, 1]").

Definition quantile (series : list float) (q : float) : result float :=
  q' <- validate_percentile q ;;
  Ok (percentile_linear (dropna_values series) q').

(** [Series.mean()], missing values skipped; the sum is taken from left
    to right. *)
Definition mean (v : list float) : float :=
  let present := dropna_values v in
  match present with
  | [] => nan
  | _ => fold_left add present 0 / of_nat (length present)
  end.

Section Tail.
Variable np_log : float -> float.

Definition hill_body (series : list float) (threshold_quantile : float)
  : result float :=
  threshold <- quantile series threshold_quantile ;;
  let tail_data := filter (fun x => threshold <? x) series in
  if (length tail_data <? 10)%nat then Ok nan
  else
    let log_exceedances := map (fun x => np_log (x / threshold)) tail_data in
    let hill_index := 1 / mean log_exceedances in
    Ok hill_index.

Definition hill_tail_index (series : list float) (threshold_quantile : float)
  : result float :=
  try_except (hill_body series threshold_quantile) (fun _ => Ok nan).

End Tail.

(** A stand-in for the logarithm with its special values, as [log_pade]. *)
Definition log_pade (x : float) : float :=
  if is_nan x then nan
  else if x <? 0 then nan
  else if x =? 0 then neg_infinity
  else if x =? infinity then infinity
  else 2 * (x - 1) / (x + 1).


(** Eleven values [2^-1000] and ten values [2^1000]. *)
Definition tiny : float := Eval vm_compute in FloatOps.Z.ldexp 1 (-1000).
Definition huge : float := Eval vm_compute in FloatOps.Z.ldexp 1 1000.
Definition wide_series : list float := repeat tiny 11 ++ repeat huge 10.
Definition half : float := 0.5.

End Binary64.

(** The same series in exact arithmetic. *)
Definition wide_series : list npfloat :=
  repeat (Fin (1 # 2 ^ 1000)) 11 ++ repeat (Fin (inject_Z (2 ^ 1000))) 10.


(* ================================================================== *)
(** * Theorems *)

(** ** Arithmetic on [npfloat] *)

Lemma Qlt_bool_iff (a b : Q) : Qlt_bool a b = true <-> a < b.
Proof.
  unfold Qlt_bool. rewrite negb_true_iff.
  split; intro H.
  - apply Qnot_le_lt. intro Hle. apply Qle_bool_iff in Hle. congruence.
  - destruct (Qle_bool b a) eqn:E; [|reflexivity].
    apply Qle_bool_iff in E. lra.
Qed.

Lemma Qlt_bool_false (a b : Q) : Qlt_bool a b = false <-> b <= a.
Proof.
  unfold Qlt_bool. rewrite negb_false_iff. apply Qle_bool_iff.
Qed.

Lemma positive_finite_inv (x : npfloat) :
  positive_finite x = true -> exists a, x = Fin a /\ 0 < a.
Proof.
  destruct x; simpl; try discriminate.
  intro H. exists q. split; [reflexivity | now apply Qlt_bool_iff].
Qed.


Lemma fdiv_pos (a b : Q) :
  0 < b -> fdiv (Fin a) (Fin b) = Fin (a / b).
Proof.
  intro Hb. unfold fdiv.
  destruct (Qcompare_spec b 0) as [E|E|E]; try reflexivity; lra.
Qed.


Lemma Qdiv_pos (a b : Q) : 0 < a -> 0 < b -> 0 < a / b.
Proof.
  intros Ha Hb. apply Qlt_shift_div_l; lra.
Qed.

(** The stand-in logarithm meets the axioms, so they are consistent. *)
Lemma log_pade_axioms : log_axioms log_pade.
Proof.
  constructor; try reflexivity.
  - intros q Hq. unfold log_pade.
    destruct (Qcompare_spec q 0); try reflexivity; lra.
  - intros q Hq. unfold log_pade.
    destruct (Qcompare_spec q 0); try reflexivity; lra.
  - intros q Hq. unfold log_pade.
    destruct (Qcompare_spec q 0); try lra.
    eexists. split; [reflexivity|].
    intro H1. rewrite Qred_correct. apply Qdiv_pos; lra.
Qed.

(** ** Sorting and the quantile *)

Lemma inject_Z_nonneg (z : Z) : (0 <= z)%Z -> 0 <= inject_Z z.
Proof. intro H. unfold Qle. simpl. lia. Qed.

Lemma insert_sorted_Forall (P : npfloat -> Prop) x l :
  P x -> Forall P l -> Forall P (insert_sorted x l).
Proof.
  intros Hx Hl. induction Hl as [|y l Hy Hl IH]; simpl.
  - auto.
  - destruct (fle x y); auto.
Qed.

Lemma sort_values_Forall (P : npfloat -> Prop) l :
  Forall P l -> Forall P (sort_values l).
Proof.
  induction 1; simpl; auto using insert_sorted_Forall.
Qed.

Lemma insert_sorted_length x l :
  length (insert_sorted x l) = S (length l).
Proof.
  induction l as [|y l IH]; simpl; [reflexivity|].
  destruct (fle x y); simpl; congruence.
Qed.

Lemma sort_values_length l : length (sort_values l) = length l.
Proof.
  induction l as [|x l IH]; simpl; [reflexivity|].
  now rewrite insert_sorted_length, IH.
Qed.




Lemma validate_percentile_inv q q' :
  validate_percentile q = Ok q' -> q = Fin q' /\ 0 <= q' /\ q' <= 1.
Proof.
  destruct q as [| | |r]; simpl; try discriminate.
  destruct (Qle_bool 0 r) eqn:E0; simpl; try discriminate.
  destruct (Qle_bool r 1) eqn:E1; simpl; try discriminate.
  intro H. injection H as <-.
  apply Qle_bool_iff in E0, E1. auto.
Qed.

Lemma quantile_num_inv v q u :
  quantile (NumSeries v) q = Ok u ->
  exists q', q = Fin q' /\ 0 <= q' /\ q' <= 1 /\
             u = percentile_linear (dropna_values v) q'.
Proof.
  unfold quantile. destruct (validate_percentile q) as [q'|e] eqn:E; simpl.
  - intro H. injection H as <-. apply validate_percentile_inv in E.
    exists q'. intuition.
  - discriminate.
Qed.



(** ** The mean *)

Lemma dropna_all_present v :
  forallb notna v = true -> dropna_values v = v.
Proof.
  unfold dropna_values. induction v as [|x v IH]; simpl; [reflexivity|].
  intro H. apply andb_true_iff in H as [Hx Hv]. rewrite Hx. now rewrite IH.
Qed.

(** Without NaN among the values pandas' mean is the plain mean. *)
Lemma mean_all_present v :
  forallb notna v = true -> mean v = mean_all v.
Proof.
  intro H. unfold mean, mean_all. rewrite (dropna_all_present _ H).
  destruct v; reflexivity.
Qed.


Lemma of_nat_pos n : (0 < n)%nat -> 0 < inject_Z (Z.of_nat n).
Proof. intro H. unfold Qlt. simpl. lia. Qed.


(** ** The Hill estimator *)

Section TailFacts.
Variable np_log : npfloat -> npfloat.

Lemma hill_unfold (X : list npfloat) (q u : npfloat) :
  quantile (NumSeries X) q = Ok u ->
  hill_tail_index np_log (NumSeries X) q =
  Ok (let T := filter (fun x => fgt x u) X in
      if (length T <? 10)%nat then NaN
      else fdiv (Fin 1) (mean (log_exceedances np_log T u))).
Proof.
  intro Hq. unfold hill_tail_index, hill_body. rewrite Hq. simpl.
  destruct (length _ <? 10)%nat; reflexivity.
Qed.

Lemma quantile_ok_numeric (series : Series) (q u : npfloat) :
  quantile series q = Ok u -> exists X, series = NumSeries X.
Proof.
  destruct series as [X|S]; [eauto|].
  unfold quantile. destruct (validate_percentile q); discriminate.
Qed.

Hypothesis Hlog : log_axioms np_log.

(** Above a positive threshold every log-exceedance is defined. *)
Lemma log_exceedance_present (x u : npfloat) :
  fgt u (Fin 0) = true -> fgt x u = true ->
  notna (np_log (fdiv x u)) = true.
Proof.
  intros Hu Hx.
  destruct u as [| | |a]; simpl in Hu; try discriminate.
  - destruct x; discriminate.
  - apply Qlt_bool_iff in Hu.
    destruct x as [| | |b]; simpl in Hx; try discriminate.
    + unfold fdiv. replace (Qlt_bool a 0) with false.
      * now rewrite (log_pinf _ Hlog).
      * symmetry. apply Qlt_bool_false. lra.
    + apply Qlt_bool_iff in Hx. rewrite (fdiv_pos _ _ Hu).
      destruct (log_pos _ Hlog (b / a)) as [r [Er _]].
      * apply Qdiv_pos; lra.
      * now rewrite Er.
Qed.

End TailFacts.

(** [test_hill_with_insufficient_data] of [tests/test_tails.py]. *)
Example test_hill_with_insufficient_data :
  hill_tail_index log_pade
    (NumSeries [Fin 1; Fin 2; Fin 3; Fin 4; Fin 5]) default_threshold_quantile
  = Ok NaN.
Proof. vm_compute. reflexivity. Qed.

Example ramp20_median_value : ramp20_median = Fin (21 # 2).
Proof. vm_compute. reflexivity. Qed.

Lemma fdiv_one_nan (m : npfloat) : fdiv (Fin 1) m = NaN -> m = NaN.
Proof.
  destruct m as [| | |b]; try discriminate; [reflexivity|].
  unfold fdiv. destruct (Qcompare_spec b 0); discriminate.
Qed.

Lemma sum_values_nan v : In NaN v -> sum_values v = NaN.
Proof.
  induction v as [|x v IH]; simpl; [tauto|].
  intros [->|Hin]; [reflexivity|].
  rewrite (IH Hin). destruct x; reflexivity.
Qed.

Lemma mean_all_nan v : In NaN v -> mean_all v = NaN.
Proof.
  intro H. unfold mean_all. now rewrite (sum_values_nan _ H).
Qed.

Lemma sum_values_finite v :
  Forall (fun x => isfinite x = true) v -> exists s, sum_values v = Fin s.
Proof.
  induction 1 as [|x v Hx Hv [s Es]]; simpl; [eauto|].
  destruct x; try discriminate. rewrite Es. simpl. eauto.
Qed.

(** A mean over finitely many finite values, at least one, is finite. *)
Lemma mean_finite v :
  Forall (fun x => isfinite x = true) (dropna_values v) ->
  dropna_values v <> [] ->
  exists m, mean v = Fin m.
Proof.
  intros Hfin Hne. unfold mean.
  destruct (sum_values_finite _ Hfin) as [s Es].
  destruct (dropna_values v) as [|x l]; [congruence|].
  rewrite Es. unfold of_nat. rewrite fdiv_pos; [eauto|].
  apply of_nat_pos. simpl. lia.
Qed.

(** C10.  [hill_tail_index] is total: on every series (empty, constant,
    with missing or non-numeric entries) and every threshold quantile it
    returns a float and never raises; whenever the body of its [try]
    block raises, the float returned is NaN. *)
Theorem hill_tail_index_never_raises :
  forall (np_log : npfloat -> npfloat) (series : Series)
         (threshold_quantile : npfloat),
    hill_tail_index np_log series threshold_quantile =
    Ok (match hill_body np_log series threshold_quantile with
        | Ok h => h
        | Raise _ => NaN
        end).
Proof.
  intros np_log series q. unfold hill_tail_index.
  destruct (hill_body np_log series q); reflexivity.
Qed.

(** The body raises exactly on a quantile outside [0, 1] (or NaN) and on
    a series of object dtype. *)
Lemma hill_body_raises np_log series q :
  (exists e, hill_body np_log series q = Raise e) <->
  (exists e, validate_percentile q = Raise e)
  \/ (exists v, series = ObjSeries v).
Proof.
  unfold hill_body, quantile.
  destruct (validate_percentile q) as [q'|e]; cbn [bind].
  - destruct series as [v|v]; cbn [bind select_gt].
    + split.
      * intros [e H]. destruct (length _ <? 10)%nat; discriminate.
      * intros [[e H]|[v' H]]; discriminate.
    + split; [intros _; right; eauto | intros _; eauto].
  - split; [intros _; left; eauto | intros _; eauto].
Qed.

Example hill_on_empty_series :
  hill_tail_index log_pade (NumSeries []) default_threshold_quantile = Ok NaN.
Proof. reflexivity. Qed.

Example hill_on_constant_series :
  hill_tail_index log_pade (NumSeries (repeat (Fin 3) 40))
    default_threshold_quantile = Ok NaN.
Proof. vm_compute. reflexivity. Qed.

Example hill_on_missing_values :
  hill_tail_index log_pade (NumSeries [NaN; Fin 1; NaN; Fin 2])
    default_threshold_quantile = Ok NaN.
Proof. vm_compute. reflexivity. Qed.

Example hill_on_strings :
  hill_body log_pade (ObjSeries [Some "a"%string; Some "b"%string])
    default_threshold_quantile = Raise (TypeError "unsupported operand type")
  /\ hill_tail_index log_pade (ObjSeries [Some "a"%string; Some "b"%string])
       default_threshold_quantile = Ok NaN.
Proof. split; reflexivity. Qed.

Example hill_on_quantile_out_of_range :
  hill_tail_index log_pade (NumSeries ramp20) (Fin 2) = Ok NaN
  /\ hill_tail_index log_pade (NumSeries ramp20) (Fin (-1)) = Ok NaN
  /\ hill_tail_index log_pade (NumSeries ramp20) NaN = Ok NaN.
Proof. repeat split; reflexivity. Qed.

(** C2.  With fewer than 10 exceedances above the quantile threshold the
    estimator returns NaN; the boundary is exact: 9 exceedances give NaN,
    10 exceedances give the computed estimate, the inverse of the mean of
    the values [ln(x / u)] over the ten exceedances [x], the values of
    the series above [u]. *)
Theorem hill_tail_index_ten_exceedances :
  forall (np_log : npfloat -> npfloat) (series : Series)
         (q u : npfloat) (T : list npfloat),
    quantile series q = Ok u ->
    select_gt series u = Ok T ->
    ((length T < 10)%nat -> hill_tail_index np_log series q = Ok NaN)
    /\ (length T = 9%nat -> hill_tail_index np_log series q = Ok NaN)
    /\ (length T = 10%nat ->
        hill_tail_index np_log series q =
        Ok (fdiv (Fin 1) (mean (map (fun x => np_log (fdiv x u)) T))))
    /\ exists X, series = NumSeries X /\ T = filter (fun x => fgt x u) X.
Proof.
  intros np_log series q u T Hq Hsel.
  destruct (quantile_ok_numeric _ _ _ Hq) as [X ->].
  simpl in Hsel. injection Hsel as <-.
  rewrite (hill_unfold np_log X q u Hq). cbv zeta.
  split; [|split; [|split]].
  - intro H. apply Nat.ltb_lt in H. now rewrite H.
  - intro H. now rewrite H.
  - intro H. rewrite H. unfold log_exceedances. rewrite map_map. reflexivity.
  - exists X. split; reflexivity.
Qed.

Lemma hill_tail_index_ten_exceedances_witness :
  hill_tail_index log_pade (NumSeries ramp20) (Fin (55 # 100)) = Ok NaN
  /\ hill_tail_index log_pade (NumSeries ramp20) (Fin (1 # 2)) =
     Ok (fdiv (Fin 1)
           (mean (map (fun x => log_pade (fdiv x ramp20_median))
                    (map Fz [11; 12; 13; 14; 15; 16; 17; 18; 19; 20]%Z)))).
Proof.
  split.
  - apply (proj1 (proj2 (hill_tail_index_ten_exceedances log_pade
                           (NumSeries ramp20) (Fin (55 # 100)) ramp20_q55
                           (map Fz [12; 13; 14; 15; 16; 17; 18; 19; 20]%Z)
                           eq_refl eq_refl))).
    reflexivity.
  - apply (proj1 (proj2 (proj2 (hill_tail_index_ten_exceedances log_pade
                           (NumSeries ramp20) (Fin (1 # 2)) ramp20_median
                           (map Fz [11; 12; 13; 14; 15; 16; 17; 18; 19; 20]%Z)
                           eq_refl eq_refl)))).
    reflexivity.
Defined.

(** C1 (amended).  When the exceedance set [T] above [u = quantile(X, q)]
    has at least 10 elements, [hill_tail_index] returns [1 / m] where [m]
    is the mean of the values [ln(x / u)], [x] in [T], that are not NaN
    (pandas' mean skips NaN); this is exactly [1 / mean(ln(x / u))] of the
    spec whenever no [ln(x / u)] is NaN, in particular whenever [u > 0]. *)
Theorem hill_tail_index_inverse_mean_log :
  forall (np_log : npfloat -> npfloat) (X : list npfloat) (q u : npfloat),
    log_axioms np_log ->
    quantile (NumSeries X) q = Ok u ->
    (10 <= length (filter (fun x => fgt x u) X))%nat ->
    let T := filter (fun x => fgt x u) X in
    let logs := map (fun x => np_log (fdiv x u)) T in
    hill_tail_index np_log (NumSeries X) q = Ok (fdiv (Fin 1) (mean logs))
    /\ (forallb notna logs = true ->
        hill_tail_index np_log (NumSeries X) q = Ok (hill_spec np_log X u))
    /\ (fgt u (Fin 0) = true ->
        hill_tail_index np_log (NumSeries X) q = Ok (hill_spec np_log X u)).
Proof.
  intros np_log X q u Hlog Hq Hlen T logs.
  assert (Hcode : hill_tail_index np_log (NumSeries X) q
                  = Ok (fdiv (Fin 1) (mean logs))).
  { rewrite (hill_unfold np_log X q u Hq). cbv zeta. fold T.
    replace (length T <? 10)%nat with false
      by (symmetry; apply Nat.ltb_ge; exact Hlen).
    unfold log_exceedances. rewrite map_map. reflexivity. }
  assert (Hspec : forallb notna logs = true ->
                  hill_tail_index np_log (NumSeries X) q
                  = Ok (hill_spec np_log X u)).
  { intro Hpresent. rewrite Hcode. unfold hill_spec. fold T.
    replace (length T <? 10)%nat with false
      by (symmetry; apply Nat.ltb_ge; exact Hlen).
    fold logs. now rewrite (mean_all_present _ Hpresent). }
  repeat split; auto.
  intro Hu. apply Hspec. apply forallb_forall.
  intros y Hy. subst logs. apply in_map_iff in Hy as [x [<- Hx]].
  subst T. apply filter_In in Hx as [_ Hx].
  now apply log_exceedance_present.
Qed.

Lemma hill_tail_index_inverse_mean_log_witness :
  hill_tail_index log_pade (NumSeries ramp20) (Fin (1 # 2))
  = Ok (hill_spec log_pade ramp20 ramp20_median).
Proof.
  apply (proj2 (proj2 (hill_tail_index_inverse_mean_log log_pade ramp20
                         (Fin (1 # 2)) ramp20_median
                         log_pade_axioms eq_refl (le_n 10)))).
  reflexivity.
Defined.

(** On the mixed-sign series the threshold is negative: the gains have an
    undefined log-exceedance, pandas' mean skips them, and the estimate is
    a number where the formula of the spec is NaN.  This holds for every
    logarithm that meets the axioms. *)
Lemma hill_mixed_sign_any_log (np_log : npfloat -> npfloat) :
  log_axioms np_log ->
  (exists h, hill_tail_index np_log (NumSeries mixed_sign) (Fin (5 # 100))
             = Ok h /\ h <> NaN)
  /\ hill_spec np_log mixed_sign mixed_sign_threshold = NaN.
Proof.
  intro Hlog.
  assert (Hgain : np_log (fdiv (Fz 2) mixed_sign_threshold) = NaN).
  { apply (log_neg _ Hlog). reflexivity. }
  destruct (log_pos _ Hlog ((-2 # 1) / (-300 # 100))) as [r [Hloss _]];
    [reflexivity|].
  assert (Hloss' : np_log (fdiv (Fz (-2)) mixed_sign_threshold) = Fin r)
    by exact Hloss.
  split.
  - rewrite (hill_unfold np_log mixed_sign (Fin (5 # 100))
               mixed_sign_threshold eq_refl).
    change (filter (fun x => fgt x mixed_sign_threshold) mixed_sign)
      with (map Fz [-2; 2; -2; 2; -2; 2; -2; 2; -2; 2]%Z).
    cbv zeta. change (length _ <? 10)%nat with false. cbv iota.
    unfold log_exceedances. cbn [map]. rewrite Hgain, Hloss'.
    destruct (mean_finite
                [Fin r; NaN; Fin r; NaN; Fin r; NaN; Fin r; NaN; Fin r; NaN])
      as [m Em].
    + cbn. repeat constructor.
    + cbn. discriminate.
    + rewrite Em. eexists. split; [reflexivity|].
      intro H. apply fdiv_one_nan in H. discriminate.
  - unfold hill_spec.
    change (filter (fun x => fgt x mixed_sign_threshold) mixed_sign)
      with (map Fz [-2; 2; -2; 2; -2; 2; -2; 2; -2; 2]%Z).
    change (length _ <? 10)%nat with false. cbv iota.
    rewrite mean_all_nan; [reflexivity|].
    cbn [map]. rewrite Hgain. right. now left.
Qed.

(** C1, as stated, fails: a series without missing values, [q = 0.05],
    ten exceedances, and the value returned is not [1 / mean(ln(x / u))]. *)
Lemma hill_tail_index_skips_undefined_logs :
  forallb notna mixed_sign = true
  /\ quantile (NumSeries mixed_sign) (Fin (5 # 100)) = Ok mixed_sign_threshold
  /\ length (filter (fun x => fgt x mixed_sign_threshold) mixed_sign) = 10%nat
  /\ hill_spec log_pade mixed_sign mixed_sign_threshold = NaN
  /\ hill_tail_index log_pade (NumSeries mixed_sign) (Fin (5 # 100))
     = Ok (Fin (-15625 # 6250))
  /\ hill_tail_index log_pade (NumSeries mixed_sign) (Fin (5 # 100))
     <> Ok (hill_spec log_pade mixed_sign mixed_sign_threshold).
Proof.
  repeat split; try (vm_compute; reflexivity).
  vm_compute. discriminate.
Qed.



(** In binary64 the quotient of [2^1000] by the threshold [2^-1000]
    overflows: whatever the logarithm, once it is infinite at infinity,
    the mean is infinite and the estimate is zero. *)
Lemma hill_overflow_any_log (np_log : PrimFloat.float -> PrimFloat.float) :
  np_log PrimFloat.infinity = PrimFloat.infinity ->
  Binary64.hill_tail_index np_log Binary64.wide_series Binary64.half
  = Ok PrimFloat.zero.
Proof.
  intro Hlog. unfold Binary64.hill_tail_index, Binary64.hill_body.
  assert (Hq : Binary64.quantile Binary64.wide_series Binary64.half
               = Ok Binary64.tiny) by (vm_compute; reflexivity).
  rewrite Hq. cbn [bind].
  assert (Hf : filter (fun x => PrimFloat.ltb Binary64.tiny x)
                 Binary64.wide_series
               = repeat Binary64.huge 10) by (vm_compute; reflexivity).
  rewrite Hf. cbn [repeat length Nat.ltb Nat.leb map].
  replace (PrimFloat.div Binary64.huge Binary64.tiny)
    with PrimFloat.infinity by (vm_compute; reflexivity).
  rewrite Hlog. vm_compute. reflexivity.
Qed.


(** ** Returns *)

Lemma df_shift_num idx cols :
  df_shift (num_frame idx cols) = num_frame idx (map_cols (shift1 NaN) cols).
Proof.
  unfold df_shift, num_frame, map_cols. simpl. f_equal.
  rewrite !map_map. reflexivity.
Qed.

Lemma df_binop_num op idx idx' (f g : list npfloat -> list npfloat) cols :
  df_binop op (num_frame idx (map_cols f cols))
              (num_frame idx' (map_cols g cols))
  = Ok (num_frame idx
          (map_cols (fun v => zip_with op (f v) (g v)) cols)).
Proof.
  unfold df_binop, num_frame. simpl.
  assert (H : map_result
                (fun cc => s <- series_binop op (snd (fst cc)) (snd (snd cc)) ;;
                           Ok (fst (fst cc), s))
                (combine (map_cols NumSeries (map_cols f cols))
                         (map_cols NumSeries (map_cols g cols)))
              = Ok (map_cols NumSeries
                      (map_cols (fun v => zip_with op (f v) (g v)) cols))).
  { induction cols as [|c cols IH]; simpl; [reflexivity|].
    rewrite IH. reflexivity. }
  rewrite H. reflexivity.
Qed.

Lemma df_unop_num op idx cols :
  df_unop op (num_frame idx cols) = Ok (num_frame idx (map_cols (map op) cols)).
Proof.
  unfold df_unop, num_frame. simpl.
  assert (H : map_result
                (fun c => s <- series_unop op (snd c) ;; Ok (fst c, s))
                (map_cols NumSeries cols)
              = Ok (map_cols NumSeries (map_cols (map op) cols))).
  { induction cols as [|c cols IH]; simpl; [reflexivity|].
    rewrite IH. reflexivity. }
  rewrite H. reflexivity.
Qed.

Lemma map_cols_id {A} (cols : list (string * A)) :
  map_cols (fun v => v) cols = cols.
Proof.
  unfold map_cols. induction cols as [|[name v] cols IH]; simpl; congruence.
Qed.

Lemma map_cols_map_cols {A B C} (f : A -> B) (g : B -> C) cols :
  map_cols g (map_cols f cols) = map_cols (fun v => g (f v)) cols.
Proof. unfold map_cols. rewrite map_map. reflexivity. Qed.

(** On a numeric panel [compute_returns] never raises: it applies the
    transform column by column and drops the incomplete rows. *)
Lemma compute_returns_numeric np_log idx cols return_type :
  compute_returns np_log (num_frame idx cols) return_type
  = Ok (df_dropna (num_frame idx (map_cols (transform np_log return_type) cols))).
Proof.
  unfold compute_returns, transform.
  rewrite df_shift_num.
  destruct (String.eqb (lower return_type) "log").
  - rewrite <- (map_cols_id cols) at 1.
    rewrite df_binop_num. simpl. rewrite df_unop_num. simpl.
    rewrite map_cols_map_cols. reflexivity.
  - rewrite <- (map_cols_id cols) at 1.
    rewrite df_binop_num. simpl.
    rewrite df_binop_num. simpl. reflexivity.
Qed.

Lemma nth_zip_andb (a b : list bool) (i : nat) :
  nth i (zip_with andb a b) false = nth i a false && nth i b false.
Proof.
  revert b i. induction a as [|x a IH]; intros [|y b] [|i]; simpl;
    try reflexivity; try (now rewrite andb_false_r); auto.
Qed.

Lemma nth_repeat_true (n i : nat) :
  nth i (repeat true n) false = (i <? n)%nat.
Proof.
  revert i. induction n as [|n IH]; intros [|i]; simpl; auto.
Qed.

(** A row is complete exactly when it exists and no column misses it. *)
Lemma complete_rows_spec (df : DataFrame) (i : nat) :
  nth i (complete_rows df) false = true <->
  (i < nrows df)%nat /\
  forall c, In c (columns df) -> nth i (series_notna (snd c)) false = true.
Proof.
  unfold complete_rows. generalize (nrows df) as n. intro n.
  induction (columns df) as [|c cols IH]; simpl.
  - rewrite nth_repeat_true, Nat.ltb_lt. split; [intro H; split; tauto | tauto].
  - rewrite nth_zip_andb, andb_true_iff, IH. split.
    + intros [Hc [Hn Hcols]]. split; [assumption|].
      intros c' [<-|Hin]; auto.
    + intros [Hn Hall]. repeat split; auto.
Qed.

Lemma select_rows_present (keep : list bool) (v : list npfloat) :
  (forall i, nth i keep false = true -> nth i (map notna v) false = true) ->
  forallb notna (select_rows keep v) = true.
Proof.
  revert v. induction keep as [|k keep IH]; intros [|x v] H; simpl;
    try (destruct k; reflexivity); try reflexivity.
  destruct k; simpl.
  - pose proof (H 0%nat eq_refl) as H0. simpl in H0. rewrite H0.
    apply IH. intros i Hi. exact (H (S i) Hi).
  - apply IH. intros i Hi. exact (H (S i) Hi).
Qed.

Lemma select_rows_all {A} (l : list A) :
  select_rows (repeat true (length l)) l = l.
Proof. induction l; simpl; congruence. Qed.

Lemma df_dropna_num idx cols :
  df_dropna (num_frame idx cols)
  = let keep := complete_rows (num_frame idx cols) in
    num_frame (index_select keep idx) (map_cols (select_rows keep) cols).
Proof.
  unfold df_dropna, num_frame. simpl. f_equal.
  unfold map_cols. rewrite !map_map. reflexivity.
Qed.

(** After [dropna] no column of a numeric panel holds a NaN. *)
Lemma df_dropna_present idx cols :
  Forall (fun c => forallb notna
                     (select_rows (complete_rows (num_frame idx cols)) (snd c))
                   = true) cols.
Proof.
  apply Forall_forall. intros [name v] Hin. simpl.
  apply select_rows_present. intros i Hi.
  apply complete_rows_spec in Hi as [_ Hall].
  apply (Hall (name, NumSeries v)).
  unfold num_frame, map_cols. simpl.
  apply in_map_iff. exists (name, v). auto.
Qed.

Lemma fdiv_nan_r (x : npfloat) : fdiv x NaN = NaN.
Proof. destruct x; reflexivity. Qed.

Lemma zip_with_removelast {A B} (f : A -> A -> B) (x : A) (l : list A) :
  zip_with f l (removelast (x :: l)) = zip_with f l (x :: l).
Proof.
  revert x. induction l as [|y l IH]; intro x; [reflexivity|].
  change (removelast (x :: y :: l)) with (x :: removelast (y :: l)).
  cbn [zip_with]. f_equal. apply IH.
Qed.

Lemma map_zip_with {A B C D} (g : C -> D) (f : A -> B -> C) l l' :
  map g (zip_with f l l') = zip_with (fun a b => g (f a b)) l l'.
Proof.
  revert l'. induction l as [|a l IH]; intros [|b l']; simpl; try reflexivity.
  now rewrite IH.
Qed.

Lemma zip_with_length_tl {A B} (f : A -> A -> B) (l : list A) :
  length (zip_with f (tl l) l) = (length l - 1)%nat.
Proof.
  destruct l as [|x l]; [reflexivity|]. simpl. rewrite Nat.sub_0_r.
  revert x. induction l as [|y l IH]; intro x; simpl; [reflexivity|].
  f_equal. apply IH.
Qed.

Section ReturnFacts.
Variable np_log : npfloat -> npfloat.
Hypothesis Hlog : log_axioms np_log.

(** The first row of the log transform is undefined, the others are the
    log returns. *)
Lemma log_transform_rows (price : list npfloat) :
  log_transform np_log price =
  match price with
  | [] => []
  | _ => NaN :: log_returns np_log price
  end.
Proof.
  destruct price as [|x l]; [reflexivity|].
  unfold log_transform, log_returns, shift1.
  rewrite map_zip_with. cbn [zip_with tl].
  rewrite fdiv_nan_r, (log_nan _ Hlog). f_equal.
  apply (zip_with_removelast (fun p prev => np_log (fdiv p prev))).
Qed.

Lemma log_returns_present (price : list npfloat) :
  forallb positive_finite price = true ->
  forallb notna (log_returns np_log price) = true.
Proof.
  unfold log_returns. destruct price as [|x l]; [reflexivity|].
  cbn [tl]. revert x. induction l as [|y l IH]; intros x H; [reflexivity|].
  cbn [zip_with forallb].
  cbn [forallb] in H. apply andb_true_iff in H as [Hx H].
  pose proof H as Hyl. cbn [forallb] in H. apply andb_true_iff in H as [Hy _].
  destruct (positive_finite_inv _ Hx) as [a [-> Ha]].
  destruct (positive_finite_inv _ Hy) as [b [-> Hb]].
  rewrite (fdiv_pos _ _ Ha).
  destruct (log_pos _ Hlog (b / a) (Qdiv_pos _ _ Hb Ha)) as [r [-> _]].
  simpl. apply IH. exact Hyl.
Qed.

Lemma nth_zip_with {A B C} (f : A -> B -> C) l l' i a b c :
  (i < length l)%nat -> (i < length l')%nat ->
  nth i (zip_with f l l') c = f (nth i l a) (nth i l' b).
Proof.
  revert l' i. induction l as [|x l IH]; intros [|y l'] [|i]; simpl;
    try lia; try reflexivity.
  intros H H'. apply IH; lia.
Qed.

(** Entry [t - 1] of the log returns is [ln(price[t] / price[t-1])]. *)
Lemma log_returns_nth (price : list npfloat) (t : nat) :
  (1 <= t < length price)%nat ->
  nth (t - 1) (log_returns np_log price) NaN
  = np_log (fdiv (nth t price NaN) (nth (t - 1) price NaN)).
Proof.
  intros [H1 Ht]. unfold log_returns.
  destruct price as [|x l]; [simpl in Ht; lia|]. cbn [tl].
  destruct t as [|t]; [lia|]. simpl Nat.sub. rewrite Nat.sub_0_r.
  simpl in Ht.
  rewrite (nth_zip_with _ l (x :: l) t NaN NaN NaN) by (simpl; lia).
  reflexivity.
Qed.

Lemma map_notna_present (v : list npfloat) :
  forallb notna v = true -> map notna v = repeat true (length v).
Proof.
  induction v as [|x v IH]; simpl; [reflexivity|].
  intro H. apply andb_true_iff in H as [-> Hv]. now rewrite IH.
Qed.

Lemma log_transform_flags (price : list npfloat) (n : nat) :
  length price = n -> forallb positive_finite price = true ->
  map notna (log_transform np_log price) = all_but_first n.
Proof.
  intros Hn Hpos. rewrite log_transform_rows.
  destruct price as [|x l]; simpl in Hn; subst n; [reflexivity|].
  cbn [map all_but_first notna isnan negb]. f_equal.
  rewrite (map_notna_present _ (log_returns_present _ Hpos)).
  unfold log_returns. rewrite zip_with_length_tl. simpl.
  now rewrite Nat.sub_0_r.
Qed.

Lemma zip_andb_repeat_true (m : nat) :
  zip_with andb (repeat true m) (repeat true m) = repeat true m.
Proof. induction m; simpl; congruence. Qed.

Lemma zip_andb_all_but_first (n : nat) :
  zip_with andb (all_but_first n) (repeat true n) = all_but_first n
  /\ zip_with andb (all_but_first n) (all_but_first n) = all_but_first n.
Proof.
  destruct n as [|m]; simpl; [auto|].
  now rewrite zip_andb_repeat_true.
Qed.

Lemma complete_rows_positive idx cols n :
  cols <> [] -> index_length idx = n ->
  Forall (fun c => length (snd c) = n /\
                   forallb positive_finite (snd c) = true) cols ->
  complete_rows (num_frame idx (map_cols (log_transform np_log) cols))
  = all_but_first n.
Proof.
  intros Hne Hidx Hcols. unfold complete_rows, num_frame, nrows. simpl.
  rewrite Hidx. clear Hidx.
  induction Hcols as [|c cols [Hlen Hpos] Hcols IH]; [congruence|].
  simpl. rewrite (log_transform_flags _ n Hlen Hpos).
  destruct cols as [|c' cols'].
  - simpl. apply zip_andb_all_but_first.
  - rewrite IH by discriminate. apply zip_andb_all_but_first.
Qed.

Lemma select_all_but_first {A} (x : A) (l : list A) :
  select_rows (all_but_first (S (length l))) (x :: l) = l.
Proof. simpl. apply select_rows_all. Qed.

Lemma select_log_transform (price : list npfloat) (n : nat) :
  length price = n ->
  select_rows (all_but_first n) (log_transform np_log price)
  = log_returns np_log price.
Proof.
  intro Hn. rewrite log_transform_rows.
  destruct price as [|x l]; simpl in Hn; subst n; [reflexivity|].
  replace (length l) with (length (log_returns np_log (x :: l))).
  - apply select_all_but_first.
  - unfold log_returns. rewrite zip_with_length_tl. simpl. lia.
Qed.

Lemma index_select_all_but_first idx :
  index_select (all_but_first (index_length idx)) idx = index_tail idx.
Proof.
  destruct idx as [l|name l]; simpl; (destruct l as [|x l]; [reflexivity|]);
    simpl; now rewrite select_rows_all.
Qed.

Lemma map_cols_ext_Forall {A B} (f g : A -> B) (P : string * A -> Prop) cols :
  Forall P cols -> (forall c, P c -> f (snd c) = g (snd c)) ->
  map_cols f cols = map_cols g cols.
Proof.
  intros Hcols Hfg. unfold map_cols.
  induction Hcols as [|c cols Hc _ IH]; simpl; [reflexivity|].
  now rewrite (Hfg c Hc), IH.
Qed.

Lemma map_cols_ext {A B} (f g : A -> B) cols :
  (forall v, f v = g v) -> map_cols f cols = map_cols g cols.
Proof.
  intro Hfg. unfold map_cols. apply map_ext. intro c. now rewrite Hfg.
Qed.

Lemma transform_log return_type price :
  lower return_type = "log"%string ->
  transform np_log return_type price = log_transform np_log price.
Proof. intro H. unfold transform. now rewrite H. Qed.

(** On strictly positive prices the log-return panel is the panel of the
    log returns of the rows after the first. *)
Lemma compute_returns_log_positive idx cols n return_type :
  lower return_type = "log"%string ->
  cols <> [] -> index_length idx = n ->
  Forall (fun c => length (snd c) = n /\
                   forallb positive_finite (snd c) = true) cols ->
  compute_returns np_log (num_frame idx cols) return_type
  = Ok (num_frame (index_tail idx) (map_cols (log_returns np_log) cols)).
Proof.
  intros Hrt Hne Hidx Hcols.
  rewrite compute_returns_numeric.
  rewrite (map_cols_ext _ (log_transform np_log) cols
             (fun price => transform_log return_type price Hrt)).
  rewrite df_dropna_num. cbv zeta.
  rewrite (complete_rows_positive idx cols n Hne Hidx Hcols).
  rewrite map_cols_map_cols. subst n.
  rewrite index_select_all_but_first. f_equal. f_equal.
  apply (map_cols_ext_Forall _ _ _ _ Hcols).
  intros c [Hlen _]. now apply select_log_transform.
Qed.

End ReturnFacts.

(** ** Summary statistics *)

Lemma summary_row_num std skew kurt jb name (v : list npfloat) :
  (forall s, s <> [] -> exists r, jb s = Ok r) ->
  dropna_values v <> [] ->
  exists row, summary_row std skew kurt jb name (NumSeries v) = Ok row
              /\ sum_Series row = name
              /\ sum_Observations row = length (dropna_values v).
Proof.
  intros Hjb Hne. unfold summary_row. cbn [series_dropna].
  destruct (Hjb _ Hne) as [r ->]. unfold quantile.
  change (validate_percentile (Fin (25 # 100))) with (@Ok Q (25 # 100)).
  change (validate_percentile (Fin (75 # 100))) with (@Ok Q (75 # 100)).
  cbn [bind]. eexists. split; [reflexivity|]. split; reflexivity.
Qed.

(** The summary table has one row per column, in order, and counts the
    values present in each. *)
Lemma summary_statistics_num std skew kurt jb idx cols :
  (forall s, s <> [] -> exists r, jb s = Ok r) ->
  Forall (fun c => dropna_values (snd c) <> []) cols ->
  exists table,
    summary_statistics std skew kurt jb (num_frame idx cols) = Ok table
    /\ map sum_Series table = map fst cols
    /\ map sum_Observations table
       = map (fun c => length (dropna_values (snd c))) cols.
Proof.
  intros Hjb Hcols. unfold summary_statistics, num_frame. cbn [columns].
  induction Hcols as [|[name v] cols Hne _ [table [E [Hn Ho]]]].
  - exists []. auto.
  - destruct (summary_row_num std skew kurt jb name v Hjb Hne)
      as [row [Er [Hrn Hro]]].
    exists (row :: table). cbn [map_cols map map_result fst snd].
    rewrite Er. cbn [bind]. unfold map_cols in E. rewrite E. cbn [bind].
    repeat split; cbn [map fst snd]; congruence.
Qed.

Lemma transform_first_missing np_log return_type price :
  log_axioms np_log ->
  nth 0 (map notna (transform np_log return_type price)) false = false.
Proof.
  intro Hlog. unfold transform.
  destruct (String.eqb (lower return_type) "log").
  - rewrite (log_transform_rows np_log Hlog).
    destruct price; reflexivity.
  - destruct price as [|x l]; [reflexivity|].
    unfold simple_transform, shift1. cbn [zip_with map nth].
    now rewrite fdiv_nan_r.
Qed.

Lemma in_num_frame_columns idx cols c :
  In c (columns (num_frame idx cols)) <->
  exists c0, In c0 cols /\ c = (fst c0, NumSeries (snd c0)).
Proof.
  unfold num_frame, map_cols. cbn [columns]. rewrite in_map_iff.
  split; intros [c0 H]; exists c0; intuition.
Qed.

(** The first row of the transform is never complete. *)
Lemma first_row_incomplete np_log idx cols return_type :
  log_axioms np_log -> cols <> [] ->
  nth 0 (complete_rows
           (num_frame idx (map_cols (transform np_log return_type) cols)))
    false = false.
Proof.
  intros Hlog Hne.
  destruct (nth 0 (complete_rows _) false) eqn:E; [|reflexivity].
  apply complete_rows_spec in E as [_ Hall].
  destruct cols as [|c cols']; [congruence|].
  specialize (Hall (fst c, NumSeries (transform np_log return_type (snd c)))
                (or_introl eq_refl)).
  cbn [snd series_notna] in Hall.
  now rewrite transform_first_missing in Hall.
Qed.

Lemma select_rows_nil {A} (keep : list bool) :
  select_rows keep (@nil A) = [].
Proof. destruct keep as [|[|] keep]; reflexivity. Qed.

(** Dropping the incomplete rows of the log transform is dropping the
    first row and the incomplete rows among the log returns. *)
Lemma select_log_rows np_log (keep : list bool) (price : list npfloat) :
  log_axioms np_log ->
  nth 0 keep false = false ->
  select_rows keep (log_transform np_log price)
  = select_rows (tl keep) (log_returns np_log price).
Proof.
  intros Hlog Hfirst. rewrite (log_transform_rows np_log Hlog).
  destruct keep as [|k keep].
  - cbn [tl]. destruct price; reflexivity.
  - cbn [nth] in Hfirst. subst k. cbn [tl].
    destruct price as [|x l]; [|reflexivity].
    unfold log_returns. cbn [tl zip_with].
    now rewrite !select_rows_nil.
Qed.

Lemma index_select_after_first (keep : list bool) idx :
  nth 0 keep false = false ->
  index_select keep idx = index_select (tl keep) (index_tail idx).
Proof.
  intro Hfirst. destruct keep as [|k keep].
  - destruct idx as [[|x l]|name [|x l]]; reflexivity.
  - cbn [nth] in Hfirst. subst k.
    destruct idx as [[|x l]|name [|x l]]; cbn [index_select index_tail tl select_rows];
      try reflexivity; now rewrite !select_rows_nil.
Qed.

(** C4.  With return type [log], [compute_returns] yields for each
    series and each row after the first [ln(price[t] / price[t-1])]: the
    first row is dropped, and so is a row whose value is missing in some
    series.  On strictly positive prices no other row is dropped: a panel
    of [n] rows gives [n - 1] rows without a missing value, the row of
    day [t] holding [ln(price[t] / price[t-1])], and the observation count
    of every series in the summary table is [n - 1] (251 for 252 rows). *)
Theorem compute_returns_log_panel :
  forall (np_log : npfloat -> npfloat) (idx : Index)
         (cols : list (string * list npfloat)) (return_type : string),
    log_axioms np_log ->
    lower return_type = "log"%string ->
    cols <> [] ->
    (let kept :=
       tl (complete_rows (num_frame idx (map_cols (log_transform np_log) cols)))
     in
     compute_returns np_log (num_frame idx cols) return_type
     = Ok (num_frame (index_select kept (index_tail idx))
             (map_cols (fun price => select_rows kept (log_returns np_log price))
                cols)))
    /\ (forall n,
          index_length idx = n ->
          Forall (fun c => length (snd c) = n /\
                           forallb positive_finite (snd c) = true) cols ->
          let returns :=
            num_frame (index_tail idx) (map_cols (log_returns np_log) cols) in
          compute_returns np_log (num_frame idx cols) return_type = Ok returns
          /\ nrows returns = (n - 1)%nat
          /\ Forall (fun c =>
                       length (log_returns np_log (snd c)) = (n - 1)%nat
                       /\ forallb notna (log_returns np_log (snd c)) = true
                       /\ forall t, (1 <= t < n)%nat ->
                            nth (t - 1) (log_returns np_log (snd c)) NaN
                            = np_log (fdiv (nth t (snd c) NaN)
                                           (nth (t - 1) (snd c) NaN)))
               cols
          /\ (forall std skew kurt jb,
                 (forall s, s <> [] -> exists r, jb s = Ok r) ->
                 (2 <= n)%nat ->
                 exists table,
                   summary_statistics std skew kurt jb returns = Ok table
                   /\ map sum_Series table = map fst cols
                   /\ Forall (fun row => sum_Observations row = (n - 1)%nat)
                        table)).
Proof.
  intros np_log idx cols return_type Hlog Hrt Hne. split.
  { cbv zeta. rewrite compute_returns_numeric.
    rewrite (map_cols_ext _ (log_transform np_log) cols
               (fun price => transform_log np_log return_type price Hrt)).
    rewrite df_dropna_num. cbv zeta.
    pose proof (first_row_incomplete np_log idx cols return_type Hlog Hne)
      as Hfirst.
    rewrite (map_cols_ext _ (log_transform np_log) cols
               (fun price => transform_log np_log return_type price Hrt))
      in Hfirst.
    rewrite (index_select_after_first _ idx Hfirst).
    rewrite map_cols_map_cols. f_equal. f_equal.
    apply map_cols_ext. intro price. now apply select_log_rows. }
  intros n Hidx Hcols returns.
  assert (Hshape :
            Forall (fun c => length (log_returns np_log (snd c)) = (n - 1)%nat /\
                             forallb notna (log_returns np_log (snd c)) = true)
              cols).
  { apply Forall_forall. intros c Hc. rewrite Forall_forall in Hcols.
    destruct (Hcols c Hc) as [Hlen Hpos]. split.
    - unfold log_returns. rewrite zip_with_length_tl. now rewrite Hlen.
    - now apply log_returns_present. }
  split; [now apply compute_returns_log_positive with (n := n)|].
  split.
  { subst returns. unfold nrows, num_frame. cbn [index].
    subst n. destruct idx as [l|name l]; destruct l; simpl; lia. }
  split.
  { apply Forall_forall. intros c Hc. rewrite Forall_forall in Hshape, Hcols.
    destruct (Hshape c Hc) as [Hlen Hpres]. destruct (Hcols c Hc) as [Hn _].
    repeat split; [exact Hlen | exact Hpres |].
    intros t Ht. apply log_returns_nth. now rewrite Hn. }
  intros std skew kurt jb Hjb Hn.
  destruct (summary_statistics_num std skew kurt jb (index_tail idx)
              (map_cols (log_returns np_log) cols) Hjb)
    as [table [E [Hnames Hobs]]].
  { apply Forall_forall. intros c Hc. unfold map_cols in Hc.
    apply in_map_iff in Hc as [c0 [<- Hc0]]. cbn [snd].
    rewrite Forall_forall in Hshape. destruct (Hshape c0 Hc0) as [Hlen Hpres].
    rewrite (dropna_all_present _ Hpres). intro Hnil.
    rewrite Hnil in Hlen. simpl in Hlen. lia. }
  exists table. split; [exact E|]. split.
  - rewrite Hnames. unfold map_cols. rewrite map_map. reflexivity.
  - apply Forall_forall. intros row Hrow.
    apply (in_map sum_Observations) in Hrow. rewrite Hobs in Hrow.
    apply in_map_iff in Hrow as [c [Hc Hin]]. rewrite <- Hc.
    unfold map_cols in Hin. apply in_map_iff in Hin as [c0 [<- Hc0]]. cbn [snd].
    rewrite Forall_forall in Hshape. destruct (Hshape c0 Hc0) as [Hlen Hpres].
    now rewrite (dropna_all_present _ Hpres).
Qed.

Lemma compute_returns_log_panel_witness :
  let returns :=
    num_frame (index_tail days_252) (map_cols (log_returns log_pade) prices_252)
  in
  compute_returns log_pade (num_frame days_252 prices_252) "log" = Ok returns
  /\ nrows returns = 251%nat
  /\ exists table,
       summary_statistics moment_stub moment_stub moment_stub jarque_bera_stub
         returns = Ok table
       /\ map sum_Series table = ["A"%string; "B"%string]
       /\ Forall (fun row => sum_Observations row = 251%nat) table.
Proof.
  assert (Hcols : Forall (fun c => length (snd c) = 252%nat /\
                                   forallb positive_finite (snd c) = true)
                    prices_252).
  { repeat constructor; vm_compute; reflexivity. }
  assert (Hne : prices_252 <> []) by discriminate.
  destruct (compute_returns_log_panel log_pade days_252 prices_252 "log"
              log_pade_axioms eq_refl Hne) as [_ Hpositive].
  destruct (Hpositive 252%nat eq_refl Hcols)
    as [Hret [Hrows [_ Hsummary]]].
  split; [exact Hret|]. split; [exact Hrows|].
  apply (Hsummary moment_stub moment_stub moment_stub jarque_bera_stub).
  - intros s _. exists (NaN, NaN). reflexivity.
  - repeat constructor.
Defined.

(** A zero price gives an infinite return and no NaN: the row stays.  This
    holds for every logarithm that meets the axioms. *)
Lemma zero_price_any_log (np_log : npfloat -> npfloat) :
  log_axioms np_log ->
  compute_returns np_log (num_frame (RangeIndex [0; 1; 2]%nat) prices_zero) "log"
  = Ok (num_frame (RangeIndex [1; 2]%nat) [("A"%string, [NInf; PInf])]).
Proof.
  intro Hlog.
  rewrite (compute_returns_numeric np_log).
  assert (Hrows : transform np_log "log" [Fz 1; Fz 0; Fz 2]
                  = [NaN; NInf; PInf]).
  { rewrite transform_log by reflexivity.
    rewrite (log_transform_rows np_log Hlog).
    f_equal. unfold log_returns. cbn [tl zip_with].
    change (fdiv (Fz 0) (Fz 1)) with (Fin (0 / 1)).
    change (fdiv (Fz 2) (Fz 0)) with PInf.
    rewrite (log_zero _ Hlog) by reflexivity.
    now rewrite (log_pinf _ Hlog). }
  change (map_cols (transform np_log "log") prices_zero)
    with [("A"%string, transform np_log "log" [Fz 1; Fz 0; Fz 2])].
  rewrite Hrows. reflexivity.
Qed.

(** C5, as stated, fails: a price series that touches zero leaves infinite
    values in the return panel, under both return types. *)
Lemma compute_returns_keeps_infinite :
  compute_returns log_pade (num_frame (RangeIndex [0; 1; 2]%nat) prices_zero) "log"
  = Ok (num_frame (RangeIndex [1; 2]%nat) [("A"%string, [NInf; PInf])])
  /\ compute_returns log_pade (num_frame (RangeIndex [0; 1; 2]%nat) prices_zero)
       "simple"
     = Ok (num_frame (RangeIndex [1; 2]%nat) [("A"%string, [Fin (-1); PInf])])
  /\ forallb isfinite [NInf; PInf] = false
  /\ forallb isfinite [Fin (-1); PInf] = false.
Proof.
  repeat split; vm_compute; reflexivity.
Qed.

(** ** Stationarity tests and stylized facts *)

(** A loop whose body returns a row for every element returns the table
    of these rows, in order. *)
Lemma map_result_total {A B} (f : A -> result B) (P : A -> B -> Prop)
  (l : list A) :
  (forall a, In a l -> exists b, f a = Ok b /\ P a b) ->
  exists bs, map_result f l = Ok bs /\ Forall2 P l bs.
Proof.
  induction l as [|a l IH]; intro H.
  - exists []. split; [reflexivity | constructor].
  - destruct (H a (or_introl eq_refl)) as [b [Eb Pb]].
    destruct IH as [bs [Ebs Pbs]].
    { intros a' Ha'. apply H. now right. }
    exists (b :: bs). simpl. rewrite Eb. simpl. rewrite Ebs. simpl.
    split; [reflexivity | now constructor].
Qed.

Lemma Forall2_map_eq {A B C} (f : A -> C) (g : B -> C) (l : list A)
  (l' : list B) :
  Forall2 (fun a b => g b = f a) l l' -> map g l' = map f l.
Proof. induction 1; simpl; congruence. Qed.

Lemma Forall2_impl {A B} (P Q : A -> B -> Prop) (l : list A) (l' : list B) :
  (forall a b, P a b -> Q a b) -> Forall2 P l l' -> Forall2 Q l l'.
Proof. intro H. induction 1; constructor; auto. Qed.

Lemma hill_try_outcome np_log series q :
  hill_tail_index np_log series q =
  Ok (match hill_body np_log series q with Ok h => h | Raise _ => NaN end).
Proof.
  unfold hill_tail_index, try_except.
  now destruct (hill_body np_log series q).
Qed.

Section DiagnosticFacts.
Variable np_log : npfloat -> npfloat.
Variable adfuller kpss : Series -> result (list npfloat).
Variable acorr_ljungbox : Series -> npfloat -> result (list (list npfloat)).
Variable het_arch : Series -> npfloat -> result (list npfloat).
Variable series_kurtosis : list npfloat -> npfloat.

Lemma adf_test_outcome series alpha :
  adf_test adfuller series alpha =
  Ok (match adf_body adfuller series alpha with
      | Ok r => r
      | Raise _ => (NaN, NaN, "Error"%string)
      end).
Proof. unfold adf_test. destruct (adf_body _ _ _); reflexivity. Qed.

Lemma kpss_test_outcome series alpha :
  kpss_test kpss series alpha =
  Ok (match kpss_body kpss series alpha with
      | Ok r => r
      | Raise _ => (NaN, NaN, "Error"%string)
      end).
Proof. unfold kpss_test. destruct (kpss_body _ _ _); reflexivity. Qed.

Lemma ljung_box_test_outcome series config :
  ljung_box_test acorr_ljungbox series config =
  Ok (match ljung_box_body acorr_ljungbox series config with
      | Ok r => r
      | Raise _ => (NaN, NaN)
      end).
Proof. unfold ljung_box_test. destruct (ljung_box_body _ _ _); reflexivity. Qed.

Lemma arch_lm_test_outcome series config :
  arch_lm_test het_arch series config =
  Ok (match arch_lm_body het_arch series config with
      | Ok r => r
      | Raise _ => (NaN, NaN)
      end).
Proof. unfold arch_lm_test. destruct (arch_lm_body _ _ _); reflexivity. Qed.

(** The loop body of [stationarity_tests] returns a row whatever the two
    tests do. *)
Lemma stationarity_row_total col column alpha :
  exists row,
    stationarity_row adfuller kpss col column alpha = Ok row
    /\ st_Series row = col
    /\ (ADF_Statistic row, ADF_p_value row, ADF_Result row)
       = match adf_body adfuller (series_dropna column) alpha with
         | Ok r => r
         | Raise _ => (NaN, NaN, "Error"%string)
         end
    /\ (KPSS_Statistic row, KPSS_p_value row, KPSS_Result row)
       = match kpss_body kpss (series_dropna column) alpha with
         | Ok r => r
         | Raise _ => (NaN, NaN, "Error"%string)
         end.
Proof.
  unfold stationarity_row. rewrite adf_test_outcome, kpss_test_outcome.
  cbn [bind]. eexists. split; [reflexivity|]. cbn.
  repeat split.
  - destruct (adf_body _ _ _) as [[[? ?] ?]|]; reflexivity.
  - destruct (kpss_body _ _ _) as [[[? ?] ?]|]; reflexivity.
Qed.

Lemma adf_body_fields series alpha row :
  (ADF_Statistic row, ADF_p_value row, ADF_Result row)
  = match adf_body adfuller series alpha with
    | Ok r => r
    | Raise _ => (NaN, NaN, "Error"%string)
    end ->
  adf_fields_ok (adfuller series) alpha row.
Proof.
  unfold adf_body, adf_fields_ok.
  destruct (adfuller series) as [[|stat [|pval [|crit t]]]|e]; cbn;
    intro H; injection H as -> -> ->; auto.
Qed.

Lemma kpss_body_fields series alpha row :
  (KPSS_Statistic row, KPSS_p_value row, KPSS_Result row)
  = match kpss_body kpss series alpha with
    | Ok r => r
    | Raise _ => (NaN, NaN, "Error"%string)
    end ->
  kpss_fields_ok (kpss series) alpha row.
Proof.
  unfold kpss_body, kpss_fields_ok.
  destruct (kpss series) as [[|stat [|pval [|crit t]]]|e]; cbn;
    intro H; injection H as -> -> ->; auto.
Qed.

(** The loop body of [stylized_facts] returns a row on a float column
    whatever the tests do, once the Hill quantile is configured. *)
Lemma stylized_row_total col (v : list npfloat) config q :
  dict_get "hill_threshold_quantile" (tails config) = Ok q ->
  exists row,
    stylized_row np_log acorr_ljungbox het_arch series_kurtosis
      col (NumSeries v) config = Ok row
    /\ sf_Series row = col
    /\ (Ljung_Box_Stat row, Ljung_Box_p_value row)
       = match ljung_box_body acorr_ljungbox
                 (NumSeries (dropna_values v)) config with
         | Ok r => r
         | Raise _ => (NaN, NaN)
         end
    /\ (ARCH_LM_Stat row, ARCH_LM_p_value row)
       = match arch_lm_body het_arch (NumSeries (dropna_values v)) config with
         | Ok r => r
         | Raise _ => (NaN, NaN)
         end
    /\ Hill_Tail_Index row
       = match hill_body np_log (NumSeries (dropna_values v)) q with
         | Ok h => h
         | Raise _ => NaN
         end
    /\ sf_Excess_Kurtosis row = series_kurtosis (dropna_values v).
Proof.
  intro Hq. unfold stylized_row. cbn [series_dropna].
  rewrite ljung_box_test_outcome, arch_lm_test_outcome, Hq.
  cbn [bind]. rewrite hill_try_outcome. cbn [bind kurtosis_of].
  eexists. split; [reflexivity|]. cbn.
  repeat split.
  - destruct (ljung_box_body _ _ _) as [[? ?]|]; reflexivity.
  - destruct (arch_lm_body _ _ _) as [[? ?]|]; reflexivity.
Qed.

End DiagnosticFacts.

(** C6.  In every row of the stationarity table the ADF verdict is
    "Stationary" when the ADF p-value is below alpha and "Non-stationary"
    otherwise, the KPSS verdict is "Stationary" when the KPSS p-value is
    above alpha and "Non-stationary" otherwise; a test that raises leaves
    NaN as its statistic and p-value and "Error" as its verdict.  The
    table has one row per series, in order. *)
Theorem stationarity_verdicts :
  forall (adfuller kpss : Series -> result (list npfloat))
         (data : DataFrame) (alpha : npfloat),
  exists table,
    stationarity_tests adfuller kpss data alpha = Ok table
    /\ map st_Series table = column_names data
    /\ Forall2
         (fun c row =>
            adf_fields_ok (adfuller (series_dropna (snd c))) alpha row
            /\ kpss_fields_ok (kpss (series_dropna (snd c))) alpha row)
         (columns data) table.
Proof.
  intros adfuller kpss data alpha. unfold stationarity_tests, column_names.
  destruct (map_result_total
              (fun c => stationarity_row adfuller kpss (fst c) (snd c) alpha)
              (fun c row =>
                 st_Series row = fst c
                 /\ adf_fields_ok (adfuller (series_dropna (snd c))) alpha row
                 /\ kpss_fields_ok (kpss (series_dropna (snd c))) alpha row)
              (columns data)) as [table [E Hrows]].
  { intros c _.
    destruct (stationarity_row_total adfuller kpss (fst c) (snd c) alpha)
      as [row [Er [Hname [Hadf Hkpss]]]].
    exists row. split; [exact Er|]. split; [exact Hname|]. split.
    - now apply adf_body_fields.
    - now apply kpss_body_fields. }
  exists table. split; [exact E|]. split.
  - apply Forall2_map_eq.
    apply (Forall2_impl _ _ _ _ (fun c row H => proj1 H) Hrows).
  - apply (Forall2_impl _ _ _ _ (fun c row H => proj2 H) Hrows).
Qed.

Example stationarity_flat_wave :
  stationarity_tests adfuller_stub kpss_stub
    (num_frame days_40 returns_flat_wave) (Fin (5 # 100))
  = Ok [mkStationarityRow "FLAT" NaN NaN "Error" NaN NaN "Error";
        mkStationarityRow "WAVE" (Fin (-4)) (Fin (1 # 100)) "Stationary"
          (Fin (1 # 10)) (Fin (1 # 10)) "Stationary"].
Proof. vm_compute. reflexivity. Qed.

(** A p-value that is NaN compares false with alpha: both verdicts are
    "Non-stationary". *)
Example stationarity_nan_p_value :
  stationarity_tests (fun _ => Ok [Fin 1; NaN; Fin 0])
    (fun _ => Ok [Fin 1; NaN; Fin 0])
    (num_frame (RangeIndex [1; 2; 3; 4]%nat) returns_flat_up) (Fin (5 # 100))
  = Ok [mkStationarityRow "FLAT" (Fin 1) NaN "Non-stationary"
          (Fin 1) NaN "Non-stationary";
        mkStationarityRow "UP" (Fin 1) NaN "Non-stationary"
          (Fin 1) NaN "Non-stationary"].
Proof. vm_compute. reflexivity. Qed.

Lemma ljung_box_body_fields acorr_ljungbox series config row :
  (Ljung_Box_Stat row, Ljung_Box_p_value row)
  = match ljung_box_body acorr_ljungbox series config with
    | Ok r => r
    | Raise _ => (NaN, NaN)
    end ->
  ljung_box_fields_ok
    (lags <- dict_get "lb_lags" (tests config) ;; acorr_ljungbox series lags)
    row.
Proof.
  unfold ljung_box_body, ljung_box_fields_ok.
  destruct (dict_get "lb_lags" (tests config)) as [lags|e]; cbn [bind];
    [|intro H; injection H as -> ->; auto].
  destruct (acorr_ljungbox series lags)
    as [[|[|stat stats] [|[|pval pvals] [|x t]]]|e];
    cbn [bind unpack2 last_item];
    intro H; injection H as -> ->; auto.
Qed.

Lemma arch_lm_body_fields het_arch series config row :
  (ARCH_LM_Stat row, ARCH_LM_p_value row)
  = match arch_lm_body het_arch series config with
    | Ok r => r
    | Raise _ => (NaN, NaN)
    end ->
  arch_lm_fields_ok
    (nlags <- dict_get "arch_lm_lags" (tests config) ;; het_arch series nlags)
    row.
Proof.
  unfold arch_lm_body, arch_lm_fields_ok.
  destruct (dict_get "arch_lm_lags" (tests config)) as [nlags|e]; cbn [bind];
    [|intro H; injection H as -> ->; auto].
  destruct (het_arch series nlags) as [[|stat [|pval [|x t]]]|e];
    cbn [bind unpack2];
    intro H; injection H as -> ->; auto.
Qed.

(** C7.  Whatever the tests do on whatever series (return or raise), both
    diagnostic tables are produced with one row per series, in order, and
    every field of a row is decided by the outcome of its own test on its
    own series: the statistic, p-value and verdict of ADF by what
    [adfuller] did on that series, those of KPSS by what [kpss] did, the
    Ljung-Box fields by [acorr_ljungbox], the ARCH-LM fields by
    [het_arch], the Hill field by [hill_tail_index], which never raises.
    A test that raises on a series therefore leaves NaN (and "Error") in
    its own fields of that row and nowhere else; in particular a series
    on which the unit-root tests raise, as they do on a constant one, has
    NaN and "Error" in its row while the other rows hold the outcomes of
    their tests. *)
Theorem test_failures_stay_local :
  forall (np_log : npfloat -> npfloat)
         (adfuller kpss : Series -> result (list npfloat))
         (acorr_ljungbox : Series -> npfloat -> result (list (list npfloat)))
         (het_arch : Series -> npfloat -> result (list npfloat))
         (series_kurtosis : list npfloat -> npfloat)
         (config : EDAConfig) (idx : Index)
         (cols : list (string * list npfloat)) (alpha q : npfloat),
    dict_get "hill_threshold_quantile" (tails config) = Ok q ->
    exists stationarity stylized,
      stationarity_tests adfuller kpss (num_frame idx cols) alpha
      = Ok stationarity
      /\ stylized_facts np_log acorr_ljungbox het_arch series_kurtosis
           (num_frame idx cols) config = Ok stylized
      /\ Forall2
           (fun c row =>
              let series := NumSeries (dropna_values (snd c)) in
              st_Series row = fst c
              /\ adf_fields_ok (adfuller series) alpha row
              /\ kpss_fields_ok (kpss series) alpha row)
           cols stationarity
      /\ Forall2
           (fun c row =>
              let series := NumSeries (dropna_values (snd c)) in
              sf_Series row = fst c
              /\ ljung_box_fields_ok
                   (lags <- dict_get "lb_lags" (tests config) ;;
                    acorr_ljungbox series lags) row
              /\ arch_lm_fields_ok
                   (nlags <- dict_get "arch_lm_lags" (tests config) ;;
                    het_arch series nlags) row
              /\ hill_tail_index np_log series q = Ok (Hill_Tail_Index row)
              /\ sf_Excess_Kurtosis row = series_kurtosis (dropna_values (snd c)))
           cols stylized.
Proof.
  intros np_log adfuller kpss acorr_ljungbox het_arch series_kurtosis
         config idx cols alpha q Hq.
  unfold stationarity_tests, stylized_facts, num_frame. cbn [columns].
  assert (Hst : exists table,
             map_result
               (fun c => stationarity_row adfuller kpss (fst c) (snd c) alpha)
               (map_cols NumSeries cols) = Ok table
             /\ Forall2
                  (fun c row =>
                     st_Series row = fst c
                     /\ adf_fields_ok
                          (adfuller (NumSeries (dropna_values (snd c))))
                          alpha row
                     /\ kpss_fields_ok
                          (kpss (NumSeries (dropna_values (snd c))))
                          alpha row)
                  cols table).
  { induction cols as [|[name v] cols IH].
    - exists []. split; [reflexivity | constructor].
    - destruct IH as [table [E Hrows]].
      destruct (stationarity_row_total adfuller kpss name (NumSeries v) alpha)
        as [row [Er [Hn [Hadf Hkpss]]]].
      exists (row :: table). cbn [map_cols map map_result fst snd].
      rewrite Er. cbn [bind]. unfold map_cols in E. rewrite E.
      split; [reflexivity|]. constructor; [|exact Hrows].
      cbn [fst snd]. split; [exact Hn|]. split.
      + now apply adf_body_fields.
      + now apply kpss_body_fields. }
  assert (Hsf : exists table,
             map_result
               (fun c => stylized_row np_log acorr_ljungbox het_arch
                           series_kurtosis (fst c) (snd c) config)
               (map_cols NumSeries cols) = Ok table
             /\ Forall2
                  (fun c row =>
                     sf_Series row = fst c
                     /\ ljung_box_fields_ok
                          (lags <- dict_get "lb_lags" (tests config) ;;
                           acorr_ljungbox (NumSeries (dropna_values (snd c)))
                             lags) row
                     /\ arch_lm_fields_ok
                          (nlags <- dict_get "arch_lm_lags" (tests config) ;;
                           het_arch (NumSeries (dropna_values (snd c))) nlags)
                          row
                     /\ hill_tail_index np_log
                          (NumSeries (dropna_values (snd c))) q
                        = Ok (Hill_Tail_Index row)
                     /\ sf_Excess_Kurtosis row
                        = series_kurtosis (dropna_values (snd c)))
                  cols table).
  { clear Hst. induction cols as [|[name v] cols IH].
    - exists []. split; [reflexivity | constructor].
    - destruct IH as [table [E Hrows]].
      destruct (stylized_row_total np_log acorr_ljungbox het_arch
                  series_kurtosis name v config q Hq)
        as [row [Er [Hn [Hlb [Harch [Hhill Hkurt]]]]]].
      exists (row :: table). cbn [map_cols map map_result fst snd].
      rewrite Er. cbn [bind]. unfold map_cols in E. rewrite E.
      split; [reflexivity|]. constructor; [|exact Hrows].
      cbn [fst snd]. split; [exact Hn|]. split; [|split; [|split]].
      + now apply ljung_box_body_fields.
      + now apply arch_lm_body_fields.
      + rewrite hill_try_outcome, Hhill. reflexivity.
      + exact Hkurt. }
  destruct Hst as [stationarity [Est Hst]].
  destruct Hsf as [stylized [Esf Hsf]].
  exists stationarity, stylized. cbv zeta. auto.
Qed.

(** Forty days of a series that never moves beside one that does, with
    stand-ins that raise on the constant series: its row records NaN and
    "Error", and the row of the other series holds what the tests
    returned. *)
Lemma test_failures_stay_local_witness :
  exists stationarity stylized,
    stationarity_tests adfuller_stub kpss_stub
      (num_frame days_40 returns_flat_wave) (Fin (5 # 100))
    = Ok stationarity
    /\ stylized_facts log_pade acorr_ljungbox_stub het_arch_stub moment_stub
         (num_frame days_40 returns_flat_wave) sample_config
       = Ok stylized
    /\ stationarity
       = [mkStationarityRow "FLAT" NaN NaN "Error" NaN NaN "Error";
          mkStationarityRow "WAVE" (Fin (-4)) (Fin (1 # 100)) "Stationary"
            (Fin (1 # 10)) (Fin (1 # 10)) "Stationary"]
    /\ map sf_Series stylized = ["FLAT"%string; "WAVE"%string].
Proof.
  destruct (test_failures_stay_local log_pade adfuller_stub kpss_stub
              acorr_ljungbox_stub het_arch_stub moment_stub sample_config
              days_40 returns_flat_wave
              (Fin (5 # 100)) (Fin (95 # 100)) eq_refl)
    as [stationarity [stylized [Est [Esf _]]]].
  exists stationarity, stylized.
  split; [exact Est|]. split; [exact Esf|].
  vm_compute in Est. vm_compute in Esf.
  injection Est as <-. injection Esf as <-.
  repeat split.
Defined.

(** ** Loading the panel *)

Section LoaderFacts.
Variable path_exists : string -> bool.
Variable read_csv : string -> result DataFrame.
Variable to_datetime : Series -> result (list Z).
Variable period_of : string -> result (Z -> Z).

(** A column used as the date column becomes the index and leaves the
    columns. *)
Lemma use_date_column_index df name df' :
  use_date_column to_datetime df name = Ok df' ->
  exists stamps,
    index df' = DatetimeIndex name stamps
    /\ columns df'
       = filter (fun c => negb (String.eqb (fst c) name)) (columns df).
Proof.
  unfold use_date_column.
  destruct (lookup_column name df) as [col|e]; [|discriminate]. cbn [bind].
  destruct (to_datetime col) as [stamps|e]; [|discriminate]. cbn [bind].
  intro H. injection H as <-. exists stamps. split; reflexivity.
Qed.

(** What [handle_date_column] does, by the decision it takes. *)
Lemma handle_date_column_by_choice config df :
  handle_date_column to_datetime config df =
  match index_choice_code config (column_names df) with
  | UseColumn c => ([], use_date_column to_datetime df c)
  | TryFirstColumn =>
      match column_names df with
      | [] => ([], Raise (IndexError "index 0 is out of bounds"))
      | first_col :: _ =>
          match use_date_column to_datetime df first_col with
          | Ok df' => ([], Ok df')
          | Raise _ =>
              (["Could not parse dates automatically. Using index as dates."%string],
               Ok df)
          end
      end
  | KeepOrdinal _ => ([], Ok df)
  end.
Proof.
  unfold handle_date_column, index_choice_code.
  destruct (negb (String.eqb (date_column config) "")
            && mem_string (date_column config) (column_names df));
    [reflexivity|].
  destruct (parse_dates config); [|reflexivity].
  destruct (filter is_date_like (column_names df)) as [|c rest];
    [|reflexivity].
  destruct (column_names df) as [|first_col names]; [reflexivity|].
  cbn. destruct (use_date_column to_datetime df first_col); reflexivity.
Qed.

(** Without a resolved price column [load_data] raises. *)
Lemma load_data_without_price_columns config df0 out df :
  path_exists (input_csv config) = true ->
  read_csv (input_csv config) = Ok df0 ->
  handle_date_column to_datetime config df0 = (out, Ok df) ->
  resolve_price_columns config df = [] ->
  load_data path_exists read_csv to_datetime period_of config
  = (("Loading data from " ++ input_csv config)%string :: out,
     Raise (ValueError "No price columns found!")).
Proof.
  intros Hpath Hread Hdate Hcols. unfold load_data.
  rewrite Hpath, Hread. cbn [try_except emit eret lift ebind fst snd app].
  rewrite Hdate. cbn [ebind fst snd]. rewrite Hcols.
  cbn [lift fst snd]. now rewrite app_nil_r.
Qed.

(** When dropping the incomplete rows empties the panel [load_data]
    raises. *)
Lemma load_data_emptied_by_dropna config df0 out df selected :
  path_exists (input_csv config) = true ->
  read_csv (input_csv config) = Ok df0 ->
  handle_date_column to_datetime config df0 = (out, Ok df) ->
  resolve_price_columns config df <> [] ->
  select_columns (resolve_price_columns config df) df = Ok selected ->
  df_empty selected = false ->
  dropna config = true ->
  df_empty (df_dropna selected) = true ->
  snd (load_data path_exists read_csv to_datetime period_of config)
  = Raise (ValueError "No data remaining after dropping NA values").
Proof.
  intros Hpath Hread Hdate Hcols Hsel Hne Hdrop Hempty. unfold load_data.
  rewrite Hpath, Hread. cbn [try_except emit eret lift ebind fst snd app].
  rewrite Hdate. cbn [ebind fst snd].
  destruct (resolve_price_columns config df) as [|c cols]; [congruence|].
  cbn [eret lift ebind fst snd]. rewrite Hsel. cbn [ebind fst snd].
  rewrite Hne. cbn [eret ebind fst snd]. rewrite Hdrop.
  cbn [emit ebind fst snd]. rewrite Hempty. reflexivity.
Qed.

(** After the resampling step [load_data] returns what is left, without
    a check for an empty panel. *)
Lemma load_data_after_resample config df0 out df selected rule resampled :
  path_exists (input_csv config) = true ->
  read_csv (input_csv config) = Ok df0 ->
  handle_date_column to_datetime config df0 = (out, Ok df) ->
  resolve_price_columns config df <> [] ->
  select_columns (resolve_price_columns config df) df = Ok selected ->
  df_empty selected = false ->
  dropna config = false ->
  resample config = Some rule ->
  String.eqb rule "" = false ->
  resample_last period_of rule selected = Ok resampled ->
  snd (load_data path_exists read_csv to_datetime period_of config)
  = Ok (df_dropna resampled).
Proof.
  intros Hpath Hread Hdate Hcols Hsel Hne Hdrop Hres Hrule Hlast.
  unfold load_data.
  rewrite Hpath, Hread. cbn [try_except emit eret lift ebind fst snd app].
  rewrite Hdate. cbn [ebind fst snd].
  destruct (resolve_price_columns config df) as [|c cols]; [congruence|].
  cbn [eret lift ebind fst snd]. rewrite Hsel. cbn [ebind fst snd].
  rewrite Hne. cbn [eret ebind fst snd]. rewrite Hdrop.
  cbn [eret ebind fst snd]. rewrite Hres, Hrule, Hlast. reflexivity.
Qed.

End LoaderFacts.

Lemma setup_output_dirs_events config :
  setup_output_dirs config
  = (map (fun d => MakeDirs (snd d)) (output_dirs config), Ok tt).
Proof.
  unfold setup_output_dirs.
  induction (output_dirs config) as [|d dirs IH]; [reflexivity|].
  cbn [fold_right map]. rewrite IH. reflexivity.
Qed.

Lemma no_write_csv_in_prints (lines : list string) :
  existsb is_write_csv (map Print lines) = false.
Proof. induction lines; simpl; auto. Qed.

Lemma no_write_csv_in_makedirs (dirs : list (string * string)) :
  existsb is_write_csv (map (fun d => MakeDirs (snd d)) dirs) = false.
Proof. induction dirs; simpl; auto. Qed.

(** When [load_data] raises, the run prints a diagnostic last, exits with
    status 1 and has written no table. *)
Lemma main_stops_when_loading_fails lib config_path config out e :
  load_config lib config_path = Ok config ->
  load_data (lib_path_exists lib) (lib_read_csv lib) (lib_to_datetime lib)
    (lib_period_of lib) config = (out, Raise e) ->
  main lib config_path
  = (map (fun d => MakeDirs (snd d)) (output_dirs config)
       ++ map Print out
       ++ [Print ("Error during EDA analysis: " ++ exn_message e)], 1%Z)
  /\ existsb is_write_csv (fst (main lib config_path)) = false.
Proof.
  intros Hconfig Hload.
  assert (Hmain : main lib config_path
                  = (map (fun d => MakeDirs (snd d)) (output_dirs config)
                       ++ map Print out
                       ++ [Print ("Error during EDA analysis: "
                                  ++ exn_message e)], 1%Z)).
  { unfold main, run_pipeline. rewrite Hconfig.
    cbn [lift ebind fst snd app]. rewrite setup_output_dirs_events.
    cbn [ebind fst snd]. rewrite Hload. unfold prints.
    cbn [ebind fst snd]. now rewrite <- app_assoc. }
  split; [exact Hmain|]. rewrite Hmain. cbn [fst].
  rewrite !existsb_app, no_write_csv_in_makedirs, no_write_csv_in_prints.
  reflexivity.
Qed.

(** ** The return panel in the run *)

Lemma no_table_among_prints (lines : list string) path table :
  ~ In (WriteCsv path table) (map Print lines).
Proof. intro H. apply in_map_iff in H as [x [Hx _]]. discriminate. Qed.

Lemma no_table_among_makedirs (dirs : list (string * string)) path table :
  ~ In (WriteCsv path table) (map (fun d => MakeDirs (snd d)) dirs).
Proof. intro H. apply in_map_iff in H as [x [Hx _]]. discriminate. Qed.

Lemma no_table_among_plots (calls : list plot_call) path table :
  ~ In (WriteCsv path table) (map plot_event calls).
Proof.
  intro H. apply in_map_iff in H as [x [Hx _]]. destruct x; discriminate.
Qed.

Ltac find_table H :=
  repeat (apply in_app_or in H; destruct H as [H|H]);
  try (now apply no_table_among_prints in H);
  try (now apply no_table_among_makedirs in H);
  try (now apply no_table_among_plots in H);
  cbn [In] in H;
  repeat (destruct H as [H|H]; [try discriminate H|]);
  try contradiction.

(** Every table the run writes is the table an analyzer computed from
    the return panel as [compute_returns] built it. *)
Lemma tables_come_from_returns lib config_path config out prices returns :
  load_config lib config_path = Ok config ->
  load_data (lib_path_exists lib) (lib_read_csv lib) (lib_to_datetime lib)
    (lib_period_of lib) config = (out, Ok prices) ->
  compute_returns (lib_log lib) prices (return_type config) = Ok returns ->
  forall path table,
    In (WriteCsv path table) (fst (main lib config_path)) ->
    (exists rows,
        table = SummaryTable rows
        /\ summary_statistics (lib_std lib) (lib_skew lib) (lib_kurtosis lib)
             (lib_jarque_bera lib) returns = Ok rows)
    \/ (exists alpha rows,
           table = StationarityTable rows
           /\ dict_get "adf_alpha" (tests config) = Ok alpha
           /\ stationarity_tests (lib_adfuller lib) (lib_kpss lib) returns alpha
              = Ok rows)
    \/ (exists rows,
           table = StylizedTable rows
           /\ stylized_facts (lib_log lib) (lib_acorr_ljungbox lib)
                (lib_het_arch lib) (lib_kurtosis lib) returns config = Ok rows).
Proof.
  intros Hconfig Hload Hreturns path table.
  unfold main, run_pipeline, generate_report.
  rewrite Hconfig. cbn [lift ebind fst snd app].
  rewrite setup_output_dirs_events. cbn [ebind fst snd].
  rewrite Hload. cbn [prints ebind fst snd].
  rewrite Hreturns. cbn [lift emit eret ebind fst snd].
  destruct (summary_statistics _ _ _ _ returns) as [summary|e] eqn:Hsummary;
    cbn [lift emit eret ebind fst snd]; [|intro H; find_table H].
  destruct (dict_get "adf_alpha" (tests config)) as [alpha|e] eqn:Halpha;
    cbn [lift emit eret ebind fst snd]; [|intro H; find_table H].
  destruct (stationarity_tests _ _ returns alpha) as [stationarity|e]
    eqn:Hstat;
    cbn [lift emit eret ebind fst snd]; [|intro H; find_table H].
  destruct (stylized_facts _ _ _ _ returns config) as [stylized|e] eqn:Hstyl;
    cbn [lift emit eret ebind fst snd]; [|intro H; find_table H].
  destruct (create_plots _ _ _ _ prices returns config) as [calls [[]|e]];
    cbn [plotting lift emit eret ebind fst snd]; [|intro H; find_table H].
  destruct (dict_get "artifacts" (output_dirs config)) as [artifacts|e];
    cbn [lift emit eret ebind fst snd]; [|intro H; find_table H].
  destruct (dict_get "reports" (output_dirs config)) as [reports|e];
    cbn [lift emit eret ebind fst snd]; intro H; find_table H;
    injection H as _ <-; eauto 10.
Qed.

Lemma select_rows_forallb {A} (f : A -> bool) (keep : list bool) (v : list A) :
  (forall i, nth i keep false = true -> nth i (map f v) false = true) ->
  forallb f (select_rows keep v) = true.
Proof.
  revert v. induction keep as [|k keep IH]; intros [|x v] H; simpl;
    try (destruct k; reflexivity); try reflexivity.
  destruct k; simpl.
  - pose proof (H 0%nat eq_refl) as H0. simpl in H0. rewrite H0.
    apply IH. intros i Hi. exact (H (S i) Hi).
  - apply IH. intros i Hi. exact (H (S i) Hi).
Qed.

Lemma forallb_id_map {A} (f : A -> bool) (l : list A) :
  forallb (fun b => b) (map f l) = forallb f l.
Proof. induction l as [|x l IH]; simpl; congruence. Qed.

(** Whatever the panel, [dropna] leaves no missing value in any column. *)
Lemma df_dropna_complete (df : DataFrame) : complete_frame (df_dropna df).
Proof.
  unfold complete_frame, df_dropna. cbn [columns].
  apply Forall_forall. intros c Hin.
  apply in_map_iff in Hin as [c0 [<- Hin]]. cbn [snd].
  assert (Hkeep : forall i, nth i (complete_rows df) false = true ->
                            nth i (series_notna (snd c0)) false = true).
  { intros i Hi. apply complete_rows_spec in Hi as [_ Hall]. now apply Hall. }
  destruct (snd c0) as [v|v]; cbn [series_select series_notna] in *;
    rewrite forallb_id_map; now apply select_rows_forallb.
Qed.

(** C5 (amended).  Whatever the price panel, a return panel that
    [compute_returns] produces holds no missing value.  On a numeric panel
    the transform is applied column by column and exactly the rows in
    which it yields a NaN in some column are dropped, the first row among
    them; rows whose values are infinite but not NaN (a zero price) are
    kept.  The panel is not changed afterwards: every table the run
    writes is the table an analyzer computed from the panel as it was
    built. *)
Theorem compute_returns_no_missing :
  forall (np_log : npfloat -> npfloat),
    (forall (prices returns : DataFrame) (return_type : string),
        compute_returns np_log prices return_type = Ok returns ->
        complete_frame returns)
    /\ (forall (idx : Index) (cols : list (string * list npfloat))
               (return_type : string),
          let rows := transform np_log return_type in
          let keep := complete_rows (num_frame idx (map_cols rows cols)) in
          compute_returns np_log (num_frame idx cols) return_type
          = Ok (num_frame (index_select keep idx)
                  (map_cols (fun price => select_rows keep (rows price)) cols))
          /\ Forall (fun c => forallb notna (select_rows keep (rows (snd c)))
                              = true) cols
          /\ (forall i, nth i keep false = true <->
                        (i < index_length idx)%nat /\
                        forall c, In c cols ->
                                  nth i (map notna (rows (snd c))) false = true)
          /\ (log_axioms np_log -> cols <> [] -> nth 0 keep false = false))
    /\ (forall (lib : Library) (config_path : string) (config : EDAConfig)
               (out : list string) (prices returns : DataFrame),
          lib_log lib = np_log ->
          load_config lib config_path = Ok config ->
          load_data (lib_path_exists lib) (lib_read_csv lib)
            (lib_to_datetime lib) (lib_period_of lib) config
          = (out, Ok prices) ->
          compute_returns np_log prices (return_type config) = Ok returns ->
          forall path table,
            In (WriteCsv path table) (fst (main lib config_path)) ->
            (exists rows,
                table = SummaryTable rows
                /\ summary_statistics (lib_std lib) (lib_skew lib)
                     (lib_kurtosis lib) (lib_jarque_bera lib) returns
                   = Ok rows)
            \/ (exists alpha rows,
                   table = StationarityTable rows
                   /\ dict_get "adf_alpha" (tests config) = Ok alpha
                   /\ stationarity_tests (lib_adfuller lib) (lib_kpss lib)
                        returns alpha = Ok rows)
            \/ (exists rows,
                   table = StylizedTable rows
                   /\ stylized_facts np_log (lib_acorr_ljungbox lib)
                        (lib_het_arch lib) (lib_kurtosis lib) returns config
                      = Ok rows)).
Proof.
  intro np_log. split; [|split].
  - intros prices returns return_type. unfold compute_returns.
    destruct (String.eqb (lower return_type) "log").
    + destruct (df_binop fdiv prices (df_shift prices)) as [ratio|e];
        cbn [bind]; [|discriminate].
      destruct (df_unop np_log ratio) as [logs|e]; cbn [bind]; [|discriminate].
      intro H. injection H as <-. apply df_dropna_complete.
    + destruct (df_binop fsub prices (df_shift prices)) as [diff|e];
        cbn [bind]; [|discriminate].
      destruct (df_binop fdiv diff (df_shift prices)) as [ratio|e];
        cbn [bind]; [|discriminate].
      intro H. injection H as <-. apply df_dropna_complete.
  - intros idx cols return_type rows keep.
    assert (Hspec : forall i, nth i keep false = true <->
                    (i < index_length idx)%nat /\
                    forall c, In c cols ->
                              nth i (map notna (rows (snd c))) false = true).
    { intro i. subst keep. rewrite complete_rows_spec. unfold nrows.
      cbn [index num_frame]. split; intros [Hi Hall]; (split; [exact Hi|]).
      - intros c Hc.
        apply (Hall (fst c, NumSeries (rows (snd c)))).
        apply in_num_frame_columns. exists (fst c, rows (snd c)).
        split; [|reflexivity].
        unfold map_cols. apply in_map_iff. exists c. auto.
      - intros c Hc. apply in_num_frame_columns in Hc as [c0 [Hc0 ->]].
        unfold map_cols in Hc0. apply in_map_iff in Hc0 as [c1 [<- Hc1]].
        cbn [snd series_notna]. now apply Hall. }
    split.
    { rewrite compute_returns_numeric, df_dropna_num. cbv zeta.
      fold rows. fold keep. now rewrite map_cols_map_cols. }
    split.
    { pose proof (df_dropna_present idx (map_cols rows cols)) as H.
      fold keep in H. rewrite Forall_forall in H. apply Forall_forall.
      intros c Hc. apply (H (fst c, rows (snd c))).
      unfold map_cols. apply in_map_iff. exists c. auto. }
    split; [exact Hspec|].
    intros Hlog Hne. subst keep rows.
    now apply first_row_incomplete.
  - intros lib config_path config out prices returns <- Hconfig Hload Hreturns.
    exact (tables_come_from_returns lib config_path config out prices returns
             Hconfig Hload Hreturns).
Qed.

Lemma compute_returns_no_missing_witness :
  compute_returns log_pade (num_frame (RangeIndex [0; 1; 2]%nat) prices_ab) "simple"
  = Ok (num_frame (RangeIndex [1; 2]%nat)
          [("A"%string, [Fin (10 # 100); Fin (11 # 110)]);
           ("B"%string, [Fin (-10 # 50); Fin (20 # 40)])])
  /\ nth 0 (complete_rows
              (num_frame (RangeIndex [0; 1; 2]%nat)
                 (map_cols (transform log_pade "simple") prices_ab))) false
     = false
  /\ complete_frame
       (num_frame (RangeIndex [1; 2]%nat)
          [("A"%string, [Fin (10 # 100); Fin (11 # 110)]);
           ("B"%string, [Fin (-10 # 50); Fin (20 # 40)])]).
Proof.
  destruct (compute_returns_no_missing log_pade) as [Hany [Hnum _]].
  destruct (Hnum (RangeIndex [0; 1; 2]%nat) prices_ab "simple"%string)
    as [Hret [_ [_ Hfirst]]].
  assert (E : compute_returns log_pade
                (num_frame (RangeIndex [0; 1; 2]%nat) prices_ab) "simple"
              = Ok (num_frame (RangeIndex [1; 2]%nat)
                      [("A"%string, [Fin (10 # 100); Fin (11 # 110)]);
                       ("B"%string, [Fin (-10 # 50); Fin (20 # 40)])]))
    by (rewrite Hret; vm_compute; reflexivity).
  split; [exact E|]. split.
  - apply Hfirst; [exact log_pade_axioms | discriminate].
  - exact (Hany _ _ _ E).
Defined.

(** C9 (amended).  The temporal index is resolved with this precedence:
    the explicit [date_column] when it is set and present among the
    columns; else, only when [parse_dates] is set, the first column whose
    name contains "date" or "time"; else, when [parse_dates] is set, an
    attempt to read the first column as timestamps, the ordinal index
    being kept with a warning when the attempt fails; and when
    [parse_dates] is not set the ordinal index is kept without a
    warning.  A column that is used becomes the index. *)
Theorem temporal_index_precedence :
  forall (to_datetime : Series -> result (list Z))
         (config : EDAConfig) (df : DataFrame),
    let names := column_names df in
    let explicit := negb (String.eqb (date_column config) "")
                    && mem_string (date_column config) names in
    let resolved := handle_date_column to_datetime config df in
    (explicit = true ->
     resolved = ([], use_date_column to_datetime df (date_column config)))
    /\ (explicit = false -> parse_dates config = true ->
        forall c rest, filter is_date_like names = c :: rest ->
        resolved = ([], use_date_column to_datetime df c))
    /\ (explicit = false -> parse_dates config = true ->
        filter is_date_like names = [] ->
        forall first_col rest, names = first_col :: rest ->
        resolved =
        match use_date_column to_datetime df first_col with
        | Ok df' => ([], Ok df')
        | Raise _ =>
            (["Could not parse dates automatically. Using index as dates."%string],
             Ok df)
        end)
    /\ (explicit = false -> parse_dates config = false ->
        resolved = ([], Ok df))
    /\ (forall c df', use_date_column to_datetime df c = Ok df' ->
        exists stamps, index df' = DatetimeIndex c stamps).
Proof.
  intros to_datetime config df names explicit resolved.
  subst resolved. rewrite handle_date_column_by_choice.
  unfold index_choice_code. fold names. fold explicit.
  repeat split.
  - intros ->. reflexivity.
  - intros -> -> c rest ->. reflexivity.
  - intros -> -> -> first_col rest ->. reflexivity.
  - intros -> ->. reflexivity.
  - intros c df' H.
    destruct (use_date_column_index to_datetime df c df' H) as [stamps [Hi _]].
    now exists stamps.
Qed.

Lemma temporal_index_precedence_witness :
  handle_date_column to_datetime_stub sample_config csv_dated
  = ([], Ok (mkDataFrame (DatetimeIndex "Date" [0; 1]%Z)
               [("A"%string, NumSeries [Fin 100; Fin 101])]))
  /\ handle_date_column to_datetime_stub config_no_dates csv_dated
     = ([], Ok csv_dated).
Proof.
  destruct (temporal_index_precedence to_datetime_stub sample_config csv_dated)
    as [Hexplicit _].
  destruct (temporal_index_precedence to_datetime_stub config_no_dates csv_dated)
    as [_ [_ [_ [Hordinal _]]]].
  split.
  - rewrite (Hexplicit eq_refl). reflexivity.
  - apply Hordinal; reflexivity.
Defined.

(** C9, as stated, fails: no [date_column] is configured, [parse_dates]
    is off and the file has a column named [Date].  The precedence of the
    spec picks that column; the code does not look at the names, keeps the
    ordinal index and prints no warning. *)
Lemma pattern_match_needs_parse_dates :
  index_choice_spec config_no_dates (column_names csv_dated)
  = UseColumn "Date"
  /\ index_choice_code config_no_dates (column_names csv_dated)
     = KeepOrdinal false
  /\ handle_date_column to_datetime_stub config_no_dates csv_dated
     = ([], Ok csv_dated)
  /\ index csv_dated = RangeIndex [0; 1]%nat.
Proof. repeat split. Qed.

(** The scenario of the spec: a date column and one numeric column named
    [id], no include list.  The loader raises and the run exits with
    status 1 before any table is written. *)
Example only_id_column_stops_the_run :
  snd (load_data (fun _ => true) (fun _ => Ok csv_only_id) to_datetime_stub
         period_of_stub sample_config)
  = Raise (ValueError "No price columns found!")
  /\ main (library_stub csv_only_id sample_config) "eda.yaml"
     = ([MakeDirs "artifacts/eda"; MakeDirs "reports/eda";
         Print "Loading data from data/prices.csv";
         Print "Error during EDA analysis: No price columns found!"], 1%Z).
Proof. split; vm_compute; reflexivity. Qed.

(** C8 at the failing input.  The configuration names the five figures
    and switches them off.  The panel is emptied by the resampling step
    ([dropna] is off, column [B] holds no value): [load_data] returns the
    empty panel instead of raising, and with library routines that accept
    an empty series the run goes through every stage, the plotting stage
    among them, writes its three tables and exits with status 0. *)
Theorem load_data_empty_after_resample :
  load_data (fun _ => true) (fun _ => Ok csv_with_gap) to_datetime_stub
    period_of_stub config_resample
  = (["Loading data from data/prices.csv"; "Found price columns";
      "Resampled"]%string,
     Ok (mkDataFrame (DatetimeIndex "Date" [])
           [("A"%string, NumSeries []); ("B"%string, NumSeries [])]))
  /\ df_empty (mkDataFrame (DatetimeIndex "Date" [])
                 [("A"%string, NumSeries []); ("B"%string, NumSeries [])])
     = true
  /\ Forall (fun key => dict_get key (plots config_resample) = Ok false)
       plot_flags
  /\ create_plots plot_stub plot_stub plot_pacf_stub plot_stub
       (mkDataFrame (DatetimeIndex "Date" [])
          [("A"%string, NumSeries []); ("B"%string, NumSeries [])])
       (mkDataFrame (DatetimeIndex "Date" [])
          [("A"%string, NumSeries []); ("B"%string, NumSeries [])])
       config_resample
     = ([PlotPrint "Creating visualizations..."], Ok tt)
  /\ snd (main (library_stub csv_with_gap config_resample) "eda.yaml") = 0%Z
  /\ map (fun e => match e with WriteCsv path _ => path | _ => ""%string end)
       (filter is_write_csv
          (fst (main (library_stub csv_with_gap config_resample) "eda.yaml")))
     = ["artifacts/eda/summary_stats.csv"; "artifacts/eda/stationarity.csv";
        "artifacts/eda/stylized_facts.csv"]%string
  /\ last (fst (main (library_stub csv_with_gap config_resample) "eda.yaml"))
       (Print "")
     = Print "   - Reports: reports/eda".
Proof.
  split; [vm_compute; reflexivity|]. split; [vm_compute; reflexivity|].
  split; [unfold plot_flags; repeat constructor|].
  repeat split; vm_compute; reflexivity.
Qed.

(* ================================================================== *)
(** * Further properties of the code *)

(** ** Order and sorting *)

Lemma fle_refl (x : npfloat) : notna x = true -> fle x x = true.
Proof.
  destruct x; simpl; try reflexivity; try discriminate.
  intros _. apply Qle_bool_iff. lra.
Qed.

Lemma fle_trans (x y z : npfloat) :
  fle x y = true -> fle y z = true -> fle x z = true.
Proof.
  destruct x, y, z; simpl; try reflexivity; try discriminate.
  rewrite !Qle_bool_iff. lra.
Qed.

Lemma fle_total (x y : npfloat) :
  notna x = true -> notna y = true -> fle x y = false -> fle y x = true.
Proof.
  destruct x, y; simpl; try reflexivity; try discriminate.
  intros _ _ H. apply Qle_bool_iff.
  destruct (Qle_bool q q0) eqn:E; [discriminate|].
  destruct (Qlt_le_dec q0 q) as [Hlt|Hle]; [lra|].
  apply Qle_bool_iff in Hle. congruence.
Qed.

(** Nothing below a value that does not exceed [u] exceeds [u]. *)
Lemma fgt_below (x a u : npfloat) :
  fle x a = true -> fgt a u = false -> fgt x u = false.
Proof.
  destruct x, a, u; simpl; try reflexivity; try discriminate.
  rewrite Qle_bool_iff. rewrite !Qlt_bool_false. lra.
Qed.

Lemma insert_sorted_sorted (x : npfloat) (l : list npfloat) :
  notna x = true -> Forall (fun y => notna y = true) l ->
  sorted_values l -> sorted_values (insert_sorted x l).
Proof.
  intros Hx Hl Hs. induction Hs as [|y l Hs IH Hy]; simpl.
  - constructor; constructor.
  - inversion Hl as [|? ? Hny Hnl]; subst.
    destruct (fle x y) eqn:E.
    + constructor; [constructor; assumption|].
      constructor; [assumption|].
      eapply Forall_impl; [|exact Hy]. intros z Hz. cbv beta in *.
      now apply (fle_trans x y z).
    + constructor; [now apply IH|].
      apply insert_sorted_Forall; [|assumption].
      now apply fle_total.
Qed.

Lemma sort_values_sorted (l : list npfloat) :
  Forall (fun y => notna y = true) l -> sorted_values (sort_values l).
Proof.
  induction 1 as [|x l Hx Hl IH]; simpl; [constructor|].
  apply insert_sorted_sorted; auto.
  now apply sort_values_Forall.
Qed.

Lemma filter_insert_sorted_length (p : npfloat -> bool) x l :
  length (filter p (insert_sorted x l)) = length (filter p (x :: l)).
Proof.
  induction l as [|y l IH]; [reflexivity|].
  simpl insert_sorted. destruct (fle x y); [reflexivity|].
  simpl in *. destruct (p y), (p x); simpl in *; lia.
Qed.

Lemma filter_sort_values_length (p : npfloat -> bool) l :
  length (filter p (sort_values l)) = length (filter p l).
Proof.
  induction l as [|x l IH]; [reflexivity|].
  simpl sort_values. rewrite filter_insert_sorted_length.
  simpl. destruct (p x); simpl; lia.
Qed.

(** In a sorted list the entries up to position [k] do not exceed entry
    [k]. *)
Lemma sorted_prefix_below (s : list npfloat) (k : nat) :
  sorted_values s -> Forall (fun y => notna y = true) s ->
  (k < length s)%nat ->
  Forall (fun x => fle x (nth k s NaN) = true) (firstn (S k) s).
Proof.
  intros Hs. revert k. induction Hs as [|y l Hs IH Hy]; intros k Hn Hk.
  - simpl in Hk. lia.
  - inversion Hn as [|? ? Hny Hnl]; subst.
    destruct k as [|k].
    + simpl. constructor; [now apply fle_refl | constructor].
    + simpl in Hk. change (firstn (S (S k)) (y :: l)) with (y :: firstn (S k) l).
      change (nth (S k) (y :: l) NaN) with (nth k l NaN).
      constructor.
      * rewrite Forall_forall in Hy. apply Hy. apply nth_In. lia.
      * apply IH; [assumption | lia].
Qed.

Lemma filter_none_length {A} (p : A -> bool) (l : list A) :
  Forall (fun x => p x = false) l -> length (filter p l) = 0%nat.
Proof.
  induction 1 as [|x l Hx _ IH]; simpl; [reflexivity|]. now rewrite Hx.
Qed.

Lemma filter_length_le {A} (p : A -> bool) (l : list A) :
  (length (filter p l) <= length l)%nat.
Proof. induction l as [|x l IH]; simpl; [lia|]. destruct (p x); simpl; lia. Qed.

(** In a sorted list at most the entries after position [k] exceed a
    value that entry [k] does not exceed. *)
Lemma sorted_exceedances (s : list npfloat) (k : nat) (u : npfloat) :
  sorted_values s -> Forall (fun y => notna y = true) s ->
  (k < length s)%nat -> fgt (nth k s NaN) u = false ->
  (length (filter (fun x => fgt x u) s) <= length s - 1 - k)%nat.
Proof.
  intros Hs Hn Hk Hu.
  rewrite <- (firstn_skipn (S k) s) at 1.
  rewrite filter_app, length_app.
  rewrite filter_none_length.
  - pose proof (filter_length_le (fun x => fgt x u) (skipn (S k) s)) as H.
    rewrite length_skipn in H. lia.
  - eapply Forall_impl; [|exact (sorted_prefix_below s k Hs Hn Hk)].
    intros x Hx. cbv beta in *. now apply (fgt_below x (nth k s NaN) u).
Qed.

Lemma sorted_nth_le (s : list npfloat) (i j : nat) :
  sorted_values s -> (i <= j)%nat -> (j < length s)%nat ->
  Forall (fun y => notna y = true) s ->
  fle (nth i s NaN) (nth j s NaN) = true.
Proof.
  intros Hs Hij Hj Hn.
  pose proof (sorted_prefix_below s j Hs Hn Hj) as H.
  rewrite Forall_forall in H. apply H.
  rewrite <- (firstn_skipn (S j) s) at 1.
  rewrite app_nth1 by (rewrite length_firstn; lia).
  apply nth_In. rewrite length_firstn. lia.
Qed.

(** The interpolated value is not below its left end. *)
Lemma lerp_not_below (a b : npfloat) (g : Q) :
  fle a b = true -> 0 <= g -> g < 1 -> fgt a (lerp a b g) = false.
Proof.
  intros Hab H0 H1. unfold lerp.
  destruct a as [| | |x]; try discriminate.
  - destruct (if Qle_bool (1 # 2) g then _ else _); reflexivity.
  - destruct b; try discriminate.
    destruct (Qle_bool (1 # 2) g); reflexivity.
  - destruct b as [| | |y]; try discriminate.
    + destruct (Qle_bool (1 # 2) g) eqn:E.
      * cbn [fsub fopp fadd fmul]. unfold scale_inf.
        destruct (Qcompare_spec (1 - g) 0); try reflexivity; lra.
      * cbn [fsub fopp fadd fmul]. unfold scale_inf.
        destruct (Qcompare_spec g 0); try reflexivity; lra.
    + simpl in Hab. apply Qle_bool_iff in Hab.
      destruct (Qle_bool (1 # 2) g); cbn [fsub fopp fadd fmul fgt];
        apply Qlt_bool_false; nra.
Qed.

Lemma virtual_index_bounds (n : nat) (q : Q) :
  (1 <= n)%nat -> 0 <= q -> q <= 1 ->
  let vi := inject_Z (Z.of_nat (n - 1)) * q in
  (Z.to_nat (Qfloor vi) < n)%nat
  /\ 0 <= vi - inject_Z (Qfloor vi) /\ vi - inject_Z (Qfloor vi) < 1.
Proof.
  intros Hn Hq0 Hq1 vi.
  assert (H0 : 0 <= inject_Z (Z.of_nat (n - 1)))
    by (apply inject_Z_nonneg; lia).
  assert (Hvi0 : 0 <= vi) by (subst vi; nra).
  assert (Hvi1 : vi <= inject_Z (Z.of_nat (n - 1))) by (subst vi; nra).
  assert (Hf0 : (0 <= Qfloor vi)%Z).
  { apply Qfloor_resp_le in Hvi0.
    change 0 with (inject_Z 0) in Hvi0. now rewrite Qfloor_Z in Hvi0. }
  assert (Hf1 : (Qfloor vi <= Z.of_nat (n - 1))%Z).
  { apply Qfloor_resp_le in Hvi1. now rewrite Qfloor_Z in Hvi1. }
  split; [lia|]. split.
  - pose proof (Qfloor_le vi). lra.
  - pose proof (Qlt_floor vi) as H. rewrite inject_Z_plus in H.
    change (inject_Z 1) with 1 in H. lra.
Qed.

(** The linear quantile is not below the order statistic it starts from. *)
Lemma percentile_linear_not_below (vals : list npfloat) (q : Q) :
  Forall (fun y => notna y = true) vals -> vals <> [] ->
  0 <= q -> q <= 1 ->
  let s := sort_values vals in
  let lo := Z.to_nat (Qfloor (inject_Z (Z.of_nat (length vals - 1)) * q)) in
  (lo < length s)%nat
  /\ fgt (nth lo s NaN) (percentile_linear vals q) = false.
Proof.
  intros Hn Hne Hq0 Hq1 s lo.
  pose proof (sort_values_length vals) as Hlen. fold s in Hlen.
  assert (Hpos : (1 <= length vals)%nat).
  { destruct vals; [congruence | simpl; lia]. }
  destruct (virtual_index_bounds (length vals) q Hpos Hq0 Hq1)
    as [Hlo [Hg0 Hg1]]. fold lo in Hlo.
  split; [lia|].
  unfold percentile_linear. fold s.
  destruct s as [|y s'] eqn:Es; [simpl in Hlen; lia|].
  rewrite <- Es in *. rewrite Hlen. fold lo.
  apply lerp_not_below; try assumption.
  apply sorted_nth_le.
  - subst s. now apply sort_values_sorted.
  - lia.
  - lia.
  - subst s. now apply sort_values_Forall.
Qed.

Lemma dropna_values_present (v : list npfloat) :
  Forall (fun y => notna y = true) (dropna_values v).
Proof.
  apply Forall_forall. intros y Hy. unfold dropna_values in Hy.
  now apply filter_In in Hy.
Qed.

Lemma filter_gt_dropna (u : npfloat) (v : list npfloat) :
  filter (fun x => fgt x u) (dropna_values v) = filter (fun x => fgt x u) v.
Proof.
  unfold dropna_values. induction v as [|x v IH]; [reflexivity|].
  destruct x; simpl; rewrite IH; reflexivity.
Qed.

Lemma fgt_false_fle (x y : npfloat) :
  notna x = true -> notna y = true -> fgt x y = false -> fle x y = true.
Proof.
  destruct x, y; simpl; try reflexivity; try discriminate.
  intros _ _ H. apply Qlt_bool_false in H. now apply Qle_bool_iff.
Qed.

Lemma quantile_valid (X : list npfloat) (q : Q) :
  0 <= q -> q <= 1 ->
  quantile (NumSeries X) (Fin q)
  = Ok (percentile_linear (dropna_values X) q).
Proof.
  intros H0 H1. unfold quantile, validate_percentile.
  apply Qle_bool_iff in H0, H1. rewrite H0, H1. reflexivity.
Qed.

(** ** The Hill estimator on short and on flat series *)

(** X1.  The exceedances are values of the series: with fewer than ten
    values present the estimator returns NaN for every threshold
    quantile, whatever the values and whatever the threshold comes out
    as. *)
Theorem hill_needs_ten_values :
  forall (np_log : npfloat -> npfloat) (X : list npfloat) (q : npfloat),
    (length (dropna_values X) < 10)%nat ->
    hill_tail_index np_log (NumSeries X) q = Ok NaN.
Proof.
  intros np_log X q Hn.
  destruct (quantile (NumSeries X) q) as [u|e] eqn:Hq.
  - rewrite (hill_unfold np_log X q u Hq). cbv zeta.
    pose proof (filter_length_le (fun x => fgt x u) (dropna_values X)) as Hle.
    rewrite filter_gt_dropna in Hle.
    replace (length _ <? 10)%nat with true; [reflexivity|].
    symmetry. apply Nat.ltb_lt. lia.
  - unfold hill_tail_index, hill_body. rewrite Hq. reflexivity.
Qed.

Lemma hill_needs_ten_values_witness :
  hill_tail_index log_pade (NumSeries [Fin 1; Fin 2; NaN; Fin 4; Fin 5])
    (Fin (95 # 100)) = Ok NaN.
Proof.
  apply hill_needs_ten_values. vm_compute. lia.
Defined.

Lemma sort_values_In (l : list npfloat) (i : nat) :
  (i < length (sort_values l))%nat -> In (nth i (sort_values l) NaN) l.
Proof.
  intro Hi.
  assert (H : Forall (fun y => In y l) (sort_values l)).
  { apply sort_values_Forall. apply Forall_forall. auto. }
  rewrite Forall_forall in H. apply H. now apply nth_In.
Qed.

(** X3.  On a series in which no value exceeds another (a constant
    series, with or without missing entries) the estimator returns NaN
    for every threshold quantile and every length. *)
Theorem hill_flat_series_is_nan :
  forall (np_log : npfloat -> npfloat) (X : list npfloat) (q : npfloat),
    (forall x y, In x X -> In y X -> fgt x y = false) ->
    hill_tail_index np_log (NumSeries X) q = Ok NaN.
Proof.
  intros np_log X q Hflat.
  destruct (quantile (NumSeries X) q) as [u|e] eqn:Hq.
  - rewrite (hill_unfold np_log X q u Hq). cbv zeta.
    destruct (quantile_num_inv X q u Hq) as [q' [-> [H0 [H1 Hu]]]].
    assert (Hnone : Forall (fun x => fgt x u = false) X).
    { apply Forall_forall. intros x Hx.
      destruct (notna x) eqn:Ex; [|destruct x; try discriminate; reflexivity].
      assert (Hin : In x (dropna_values X)) by (apply filter_In; auto).
      assert (Hne : dropna_values X <> []) by (intro E; rewrite E in Hin; auto).
      destruct (percentile_linear_not_below _ q' (dropna_values_present X)
                  Hne H0 H1) as [Hlo Hbelow].
      rewrite <- Hu in Hbelow.
      pose proof (sort_values_In _ _ Hlo) as Hs.
      apply filter_In in Hs as [HsX Hsn].
      eapply fgt_below; [|exact Hbelow].
      apply fgt_false_fle; auto. }
    rewrite (filter_none_length _ _ Hnone). reflexivity.
  - unfold hill_tail_index, hill_body. rewrite Hq. reflexivity.
Qed.

Lemma hill_flat_series_is_nan_witness :
  hill_tail_index log_pade (NumSeries (repeat (Fin 0) 300)) (Fin (1 # 2))
  = Ok NaN.
Proof.
  apply hill_flat_series_is_nan.
  intros x y Hx Hy. apply repeat_spec in Hx, Hy. subst. reflexivity.
Defined.

(** ** Simple returns and the shape of the return panel *)

Lemma zip_with_nested_l {A B C D} (f : A -> B -> C) (g : C -> B -> D) l l' :
  zip_with g (zip_with f l l') l' = zip_with (fun a b => g (f a b) b) l l'.
Proof.
  revert l'. induction l as [|a l IH]; intros [|b l']; simpl; try reflexivity.
  now rewrite IH.
Qed.

Lemma simple_transform_rows (price : list npfloat) :
  simple_transform price =
  match price with
  | [] => []
  | _ => NaN :: simple_returns price
  end.
Proof.
  destruct price as [|x l]; [reflexivity|].
  unfold simple_transform, simple_returns, shift1.
  rewrite zip_with_nested_l. cbn [zip_with tl].
  rewrite fdiv_nan_r. f_equal.
  apply (zip_with_removelast (fun p prev => fdiv (fsub p prev) prev)).
Qed.

Lemma nonzero_finite_inv (x : npfloat) :
  nonzero_finite x = true -> exists a, x = Fin a /\ ~ a == 0.
Proof.
  destruct x; simpl; try discriminate. intro H. exists q.
  split; [reflexivity|]. apply negb_true_iff in H.
  now apply Qeq_bool_neq.
Qed.

Lemma simple_return_finite (a b : Q) :
  ~ b == 0 -> fdiv (fsub (Fin a) (Fin b)) (Fin b) = Fin ((a + - b) / b).
Proof.
  intro Hb. cbn [fsub fopp fadd]. unfold fdiv.
  destruct (Qcompare_spec b 0); try reflexivity. contradiction.
Qed.

Lemma simple_returns_finite (price : list npfloat) :
  forallb nonzero_finite price = true ->
  forallb isfinite (simple_returns price) = true.
Proof.
  unfold simple_returns. destruct price as [|x l]; [reflexivity|].
  cbn [tl]. revert x. induction l as [|y l IH]; intros x H; [reflexivity|].
  cbn [zip_with forallb].
  cbn [forallb] in H. apply andb_true_iff in H as [Hx H].
  pose proof H as Hyl. cbn [forallb] in H. apply andb_true_iff in H as [Hy _].
  destruct (nonzero_finite_inv _ Hx) as [a [-> Ha]].
  destruct (nonzero_finite_inv _ Hy) as [b [-> Hb]].
  rewrite (simple_return_finite _ _ Ha). simpl. apply IH. exact Hyl.
Qed.

Lemma isfinite_notna (v : list npfloat) :
  forallb isfinite v = true -> forallb notna v = true.
Proof.
  induction v as [|x v IH]; simpl; [reflexivity|].
  intro H. apply andb_true_iff in H as [Hx Hv].
  rewrite (IH Hv). destruct x; try discriminate; reflexivity.
Qed.

(** When a transform leaves only its first row incomplete, [dropna] drops
    exactly that row. *)
Lemma dropna_first_row_only (f g : list npfloat -> list npfloat) idx cols n :
  cols <> [] -> index_length idx = n ->
  Forall (fun c =>
            f (snd c) = match snd c with [] => [] | _ => NaN :: g (snd c) end
            /\ length (snd c) = n
            /\ length (g (snd c)) = (n - 1)%nat
            /\ forallb notna (g (snd c)) = true) cols ->
  df_dropna (num_frame idx (map_cols f cols))
  = num_frame (index_tail idx) (map_cols g cols).
Proof.
  intros Hne Hidx Hcols.
  assert (Hflags : Forall (fun c => map notna (f (snd c)) = all_but_first n)
                     cols).
  { eapply Forall_impl; [|exact Hcols].
    intros c [Hf [Hlen [Hglen Hpres]]]. rewrite Hf.
    destruct (snd c) as [|x l]; simpl in Hlen; rewrite <- Hlen in *;
      [reflexivity|].
    cbn [map all_but_first notna isnan negb]. f_equal.
    rewrite (map_notna_present _ Hpres), Hglen. simpl.
    now rewrite Nat.sub_0_r. }
  assert (Hkeep : complete_rows (num_frame idx (map_cols f cols))
                  = all_but_first n).
  { unfold complete_rows, num_frame, nrows. simpl. rewrite Hidx.
    clear Hcols Hidx.
    induction Hflags as [|c cols Hc Hflags IH]; [congruence|].
    simpl. rewrite Hc. destruct cols as [|c' cols'].
    - simpl. apply zip_andb_all_but_first.
    - rewrite IH by discriminate. apply zip_andb_all_but_first. }
  rewrite df_dropna_num. cbv zeta. rewrite Hkeep, map_cols_map_cols.
  subst n. rewrite index_select_all_but_first. f_equal.
  apply (map_cols_ext_Forall _ _ _ _ Hcols).
  intros c [Hf [Hlen [Hglen _]]]. rewrite Hf.
  destruct (snd c) as [|x l]; simpl in Hlen.
  - rewrite <- Hlen in *. destruct (g []); [reflexivity | discriminate].
  - rewrite <- Hlen in *. simpl in Hglen. rewrite Nat.sub_0_r in Hglen.
    rewrite <- Hglen. apply select_all_but_first.
Qed.

Lemma simple_returns_nth (price : list npfloat) (t : nat) :
  (1 <= t < length price)%nat ->
  nth (t - 1) (simple_returns price) NaN
  = fdiv (fsub (nth t price NaN) (nth (t - 1) price NaN))
      (nth (t - 1) price NaN).
Proof.
  intros [H1 Ht]. unfold simple_returns.
  destruct price as [|x l]; [simpl in Ht; lia|]. cbn [tl].
  destruct t as [|t]; [lia|]. simpl Nat.sub. rewrite Nat.sub_0_r.
  simpl in Ht.
  rewrite (nth_zip_with _ l (x :: l) t NaN NaN NaN) by (simpl; lia).
  reflexivity.
Qed.

(** X4.  Every return type other than "log" (in any letter case) is taken
    as simple returns, without validation.  On finite non-zero prices
    only the first row is dropped: the panel of [n] rows gives [n - 1]
    rows without a missing value, the row of day [t] holding
    [(price[t] - price[t-1]) / price[t-1]]. *)
Theorem compute_returns_simple_panel :
  forall (np_log : npfloat -> npfloat) (idx : Index)
         (cols : list (string * list npfloat)) (n : nat)
         (return_type : string),
    String.eqb (lower return_type) "log" = false ->
    cols <> [] ->
    index_length idx = n ->
    Forall (fun c => length (snd c) = n /\
                     forallb nonzero_finite (snd c) = true) cols ->
    compute_returns np_log (num_frame idx cols) return_type
    = Ok (num_frame (index_tail idx) (map_cols simple_returns cols))
    /\ Forall (fun c =>
                 length (simple_returns (snd c)) = (n - 1)%nat
                 /\ forallb notna (simple_returns (snd c)) = true
                 /\ forall t, (1 <= t < n)%nat ->
                      nth (t - 1) (simple_returns (snd c)) NaN
                      = fdiv (fsub (nth t (snd c) NaN)
                                   (nth (t - 1) (snd c) NaN))
                          (nth (t - 1) (snd c) NaN))
         cols.
Proof.
  intros np_log idx cols n return_type Hrt Hne Hidx Hcols.
  assert (Hshape : Forall (fun c =>
                             length (simple_returns (snd c)) = (n - 1)%nat
                             /\ forallb isfinite (simple_returns (snd c)) = true)
                     cols).
  { eapply Forall_impl; [|exact Hcols]. intros c [Hlen Hnz]. split.
    - unfold simple_returns. rewrite zip_with_length_tl. now rewrite Hlen.
    - now apply simple_returns_finite. }
  split.
  - rewrite compute_returns_numeric.
    rewrite (map_cols_ext (transform np_log return_type) simple_transform cols).
    + f_equal. apply (dropna_first_row_only _ simple_returns idx cols n Hne Hidx).
      apply Forall_forall. intros c Hc.
      rewrite Forall_forall in Hcols, Hshape.
      destruct (Hcols c Hc) as [Hlen _]. destruct (Hshape c Hc) as [Hl Hf].
      repeat split; auto using simple_transform_rows, isfinite_notna.
    + intro price. unfold transform. now rewrite Hrt.
  - apply Forall_forall. intros c Hc. rewrite Forall_forall in Hcols, Hshape.
    destruct (Hcols c Hc) as [Hlen _]. destruct (Hshape c Hc) as [Hl Hf].
    repeat split; auto using isfinite_notna.
    intros t Ht. apply simple_returns_nth. now rewrite Hlen.
Qed.

Lemma compute_returns_simple_panel_witness :
  compute_returns log_pade (num_frame (RangeIndex [0; 1; 2]%nat) prices_ab)
    "logarithmic"
  = Ok (num_frame (RangeIndex [1; 2]%nat) (map_cols simple_returns prices_ab)).
Proof.
  assert (Hcols : Forall (fun c => length (snd c) = 3%nat /\
                                   forallb nonzero_finite (snd c) = true)
                    prices_ab).
  { repeat constructor. }
  assert (Hne : prices_ab <> []) by discriminate.
  exact (proj1 (compute_returns_simple_panel log_pade
                  (RangeIndex [0; 1; 2]%nat) prices_ab 3 "logarithmic"
                  eq_refl Hne eq_refl Hcols)).
Defined.

Lemma zip_with_length {A B C} (f : A -> B -> C) l l' :
  length (zip_with f l l') = Nat.min (length l) (length l').
Proof.
  revert l'. induction l as [|a l IH]; intros [|b l']; simpl; auto.
Qed.

Lemma shift1_length {A} (d : A) (v : list A) :
  length (shift1 d v) = length v.
Proof.
  destruct v as [|x v]; [reflexivity|]. unfold shift1.
  rewrite removelast_firstn_len. cbn [length].
  rewrite length_firstn. simpl. lia.
Qed.

Lemma transform_length np_log return_type price :
  length (transform np_log return_type price) = length price.
Proof.
  unfold transform, log_transform, simple_transform.
  destruct (String.eqb (lower return_type) "log");
    rewrite ?length_map, !zip_with_length, ?zip_with_length, !shift1_length;
    lia.
Qed.

Lemma series_notna_length (s : Series) :
  length (series_notna s) = series_length s.
Proof. destruct s; simpl; apply length_map. Qed.

Lemma complete_rows_length (df : DataFrame) :
  rectangular df -> length (complete_rows df) = nrows df.
Proof.
  unfold rectangular, complete_rows. generalize (nrows df) as n. intro n.
  induction 1 as [|c cols Hc _ IH]; simpl; [apply repeat_length|].
  rewrite zip_with_length, IH, series_notna_length, Hc. lia.
Qed.

Lemma select_rows_length {A} (keep : list bool) (l : list A) :
  length keep = length l ->
  length (select_rows keep l) = length (filter (fun b => b) keep).
Proof.
  revert l. induction keep as [|k keep IH]; intros [|x l] H; simpl in *;
    try discriminate; [reflexivity|].
  injection H as H. destruct k; simpl; now rewrite IH.
Qed.

Lemma series_select_length (keep : list bool) (s : Series) :
  length keep = series_length s ->
  series_length (series_select keep s) = length (filter (fun b => b) keep).
Proof. destruct s; simpl; apply select_rows_length. Qed.

Lemma index_select_length (keep : list bool) (i : Index) :
  length keep = index_length i ->
  index_length (index_select keep i) = length (filter (fun b => b) keep).
Proof. destruct i; simpl; apply select_rows_length. Qed.

(** [dropna] keeps a frame rectangular and keeps its columns. *)
Lemma df_dropna_shape (df : DataFrame) :
  rectangular df ->
  rectangular (df_dropna df)
  /\ column_names (df_dropna df) = column_names df
  /\ nrows (df_dropna df)
     = length (filter (fun b => b) (complete_rows df)).
Proof.
  intro Hrect. pose proof (complete_rows_length df Hrect) as Hlen.
  assert (Hrows : nrows (df_dropna df)
                  = length (filter (fun b => b) (complete_rows df))).
  { unfold df_dropna, nrows. cbn [index].
    now apply index_select_length. }
  split; [|split; [|exact Hrows]].
  - unfold rectangular. rewrite Hrows. unfold df_dropna. cbn [columns].
    apply Forall_forall. intros c Hc.
    apply in_map_iff in Hc as [c0 [<- Hc0]]. cbn [snd].
    apply series_select_length. rewrite Hlen.
    unfold rectangular in Hrect. rewrite Forall_forall in Hrect.
    symmetry. now apply Hrect.
  - unfold column_names, df_dropna. cbn [columns]. rewrite map_map.
    reflexivity.
Qed.

Lemma column_names_num_frame {A} idx (f : A -> list npfloat) cols :
  column_names (num_frame idx (map_cols f cols)) = map fst cols.
Proof.
  unfold column_names, num_frame, map_cols. cbn [columns].
  rewrite !map_map. reflexivity.
Qed.

Lemma count_kept_after_first (keep : list bool) :
  nth 0 keep false = false ->
  (length (filter (fun b => b) keep) <= length keep - 1)%nat.
Proof.
  destruct keep as [|k keep]; [simpl; lia|].
  cbn [nth]. intros ->. cbn [filter length].
  pose proof (filter_length_le (fun b : bool => b) keep). lia.
Qed.

(** X5.  On a rectangular numeric panel [compute_returns] returns, for
    either return type, a rectangular panel with the same columns in the
    same order; it has at least one row fewer than a panel that has a
    row, and no row when the panel has none. *)
Theorem compute_returns_keeps_shape :
  forall (np_log : npfloat -> npfloat) (idx : Index)
         (cols : list (string * list npfloat)) (return_type : string),
    log_axioms np_log ->
    cols <> [] ->
    Forall (fun c => length (snd c) = index_length idx) cols ->
    exists returns,
      compute_returns np_log (num_frame idx cols) return_type = Ok returns
      /\ column_names returns = map fst cols
      /\ rectangular returns
      /\ ((0 < index_length idx)%nat ->
          (nrows returns < index_length idx)%nat)
      /\ (index_length idx = 0%nat -> nrows returns = 0%nat).
Proof.
  intros np_log idx cols return_type Hlog Hne Hrect.
  rewrite compute_returns_numeric.
  set (df := num_frame idx (map_cols (transform np_log return_type) cols)).
  assert (Hdf : rectangular df).
  { unfold rectangular, df, num_frame, nrows. cbn [columns index].
    apply Forall_forall. intros c Hc. unfold map_cols in Hc.
    rewrite map_map in Hc. apply in_map_iff in Hc as [c0 [<- Hc0]].
    cbn [snd fst series_length]. rewrite transform_length.
    rewrite Forall_forall in Hrect. now apply Hrect. }
  destruct (df_dropna_shape df Hdf) as [Hr [Hnames Hrows]].
  exists (df_dropna df). split; [reflexivity|].
  split; [rewrite Hnames; apply column_names_num_frame|].
  split; [exact Hr|].
  rewrite Hrows.
  pose proof (count_kept_after_first (complete_rows df)
                (first_row_incomplete np_log idx cols return_type Hlog Hne))
    as H.
  rewrite (complete_rows_length df Hdf) in H.
  replace (nrows df) with (index_length idx) in H by reflexivity.
  split; intro Hn; lia.
Qed.

Lemma compute_returns_keeps_shape_witness :
  exists returns,
    compute_returns log_pade (num_frame (RangeIndex [0; 1; 2]%nat) prices_zero)
      "log" = Ok returns
    /\ column_names returns = ["A"%string]
    /\ rectangular returns
    /\ (nrows returns < 3)%nat.
Proof.
  destruct (compute_returns_keeps_shape log_pade (RangeIndex [0; 1; 2]%nat)
              prices_zero "log" log_pade_axioms)
    as [returns [E [Hnames [Hrect [Hrows _]]]]].
  - discriminate.
  - repeat constructor.
  - exists returns. split; [exact E|]. split; [exact Hnames|].
    split; [exact Hrect|]. apply Hrows. simpl. lia.
Defined.

(** ** Configuration keys and tuple shapes in the stylized facts *)

Section StylizedFacts.
Variable np_log : npfloat -> npfloat.
Variable acorr_ljungbox : Series -> npfloat -> result (list (list npfloat)).
Variable het_arch : Series -> npfloat -> result (list npfloat).
Variable series_kurtosis : list npfloat -> npfloat.

(** The table of stylized facts of a numeric panel, row by row. *)
Lemma stylized_facts_table config idx cols q :
  dict_get "hill_threshold_quantile" (tails config) = Ok q ->
  exists table,
    stylized_facts np_log acorr_ljungbox het_arch series_kurtosis
      (num_frame idx cols) config = Ok table
    /\ Forall2
         (fun c row =>
            sf_Series row = fst c
            /\ (Ljung_Box_Stat row, Ljung_Box_p_value row)
               = match ljung_box_body acorr_ljungbox
                         (NumSeries (dropna_values (snd c))) config with
                 | Ok r => r
                 | Raise _ => (NaN, NaN)
                 end
            /\ (ARCH_LM_Stat row, ARCH_LM_p_value row)
               = match arch_lm_body het_arch
                         (NumSeries (dropna_values (snd c))) config with
                 | Ok r => r
                 | Raise _ => (NaN, NaN)
                 end)
         cols table.
Proof.
  intro Hq. unfold stylized_facts, num_frame. cbn [columns].
  induction cols as [|[name v] cols IH].
  - exists []. split; [reflexivity | constructor].
  - destruct IH as [table [E Hrows]].
    destruct (stylized_row_total np_log acorr_ljungbox het_arch
                series_kurtosis name v config q Hq)
      as [row [Er [Hn [Hlb [Harch _]]]]].
    exists (row :: table). cbn [map_cols map map_result fst snd].
    rewrite Er. cbn [bind]. unfold map_cols in E. rewrite E.
    split; [reflexivity|]. constructor; [|exact Hrows].
    cbn [fst snd]. auto.
Qed.

Lemma Forall2_Forall_r {A B} (P : A -> B -> Prop) (Q : B -> Prop) l l' :
  (forall a b, P a b -> Q b) -> Forall2 P l l' -> Forall Q l'.
Proof. intro H. induction 1; constructor; eauto. Qed.

Lemma unpack2_needs_two {A} (t : list A) :
  length t <> 2%nat -> exists e, unpack2 t = Raise e.
Proof.
  destruct t as [|a [|b [|c t]]]; simpl; intro H; eauto. congruence.
Qed.

End StylizedFacts.

(** X6.  A configuration without [tests['lb_lags']] (or without
    [tests['arch_lm_lags']]) is not reported: the table of stylized facts
    is produced with one row per series, and the Ljung-Box (ARCH-LM)
    fields of every row are NaN. *)
Theorem missing_lag_keys_give_nan :
  forall (np_log : npfloat -> npfloat)
         (acorr_ljungbox : Series -> npfloat -> result (list (list npfloat)))
         (het_arch : Series -> npfloat -> result (list npfloat))
         (series_kurtosis : list npfloat -> npfloat)
         (config : EDAConfig) (idx : Index)
         (cols : list (string * list npfloat)) (q : npfloat),
    dict_get "hill_threshold_quantile" (tails config) = Ok q ->
    exists table,
      stylized_facts np_log acorr_ljungbox het_arch series_kurtosis
        (num_frame idx cols) config = Ok table
      /\ map sf_Series table = map fst cols
      /\ ((exists e, dict_get "lb_lags" (tests config) = Raise e) ->
          Forall (fun row => Ljung_Box_Stat row = NaN
                             /\ Ljung_Box_p_value row = NaN) table)
      /\ ((exists e, dict_get "arch_lm_lags" (tests config) = Raise e) ->
          Forall (fun row => ARCH_LM_Stat row = NaN
                             /\ ARCH_LM_p_value row = NaN) table).
Proof.
  intros np_log acorr_ljungbox het_arch series_kurtosis config idx cols q Hq.
  destruct (stylized_facts_table np_log acorr_ljungbox het_arch
              series_kurtosis config idx cols q Hq) as [table [E Hrows]].
  exists table. split; [exact E|]. split.
  - apply Forall2_map_eq.
    apply (Forall2_impl _ _ _ _ (fun c row H => proj1 H) Hrows).
  - split; intros [e He].
    + eapply Forall2_Forall_r; [|exact Hrows].
      intros c row [_ [Hlb _]]. unfold ljung_box_body in Hlb.
      rewrite He in Hlb. cbn [bind] in Hlb. injection Hlb as -> ->. auto.
    + eapply Forall2_Forall_r; [|exact Hrows].
      intros c row [_ [_ Harch]]. unfold arch_lm_body in Harch.
      rewrite He in Harch. cbn [bind] in Harch. injection Harch as -> ->. auto.
Qed.

Lemma missing_lag_keys_give_nan_witness :
  exists table,
    stylized_facts log_pade acorr_ljungbox_stub het_arch_stub moment_stub
      (num_frame (RangeIndex [1; 2; 3; 4]%nat) returns_flat_up) config_no_dates
    = Ok table
    /\ Forall (fun row => Ljung_Box_Stat row = NaN
                          /\ Ljung_Box_p_value row = NaN) table.
Proof.
  destruct (missing_lag_keys_give_nan log_pade acorr_ljungbox_stub
              het_arch_stub moment_stub config_no_dates
              (RangeIndex [1; 2; 3; 4]%nat) returns_flat_up (Fin (95 # 100))
              eq_refl) as [table [E [_ [Hlb _]]]].
  exists table. split; [exact E|]. apply Hlb.
  exists (KeyError "lb_lags"). reflexivity.
Defined.

(** X7.  The lookup of the Hill threshold quantile in [config.tails] is
    outside every [try]: without the key, [stylized_facts] raises on any
    panel with a column, whatever the tests return. *)
Theorem missing_hill_quantile_raises :
  forall (np_log : npfloat -> npfloat)
         (acorr_ljungbox : Series -> npfloat -> result (list (list npfloat)))
         (het_arch : Series -> npfloat -> result (list npfloat))
         (series_kurtosis : list npfloat -> npfloat)
         (config : EDAConfig) (df : DataFrame) (e : exn),
    dict_get "hill_threshold_quantile" (tails config) = Raise e ->
    columns df <> [] ->
    stylized_facts np_log acorr_ljungbox het_arch series_kurtosis df config
    = Raise e.
Proof.
  intros np_log acorr_ljungbox het_arch series_kurtosis config df e He Hne.
  unfold stylized_facts.
  destruct (columns df) as [|c cols]; [congruence|].
  cbn [map_result]. unfold stylized_row.
  rewrite ljung_box_test_outcome, arch_lm_test_outcome, He. reflexivity.
Qed.

Lemma missing_hill_quantile_raises_witness :
  stylized_facts log_pade acorr_ljungbox_stub het_arch_stub moment_stub
    (num_frame (RangeIndex [1; 2; 3; 4]%nat) returns_flat_up) config_no_hill
  = Raise (KeyError "hill_threshold_quantile").
Proof.
  apply missing_hill_quantile_raises; [reflexivity | discriminate].
Defined.

(** X8.  [stylized_facts] unpacks the result of [het_arch] into two
    names: whenever [het_arch] returns a tuple of another length (the
    four values lm, lm p-value, f, f p-value) or raises, the ARCH-LM
    fields of every row are NaN. *)
Theorem arch_lm_needs_a_pair :
  forall (np_log : npfloat -> npfloat)
         (acorr_ljungbox : Series -> npfloat -> result (list (list npfloat)))
         (het_arch : Series -> npfloat -> result (list npfloat))
         (series_kurtosis : list npfloat -> npfloat)
         (config : EDAConfig) (idx : Index)
         (cols : list (string * list npfloat)) (q : npfloat),
    dict_get "hill_threshold_quantile" (tails config) = Ok q ->
    (forall s nlags t, het_arch s nlags = Ok t -> length t <> 2%nat) ->
    exists table,
      stylized_facts np_log acorr_ljungbox het_arch series_kurtosis
        (num_frame idx cols) config = Ok table
      /\ Forall (fun row => ARCH_LM_Stat row = NaN
                            /\ ARCH_LM_p_value row = NaN) table.
Proof.
  intros np_log acorr_ljungbox het_arch series_kurtosis config idx cols q
         Hq Harity.
  destruct (stylized_facts_table np_log acorr_ljungbox het_arch
              series_kurtosis config idx cols q Hq) as [table [E Hrows]].
  exists table. split; [exact E|].
  eapply Forall2_Forall_r; [|exact Hrows].
  intros c row [_ [_ Harch]]. unfold arch_lm_body in Harch.
  destruct (dict_get "arch_lm_lags" (tests config)) as [nlags|e1];
    cbn [bind] in Harch; [|injection Harch as -> ->; auto].
  destruct (het_arch (NumSeries (dropna_values (snd c))) nlags) as [t|e2] eqn:Et;
    cbn [bind] in Harch; [|injection Harch as -> ->; auto].
  destruct (unpack2_needs_two t (Harity _ _ _ Et)) as [e3 He3].
  rewrite He3 in Harch. cbn [bind] in Harch. injection Harch as -> ->. auto.
Qed.

Lemma arch_lm_needs_a_pair_witness :
  exists table,
    stylized_facts log_pade acorr_ljungbox_stub het_arch_stub moment_stub
      (num_frame (RangeIndex [1; 2; 3; 4]%nat) returns_flat_up) sample_config
    = Ok table
    /\ Forall (fun row => ARCH_LM_Stat row = NaN
                          /\ ARCH_LM_p_value row = NaN) table.
Proof.
  apply (arch_lm_needs_a_pair log_pade acorr_ljungbox_stub het_arch_stub
           moment_stub sample_config (RangeIndex [1; 2; 3; 4]%nat)
           returns_flat_up (Fin (95 # 100)) eq_refl).
  intros s nlags t H. injection H as <-. discriminate.
Defined.

(** X9.  When [acorr_ljungbox] returns its two arrays, the table reports
    the statistic and the p-value of the last lag only. *)
Theorem ljung_box_reports_last_lag :
  forall (np_log : npfloat -> npfloat)
         (acorr_ljungbox : Series -> npfloat -> result (list (list npfloat)))
         (het_arch : Series -> npfloat -> result (list npfloat))
         (series_kurtosis : list npfloat -> npfloat)
         (config : EDAConfig) (idx : Index)
         (cols : list (string * list npfloat)) (q lags : npfloat),
    dict_get "hill_threshold_quantile" (tails config) = Ok q ->
    dict_get "lb_lags" (tests config) = Ok lags ->
    exists table,
      stylized_facts np_log acorr_ljungbox het_arch series_kurtosis
        (num_frame idx cols) config = Ok table
      /\ Forall2
           (fun c row =>
              forall s0 stats p0 pvals,
                acorr_ljungbox (NumSeries (dropna_values (snd c))) lags
                = Ok [s0 :: stats; p0 :: pvals] ->
                Ljung_Box_Stat row = last (s0 :: stats) NaN
                /\ Ljung_Box_p_value row = last (p0 :: pvals) NaN)
           cols table.
Proof.
  intros np_log acorr_ljungbox het_arch series_kurtosis config idx cols q lags
         Hq Hlags.
  destruct (stylized_facts_table np_log acorr_ljungbox het_arch
              series_kurtosis config idx cols q Hq) as [table [E Hrows]].
  exists table. split; [exact E|].
  eapply Forall2_impl; [|exact Hrows].
  intros c row [_ [Hlb _]] s0 stats p0 pvals Hret.
  unfold ljung_box_body in Hlb. rewrite Hlags in Hlb. cbn [bind] in Hlb.
  rewrite Hret in Hlb. cbn [bind unpack2 last_item] in Hlb.
  injection Hlb as -> ->. auto.
Qed.

Lemma ljung_box_reports_last_lag_witness :
  exists table,
    stylized_facts log_pade acorr_ljungbox_stub het_arch_stub moment_stub
      (num_frame (RangeIndex [1; 2; 3; 4]%nat) returns_flat_up) sample_config
    = Ok table
    /\ map Ljung_Box_Stat table = [Fin 2; Fin 2]
    /\ map Ljung_Box_p_value table = [Fin (3 # 10); Fin (3 # 10)].
Proof.
  destruct (ljung_box_reports_last_lag log_pade acorr_ljungbox_stub
              het_arch_stub moment_stub sample_config
              (RangeIndex [1; 2; 3; 4]%nat) returns_flat_up
              (Fin (95 # 100)) (Fin 20) eq_refl eq_refl)
    as [table [E Hrows]].
  exists table. split; [exact E|].
  inversion Hrows as [|c1 r1 l1 t1 H1 Hrest]; subst.
  inversion Hrest as [|c2 r2 l2 t2 H2 Hnil]; subst.
  inversion Hnil; subst. cbn [map].
  destruct (H1 _ _ _ _ eq_refl) as [-> ->].
  destruct (H2 _ _ _ _ eq_refl) as [-> ->].
  split; reflexivity.
Defined.

(** ** Summary statistics *)

Section SummaryFacts.
Variable series_std series_skew series_kurtosis : list npfloat -> npfloat.
Variable jarque_bera : list npfloat -> result (npfloat * npfloat).

Lemma summary_row_outcome name (v : list npfloat) :
  summary_row series_std series_skew series_kurtosis jarque_bera
    name (NumSeries v)
  = match jarque_bera (dropna_values v) with
    | Ok jb =>
        Ok (mkSummaryRow name (mean (dropna_values v))
              (series_std (dropna_values v)) (series_skew (dropna_values v))
              (series_kurtosis (dropna_values v)) (fst jb) (snd jb)
              (min_values (dropna_values v)) (max_values (dropna_values v))
              (percentile_linear (dropna_values (dropna_values v)) (25 # 100))
              (percentile_linear (dropna_values (dropna_values v)) (75 # 100))
              (length (dropna_values v)))
    | Raise e => Raise e
    end.
Proof.
  unfold summary_row. cbn [series_dropna].
  destruct (jarque_bera (dropna_values v)); [|reflexivity].
  unfold quantile.
  change (validate_percentile (Fin (25 # 100))) with (@Ok Q (25 # 100)).
  change (validate_percentile (Fin (75 # 100))) with (@Ok Q (75 # 100)).
  reflexivity.
Qed.

Lemma summary_statistics_counts idx cols :
  Forall (fun c => exists r, jarque_bera (dropna_values (snd c)) = Ok r) cols ->
  exists table,
    summary_statistics series_std series_skew series_kurtosis jarque_bera
      (num_frame idx cols) = Ok table
    /\ map sum_Series table = map fst cols
    /\ map sum_Observations table
       = map (fun c => length (dropna_values (snd c))) cols.
Proof.
  intro Hcols. unfold summary_statistics, num_frame. cbn [columns].
  induction Hcols as [|[name v] cols [r Hr] _ IH].
  - exists []. auto.
  - destruct IH as [table [E [Hn Ho]]].
    cbn [map_cols map map_result fst snd].
    rewrite summary_row_outcome. cbn [snd] in Hr. rewrite Hr. cbn [bind].
    unfold map_cols in E. rewrite E. cbn [bind].
    eexists. split; [reflexivity|]. cbn [map sum_Series sum_Observations].
    split; congruence.
Qed.

End SummaryFacts.

(** X10.  Returns and summary compose: for a rectangular numeric price
    panel and either return type, when the Jarque-Bera routine returns,
    the summary table has one row per series, in order, and the
    observation count of every series is the number of rows of the return
    panel. *)
Theorem summary_counts_are_return_rows :
  forall (np_log : npfloat -> npfloat)
         (std skew kurt : list npfloat -> npfloat)
         (jb : list npfloat -> result (npfloat * npfloat))
         (idx : Index) (cols : list (string * list npfloat))
         (return_type : string),
    (forall s, exists r, jb s = Ok r) ->
    Forall (fun c => length (snd c) = index_length idx) cols ->
    exists returns table,
      compute_returns np_log (num_frame idx cols) return_type = Ok returns
      /\ summary_statistics std skew kurt jb returns = Ok table
      /\ map sum_Series table = map fst cols
      /\ Forall (fun row => sum_Observations row = nrows returns) table.
Proof.
  intros np_log std skew kurt jb idx cols return_type Hjb Hrect.
  rewrite compute_returns_numeric.
  set (tcols := map_cols (transform np_log return_type) cols).
  assert (Hdf : rectangular (num_frame idx tcols)).
  { unfold rectangular, num_frame, nrows. cbn [columns index].
    apply Forall_forall. intros c Hc. unfold tcols, map_cols in Hc.
    rewrite map_map in Hc. apply in_map_iff in Hc as [c0 [<- Hc0]].
    cbn [snd fst series_length]. rewrite transform_length.
    rewrite Forall_forall in Hrect. now apply Hrect. }
  destruct (df_dropna_shape _ Hdf) as [Hr [_ _]].
  rewrite df_dropna_num in *. cbv zeta in *.
  set (keep := complete_rows (num_frame idx tcols)) in *.
  set (rcols := map_cols (select_rows keep) tcols) in *.
  destruct (summary_statistics_counts std skew kurt jb
              (index_select keep idx) rcols) as [table [E [Hn Ho]]].
  { apply Forall_forall. intros c _. apply Hjb. }
  eexists. exists table. split; [reflexivity|]. split; [exact E|]. split.
  - rewrite Hn. unfold rcols, tcols, map_cols. rewrite !map_map. reflexivity.
  - apply Forall_forall. intros row Hrow.
    apply (in_map sum_Observations) in Hrow. rewrite Ho in Hrow.
    apply in_map_iff in Hrow as [c [<- Hc]].
    pose proof (df_dropna_present idx tcols) as Hpres. fold keep in Hpres.
    unfold rcols, map_cols in Hc. apply in_map_iff in Hc as [c0 [<- Hc0]].
    cbn [snd]. rewrite Forall_forall in Hpres.
    rewrite (dropna_all_present _ (Hpres c0 Hc0)).
    unfold rectangular in Hr. rewrite Forall_forall in Hr.
    apply (Hr (fst c0, NumSeries (select_rows keep (snd c0)))).
    unfold num_frame, rcols, map_cols. cbn [columns]. rewrite map_map.
    apply in_map_iff. exists c0. auto.
Qed.

Lemma summary_counts_are_return_rows_witness :
  exists returns table,
    compute_returns log_pade (num_frame (RangeIndex [0; 1; 2]%nat) prices_ab)
      "simple" = Ok returns
    /\ summary_statistics moment_stub moment_stub moment_stub jarque_bera_stub
         returns = Ok table
    /\ map sum_Series table = ["A"%string; "B"%string]
    /\ Forall (fun row => sum_Observations row = nrows returns) table.
Proof.
  apply (summary_counts_are_return_rows log_pade moment_stub moment_stub
           moment_stub jarque_bera_stub (RangeIndex [0; 1; 2]%nat) prices_ab
           "simple").
  - intro s. exists (NaN, NaN). reflexivity.
  - repeat constructor.
Defined.

(** X11.  The Jarque-Bera call is not guarded: when it raises on one
    series, [summary_statistics] raises and returns no table, for any
    series and whatever the other statistics are. *)
Theorem jarque_bera_failure_stops_summary :
  forall (std skew kurt : list npfloat -> npfloat)
         (jb : list npfloat -> result (npfloat * npfloat))
         (idx : Index) (cols : list (string * list npfloat))
         (c : string * list npfloat) (e : exn),
    In c cols ->
    jb (dropna_values (snd c)) = Raise e ->
    exists e',
      summary_statistics std skew kurt jb (num_frame idx cols) = Raise e'.
Proof.
  intros std skew kurt jb idx cols c e Hin He.
  unfold summary_statistics, num_frame. cbn [columns].
  induction cols as [|[name v] cols IH]; [contradiction|].
  cbn [map_cols map map_result fst snd]. rewrite summary_row_outcome.
  destruct Hin as [<-|Hin].
  - cbn [snd] in He. rewrite He. cbn [bind]. eauto.
  - destruct (jb (dropna_values v)); cbn [bind]; [|eauto].
    destruct (IH Hin) as [e' He']. unfold map_cols in He'. rewrite He'.
    cbn [bind]. eauto.
Qed.

Lemma jarque_bera_failure_stops_summary_witness :
  exists e',
    summary_statistics moment_stub moment_stub moment_stub
      (fun s => match s with
                | [] => Raise (ValueError "At least one observation is required.")
                | _ => Ok (NaN, NaN)
                end)
      (num_frame (DatetimeIndex "Date" [])
         [("A"%string, []); ("B"%string, [])])
    = Raise e'.
Proof.
  apply (jarque_bera_failure_stops_summary moment_stub moment_stub moment_stub
           _ (DatetimeIndex "Date" []) [("A"%string, []); ("B"%string, [])]
           ("A"%string, [])
           (ValueError "At least one observation is required.")).
  - left. reflexivity.
  - reflexivity.
Defined.

(** ** The run, stage by stage *)

Ltac run_stage H :=
  rewrite H; cbn [lift emit eret ebind prints plotting fst snd].

(** X12.  [load_config] raises [FileNotFoundError] exactly when the path
    does not exist and a [ValueError] for every other failure (YAML
    error, empty document, fields that do not fit [EDAConfig]); when it
    returns, the document was there and the configuration was built from
    it. *)
Theorem load_config_errors :
  forall (lib : Library) (config_path : string),
    (lib_path_exists lib config_path = false ->
     load_config lib config_path
     = Raise (FileNotFoundError "Configuration file not found"))
    /\ (lib_path_exists lib config_path = true ->
        forall e, load_config lib config_path = Raise e ->
                  exists msg, e = ValueError msg)
    /\ (lib_path_exists lib config_path = true ->
        lib_yaml_safe_load lib config_path = Ok None ->
        exists msg, load_config lib config_path = Raise (ValueError msg))
    /\ (forall config, load_config lib config_path = Ok config ->
        lib_path_exists lib config_path = true
        /\ exists d, lib_yaml_safe_load lib config_path = Ok (Some d)
                     /\ lib_make_config lib d = Ok config).
Proof.
  intros lib config_path. unfold load_config.
  split; [|split; [|split]].
  - intros ->. reflexivity.
  - intros -> e.
    destruct (lib_yaml_safe_load lib config_path) as [[d|]|e0]; cbn.
    + destruct (lib_make_config lib d); cbn; [discriminate|].
      intro H. injection H as <-. eauto.
    + intro H. injection H as <-. eauto.
    + intro H. injection H as <-. eauto.
  - intros -> ->. cbn. eauto.
  - intro config.
    destruct (lib_path_exists lib config_path); [|discriminate].
    destruct (lib_yaml_safe_load lib config_path) as [[d|]|e0]; cbn;
      try discriminate.
    destruct (lib_make_config lib d) eqn:E; cbn; [|discriminate].
    intro H. injection H as <-. eauto.
Qed.

Lemma load_config_errors_witness :
  load_config
    (mkLibrary unit log_pade moment_stub moment_stub moment_stub
       jarque_bera_stub adfuller_stub kpss_stub acorr_ljungbox_stub
       het_arch_stub (fun _ => false) (fun _ => Ok csv_dated)
       to_datetime_stub period_of_stub (fun _ => Ok (Some tt))
       (fun _ => Ok sample_config)
       plot_stub plot_stub plot_pacf_stub plot_stub)
    "missing.yaml"
  = Raise (FileNotFoundError "Configuration file not found").
Proof.
  apply (proj1 (load_config_errors _ "missing.yaml")). reflexivity.
Defined.

(** X13.  When the configuration cannot be loaded the run prints the
    diagnostic and exits with status 1; no directory is created, no data
    is read, nothing is written. *)
Theorem main_without_configuration :
  forall (lib : Library) (config_path : string) (e : exn),
    load_config lib config_path = Raise e ->
    main lib config_path
    = ([Print ("Error during EDA analysis: " ++ exn_message e)], 1%Z).
Proof.
  intros lib config_path e He. unfold main, run_pipeline.
  rewrite He. reflexivity.
Qed.

Lemma main_without_configuration_witness :
  main
    (mkLibrary unit log_pade moment_stub moment_stub moment_stub
       jarque_bera_stub adfuller_stub kpss_stub acorr_ljungbox_stub
       het_arch_stub (fun _ => true) (fun _ => Ok csv_dated)
       to_datetime_stub period_of_stub (fun _ => Ok None)
       (fun _ => Ok sample_config)
       plot_stub plot_stub plot_pacf_stub plot_stub)
    "empty.yaml"
  = ([Print "Error during EDA analysis: Failed to load configuration"], 1%Z).
Proof.
  apply (main_without_configuration _ "empty.yaml"
           (ValueError "Failed to load configuration")).
  reflexivity.
Defined.

(** X14.  When the data file does not exist the CSV reader is not
    called: the run has created its output directories, announces the
    load, prints the diagnostic and exits with status 1. *)
Theorem main_without_data_file :
  forall (lib : Library) (config_path : string) (config : EDAConfig),
    load_config lib config_path = Ok config ->
    lib_path_exists lib (input_csv config) = false ->
    main lib config_path
    = (map (fun d => MakeDirs (snd d)) (output_dirs config)
         ++ [Print ("Loading data from " ++ input_csv config);
             Print "Error during EDA analysis: Data file not found"], 1%Z).
Proof.
  intros lib config_path config Hconfig Hpath. unfold main, run_pipeline.
  run_stage Hconfig. rewrite setup_output_dirs_events.
  cbn [ebind fst snd]. unfold load_data. rewrite Hpath.
  cbn [lift emit eret ebind prints fst snd map app exn_message].
  rewrite <- app_assoc. reflexivity.
Qed.

Lemma main_without_data_file_witness :
  main
    (mkLibrary unit log_pade moment_stub moment_stub moment_stub
       jarque_bera_stub adfuller_stub kpss_stub acorr_ljungbox_stub
       het_arch_stub (fun path => String.eqb path "eda.yaml")
       (fun _ => Ok csv_dated)
       to_datetime_stub period_of_stub (fun _ => Ok (Some tt))
       (fun _ => Ok sample_config)
       plot_stub plot_stub plot_pacf_stub plot_stub)
    "eda.yaml"
  = ([MakeDirs "artifacts/eda"; MakeDirs "reports/eda";
      Print "Loading data from data/prices.csv";
      Print "Error during EDA analysis: Data file not found"], 1%Z).
Proof.
  apply (main_without_data_file _ "eda.yaml" sample_config); reflexivity.
Defined.

(** X15.  The significance level is looked up after the summary
    statistics are computed: without [adf_alpha] among the test
    parameters the run stops there with status 1, and no table, not even
    the summary already computed, is written. *)
Theorem main_without_adf_alpha :
  forall (lib : Library) (config_path : string) (config : EDAConfig)
         (out : list string) (prices returns : DataFrame)
         (summary : list SummaryRow) (e : exn),
    load_config lib config_path = Ok config ->
    load_data (lib_path_exists lib) (lib_read_csv lib) (lib_to_datetime lib)
      (lib_period_of lib) config = (out, Ok prices) ->
    compute_returns (lib_log lib) prices (return_type config) = Ok returns ->
    summary_statistics (lib_std lib) (lib_skew lib) (lib_kurtosis lib)
      (lib_jarque_bera lib) returns = Ok summary ->
    dict_get "adf_alpha" (tests config) = Raise e ->
    main lib config_path
    = (map (fun d => MakeDirs (snd d)) (output_dirs config)
         ++ map Print out
         ++ [Print "Computing summary statistics...";
             Print ("Error during EDA analysis: " ++ exn_message e)], 1%Z)
    /\ existsb is_write_csv (fst (main lib config_path)) = false.
Proof.
  intros lib config_path config out prices returns summary e
         Hconfig Hload Hreturns Hsummary Halpha.
  assert (Hmain : main lib config_path
            = (map (fun d => MakeDirs (snd d)) (output_dirs config)
                 ++ map Print out
                 ++ [Print "Computing summary statistics...";
                     Print ("Error during EDA analysis: " ++ exn_message e)],
               1%Z)).
  { unfold main, run_pipeline.
    run_stage Hconfig. rewrite setup_output_dirs_events.
    cbn [ebind fst snd]. run_stage Hload. run_stage Hreturns.
    run_stage Hsummary. run_stage Halpha.
    cbn [app]. rewrite ?app_nil_r, <- ?app_assoc. cbn [app]. reflexivity. }
  split; [exact Hmain|]. rewrite Hmain. cbn [fst].
  rewrite !existsb_app, no_write_csv_in_makedirs, no_write_csv_in_prints.
  reflexivity.
Qed.

(** X16.  When every stage returns, the run exits with status 0 after
    these events, in this order: the output directories, the lines of the
    loader, one progress line per analyzer, the plots, the three tables
    (summary, stationarity, stylized facts) under the artifacts
    directory, the report under the reports directory, the closing
    lines.  The tables written are the tables the analyzers returned. *)
Theorem main_success :
  forall (lib : Library) (config_path : string) (config : EDAConfig)
         (out : list string) (prices returns : DataFrame)
         (summary : list SummaryRow) (alpha : npfloat)
         (stationarity : list StationarityRow) (stylized : list StylizedRow)
         (plot_calls : list plot_call) (artifacts reports : string),
    load_config lib config_path = Ok config ->
    load_data (lib_path_exists lib) (lib_read_csv lib) (lib_to_datetime lib)
      (lib_period_of lib) config = (out, Ok prices) ->
    compute_returns (lib_log lib) prices (return_type config) = Ok returns ->
    summary_statistics (lib_std lib) (lib_skew lib) (lib_kurtosis lib)
      (lib_jarque_bera lib) returns = Ok summary ->
    dict_get "adf_alpha" (tests config) = Ok alpha ->
    stationarity_tests (lib_adfuller lib) (lib_kpss lib) returns alpha
    = Ok stationarity ->
    stylized_facts (lib_log lib) (lib_acorr_ljungbox lib) (lib_het_arch lib)
      (lib_kurtosis lib) returns config = Ok stylized ->
    create_plots (lib_corr lib) (lib_autocorrelation_plot lib)
      (lib_plot_pacf lib) (lib_probplot lib) prices returns config
    = (plot_calls, Ok tt) ->
    dict_get "artifacts" (output_dirs config) = Ok artifacts ->
    dict_get "reports" (output_dirs config) = Ok reports ->
    main lib config_path
    = (map (fun d => MakeDirs (snd d)) (output_dirs config)
         ++ map Print out
         ++ [Print "Computing summary statistics...";
             Print "Performing stationarity tests...";
             Print "Computing stylized facts..."]
         ++ map plot_event plot_calls
         ++ [WriteCsv (artifacts ++ "/summary_stats.csv") (SummaryTable summary);
             WriteCsv (artifacts ++ "/stationarity.csv")
               (StationarityTable stationarity);
             WriteCsv (artifacts ++ "/stylized_facts.csv")
               (StylizedTable stylized);
             Print "Generating EDA report...";
             WriteReport (reports ++ "/EDA_Report.md");
             Print "Report saved";
             Print "EDA analysis completed successfully!";
             Print "Results saved to:";
             Print ("   - Artifacts: " ++ artifacts);
             Print ("   - Reports: " ++ reports)], 0%Z).
Proof.
  intros lib config_path config out prices returns summary alpha stationarity
         stylized plot_calls artifacts reports
         Hconfig Hload Hreturns Hsummary Halpha Hstat Hstyl Hplots
         Hartifacts Hreports.
  unfold main, run_pipeline, generate_report.
  run_stage Hconfig. rewrite setup_output_dirs_events.
  cbn [ebind fst snd]. run_stage Hload. run_stage Hreturns.
  run_stage Hsummary. run_stage Halpha. run_stage Hstat. run_stage Hstyl.
  run_stage Hplots. run_stage Hartifacts. run_stage Hreports.
  cbn [app]. rewrite ?app_nil_r, <- ?app_assoc. cbn [app].
  rewrite <- ?app_assoc. cbn [app]. rewrite <- ?app_assoc. reflexivity.
Qed.

Lemma main_success_witness :
  snd (main (library_stub csv_dated config_plots_off) "eda.yaml") = 0%Z
  /\ map (fun e => match e with WriteCsv path _ => path | _ => ""%string end)
       (filter is_write_csv
          (fst (main (library_stub csv_dated config_plots_off) "eda.yaml")))
     = ["artifacts/eda/summary_stats.csv"; "artifacts/eda/stationarity.csv";
        "artifacts/eda/stylized_facts.csv"]%string.
Proof.
  pose proof (main_success (library_stub csv_dated config_plots_off) "eda.yaml"
                config_plots_off) as H.
  cbn [library_stub lib_path_exists lib_read_csv lib_to_datetime lib_period_of
       lib_log lib_std lib_skew lib_kurtosis lib_jarque_bera lib_adfuller
       lib_kpss lib_acorr_ljungbox lib_het_arch lib_corr
       lib_autocorrelation_plot lib_plot_pacf lib_probplot] in H.
  specialize (H _ _ _ _ _ _ _ [PlotPrint "Creating visualizations..."] _ _
                eq_refl eq_refl eq_refl eq_refl eq_refl
                eq_refl eq_refl eq_refl eq_refl eq_refl).
  rewrite H. split; reflexivity.
Defined.

(** X17.  The report comes after the tables: when the reports directory
    is missing from [output_dirs] (and the plots did not need it), the
    three tables are written first and the run then exits with status
    1. *)
Theorem main_report_fails_after_tables :
  forall (lib : Library) (config_path : string) (config : EDAConfig)
         (out : list string) (prices returns : DataFrame)
         (summary : list SummaryRow) (alpha : npfloat)
         (stationarity : list StationarityRow) (stylized : list StylizedRow)
         (plot_calls : list plot_call) (artifacts : string) (e : exn),
    load_config lib config_path = Ok config ->
    load_data (lib_path_exists lib) (lib_read_csv lib) (lib_to_datetime lib)
      (lib_period_of lib) config = (out, Ok prices) ->
    compute_returns (lib_log lib) prices (return_type config) = Ok returns ->
    summary_statistics (lib_std lib) (lib_skew lib) (lib_kurtosis lib)
      (lib_jarque_bera lib) returns = Ok summary ->
    dict_get "adf_alpha" (tests config) = Ok alpha ->
    stationarity_tests (lib_adfuller lib) (lib_kpss lib) returns alpha
    = Ok stationarity ->
    stylized_facts (lib_log lib) (lib_acorr_ljungbox lib) (lib_het_arch lib)
      (lib_kurtosis lib) returns config = Ok stylized ->
    create_plots (lib_corr lib) (lib_autocorrelation_plot lib)
      (lib_plot_pacf lib) (lib_probplot lib) prices returns config
    = (plot_calls, Ok tt) ->
    dict_get "artifacts" (output_dirs config) = Ok artifacts ->
    dict_get "reports" (output_dirs config) = Raise e ->
    main lib config_path
    = (map (fun d => MakeDirs (snd d)) (output_dirs config)
         ++ map Print out
         ++ [Print "Computing summary statistics...";
             Print "Performing stationarity tests...";
             Print "Computing stylized facts..."]
         ++ map plot_event plot_calls
         ++ [WriteCsv (artifacts ++ "/summary_stats.csv") (SummaryTable summary);
             WriteCsv (artifacts ++ "/stationarity.csv")
               (StationarityTable stationarity);
             WriteCsv (artifacts ++ "/stylized_facts.csv")
               (StylizedTable stylized);
             Print "Generating EDA report...";
             Print ("Error during EDA analysis: " ++ exn_message e)], 1%Z).
Proof.
  intros lib config_path config out prices returns summary alpha stationarity
         stylized plot_calls artifacts e
         Hconfig Hload Hreturns Hsummary Halpha Hstat Hstyl Hplots
         Hartifacts Hreports.
  unfold main, run_pipeline, generate_report.
  run_stage Hconfig. rewrite setup_output_dirs_events.
  cbn [ebind fst snd]. run_stage Hload. run_stage Hreturns.
  run_stage Hsummary. run_stage Halpha. run_stage Hstat. run_stage Hstyl.
  run_stage Hplots. run_stage Hartifacts. run_stage Hreports.
  cbn [app]. rewrite ?app_nil_r, <- ?app_assoc. cbn [app].
  rewrite <- ?app_assoc. cbn [app]. rewrite <- ?app_assoc. reflexivity.
Qed.

Lemma main_without_adf_alpha_witness :
  snd (main (library_stub csv_dated config_no_alpha) "eda.yaml") = 1%Z
  /\ existsb is_write_csv
       (fst (main (library_stub csv_dated config_no_alpha) "eda.yaml"))
     = false.
Proof.
  pose proof (main_without_adf_alpha (library_stub csv_dated config_no_alpha)
                "eda.yaml" config_no_alpha) as H.
  cbn [library_stub lib_path_exists lib_read_csv lib_to_datetime lib_period_of
       lib_log lib_std lib_skew lib_kurtosis lib_jarque_bera] in H.
  destruct (H _ _ _ _ (KeyError "adf_alpha") eq_refl eq_refl eq_refl eq_refl
              eq_refl) as [Hmain Hnone].
  split; [rewrite Hmain; reflexivity | exact Hnone].
Defined.

Lemma main_report_fails_after_tables_witness :
  snd (main (library_stub csv_dated config_no_reports) "eda.yaml") = 1%Z
  /\ length (filter is_write_csv
               (fst (main (library_stub csv_dated config_no_reports)
                       "eda.yaml"))) = 3%nat
  /\ last (fst (main (library_stub csv_dated config_no_reports) "eda.yaml"))
       (Print "")
     = Print "Error during EDA analysis: 'reports'".
Proof.
  pose proof (main_report_fails_after_tables
                (library_stub csv_dated config_no_reports) "eda.yaml"
                config_no_reports) as H.
  cbn [library_stub lib_path_exists lib_read_csv lib_to_datetime lib_period_of
       lib_log lib_std lib_skew lib_kurtosis lib_jarque_bera lib_adfuller
       lib_kpss lib_acorr_ljungbox lib_het_arch lib_corr
       lib_autocorrelation_plot lib_plot_pacf lib_probplot] in H.
  specialize (H _ _ _ _ _ _ _ [PlotPrint "Creating visualizations..."] _
                (KeyError "reports")
                eq_refl eq_refl eq_refl eq_refl eq_refl
                eq_refl eq_refl eq_refl eq_refl eq_refl).
  rewrite H. repeat split.
Defined.

(** ** The price columns and the loaded panel *)

(** X18.  Without an include list the price columns are exactly the
    numeric columns whose lower-cased name contains none of "date",
    "time", "index", "id" and that are not excluded; with an include
    list they are the listed names that are not excluded, whatever the
    file holds.  An excluded name is never a price column. *)
Theorem price_columns_resolution :
  forall (config : EDAConfig) (df : DataFrame),
    (price_columns_include config = [] ->
     forall name,
       In name (resolve_price_columns config df) <->
       (exists s, In (name, s) (columns df)
                  /\ is_numeric_dtype s = true
                  /\ existsb (fun pattern => contains pattern (lower name))
                       exclude_patterns = false)
       /\ mem_string name (price_columns_exclude config) = false)
    /\ (price_columns_include config <> [] ->
        resolve_price_columns config df
        = filter (fun col => negb (mem_string col (price_columns_exclude config)))
            (price_columns_include config))
    /\ Forall (fun name => mem_string name (price_columns_exclude config) = false)
         (resolve_price_columns config df).
Proof.
  intros config df. unfold resolve_price_columns.
  split; [|split].
  - intros -> name. rewrite filter_In, in_map_iff, negb_true_iff.
    split.
    + intros [[[n s] [Hn Hin]] Hex]. cbn [fst] in Hn. subst n.
      apply filter_In in Hin as [Hin Hok]. cbn [fst snd] in Hok.
      apply andb_true_iff in Hok as [Hpat Hnum].
      apply negb_true_iff in Hpat. split; [|exact Hex].
      exists s. auto.
    + intros [[s [Hin [Hnum Hpat]]] Hex]. split; [|exact Hex].
      exists (name, s). split; [reflexivity|].
      apply filter_In. split; [exact Hin|]. cbn [fst snd].
      now rewrite Hpat, Hnum.
  - intro Hne. destruct (price_columns_include config); [congruence|reflexivity].
  - apply Forall_forall. intros name Hin.
    apply filter_In in Hin as [_ H]. now apply negb_true_iff.
Qed.

Lemma price_columns_resolution_witness :
  resolve_price_columns sample_config csv_bid = ["Close"%string]
  /\ resolve_price_columns config_include_date csv_bid
     = ["Date"; "A"]%string.
Proof.
  destruct (price_columns_resolution config_include_date csv_bid)
    as [_ [Hinclude _]].
  split; [reflexivity|].
  rewrite Hinclude; [reflexivity | discriminate].
Defined.

Lemma lookup_column_missing name df :
  ~ In name (column_names df) -> lookup_column name df = Raise (KeyError name).
Proof.
  intro Hnot. unfold lookup_column.
  destruct (find _ (columns df)) as [c|] eqn:E; [|reflexivity].
  apply find_some in E as [Hin Heq]. apply String.eqb_eq in Heq.
  exfalso. apply Hnot. unfold column_names. rewrite <- Heq.
  now apply in_map.
Qed.

Lemma lookup_column_present name df :
  In name (column_names df) -> exists s, lookup_column name df = Ok s.
Proof.
  intro Hin. unfold lookup_column, column_names in *.
  apply in_map_iff in Hin as [c [Hc Hin]].
  destruct (find _ (columns df)) as [c'|] eqn:E; [eauto|].
  pose proof (find_none _ _ E c Hin) as Hf. cbv beta in Hf.
  subst name. rewrite String.eqb_refl in Hf. discriminate.
Qed.

(** Selecting columns by name raises [KeyError] on the first name the
    frame does not hold, and returns the named columns otherwise. *)
Lemma select_columns_outcome names df :
  (Forall (fun name => In name (column_names df)) names /\
   exists d, select_columns names df = Ok d
             /\ column_names d = names /\ index d = index df)
  \/ (exists name, In name names /\ ~ In name (column_names df)
                   /\ select_columns names df = Raise (KeyError name)).
Proof.
  unfold select_columns.
  induction names as [|name names IH].
  - left. split; [constructor|]. eexists. cbn. repeat split.
  - destruct (in_dec string_dec name (column_names df)) as [Hin|Hnot].
    + destruct (lookup_column_present name df Hin) as [s Hs].
      cbn [map_result]. rewrite Hs. cbn [bind].
      destruct IH as [[Hall [d [Hd [Hn Hi]]]]|[name' [Hin' [Hnot' Hr]]]].
      * left. split; [now constructor|].
        destruct (map_result _ names) as [cols|e]; [|discriminate].
        cbn [bind] in *. injection Hd as <-.
        eexists. split; [reflexivity|]. unfold column_names in *.
        cbn [columns map fst index] in *. split; [congruence | reflexivity].
      * right. exists name'. split; [now right|]. split; [exact Hnot'|].
        destruct (map_result _ names) as [cols|e]; [discriminate|].
        cbn [bind] in *. exact Hr.
    + right. exists name. split; [now left|]. split; [exact Hnot|].
      cbn [map_result]. rewrite (lookup_column_missing name df Hnot).
      reflexivity.
Qed.

(** X19.  The price columns are not checked against the file before they
    are selected: when a resolved name is not a column (an include list
    with an unknown name, or with the date column, which has become the
    index), [load_data] raises [KeyError]. *)
Theorem load_data_missing_price_column :
  forall (path_exists : string -> bool) (read_csv : string -> result DataFrame)
         (to_datetime : Series -> result (list Z))
         (period_of : string -> result (Z -> Z))
         (config : EDAConfig) (df0 df : DataFrame) (out : list string)
         (missing : string),
    path_exists (input_csv config) = true ->
    read_csv (input_csv config) = Ok df0 ->
    handle_date_column to_datetime config df0 = (out, Ok df) ->
    In missing (resolve_price_columns config df) ->
    ~ In missing (column_names df) ->
    exists key,
      snd (load_data path_exists read_csv to_datetime period_of config)
      = Raise (KeyError key).
Proof.
  intros path_exists read_csv to_datetime period_of config df0 df out missing
         Hpath Hread Hdate Hin Hnot.
  destruct (select_columns_outcome (resolve_price_columns config df) df)
    as [[Hall _]|[name [Hname [Hmiss Hsel]]]].
  - rewrite Forall_forall in Hall. elim Hnot. now apply Hall.
  - exists name. unfold load_data.
    rewrite Hpath, Hread. cbn [try_except emit eret lift ebind fst snd app].
    rewrite Hdate. cbn [ebind fst snd].
    destruct (resolve_price_columns config df) as [|c cols]; [contradiction|].
    cbn [eret lift ebind fst snd]. rewrite Hsel. reflexivity.
Qed.

Lemma load_data_missing_price_column_witness :
  exists key,
    snd (load_data (fun _ => true) (fun _ => Ok csv_dated) to_datetime_stub
           period_of_stub config_include_date)
    = Raise (KeyError key).
Proof.
  apply (load_data_missing_price_column (fun _ => true)
           (fun _ => Ok csv_dated) to_datetime_stub period_of_stub
           config_include_date csv_dated
           (mkDataFrame (DatetimeIndex "Date" [0; 1]%Z)
              [("A"%string, NumSeries [Fin 100; Fin 101])])
           [] "Date"%string eq_refl eq_refl eq_refl).
  - left. reflexivity.
  - intros [H|[]]. discriminate.
Defined.

(** X20.  Any exception of the CSV reader leaves [load_data] as a
    [ValueError], after the line that announces the load; nothing else is
    printed. *)
Theorem load_data_unreadable_file :
  forall (path_exists : string -> bool) (read_csv : string -> result DataFrame)
         (to_datetime : Series -> result (list Z))
         (period_of : string -> result (Z -> Z))
         (config : EDAConfig) (e : exn),
    path_exists (input_csv config) = true ->
    read_csv (input_csv config) = Raise e ->
    load_data path_exists read_csv to_datetime period_of config
    = ([("Loading data from " ++ input_csv config)%string],
       Raise (ValueError "Failed to load data")).
Proof.
  intros path_exists read_csv to_datetime period_of config e Hpath Hread.
  unfold load_data. rewrite Hpath, Hread. reflexivity.
Qed.

Lemma load_data_unreadable_file_witness :
  load_data (fun _ => true) (fun _ => Raise (LibraryError "ParserError"))
    to_datetime_stub period_of_stub sample_config
  = (["Loading data from data/prices.csv"%string],
     Raise (ValueError "Failed to load data")).
Proof.
  apply (load_data_unreadable_file _ _ _ _ sample_config
           (LibraryError "ParserError")); reflexivity.
Defined.

Lemma df_dropna_column_names (df : DataFrame) :
  column_names (df_dropna df) = column_names df.
Proof.
  unfold column_names, df_dropna. cbn [columns]. rewrite map_map.
  reflexivity.
Qed.

Lemma df_dropna_index_kind (df : DataFrame) :
  match index df with
  | RangeIndex _ => exists l, index (df_dropna df) = RangeIndex l
  | DatetimeIndex name _ =>
      exists l, index (df_dropna df) = DatetimeIndex name l
  end.
Proof.
  unfold df_dropna. cbn [index].
  destruct (index df); cbn [index_select]; eexists; reflexivity.
Qed.

Lemma select_columns_index names df d :
  select_columns names df = Ok d ->
  index d = index df /\ column_names d = names.
Proof.
  intro H.
  destruct (select_columns_outcome names df)
    as [[_ [d' [Hd [Hn Hi]]]]|[name [_ [_ Hr]]]]; [|congruence].
  rewrite H in Hd. injection Hd as <-. split; assumption.
Qed.

Section LoadedPanel.
Variable path_exists : string -> bool.
Variable read_csv : string -> result DataFrame.
Variable to_datetime : Series -> result (list Z).
Variable period_of : string -> result (Z -> Z).

Lemma resample_last_outcome rule df resampled :
  resample_last period_of rule df = Ok resampled ->
  column_names resampled = column_names df
  /\ exists name stamps bins,
       index df = DatetimeIndex name stamps
       /\ index resampled = DatetimeIndex name bins.
Proof.
  unfold resample_last.
  destruct (index df) as [labels|name stamps]; [discriminate|].
  destruct (period_of rule) as [period|e]; [|discriminate]. cbn [bind].
  intro H. injection H as <-. split.
  - unfold column_names. cbn [columns]. rewrite map_map. reflexivity.
  - eexists _, _, _. split; reflexivity.
Qed.

(** The stages a successful [load_data] went through. *)
Lemma load_data_ok_inv config df :
  snd (load_data path_exists read_csv to_datetime period_of config) = Ok df ->
  exists df0 out df1 selected,
    read_csv (input_csv config) = Ok df0
    /\ handle_date_column to_datetime config df0 = (out, Ok df1)
    /\ resolve_price_columns config df1 <> []
    /\ select_columns (resolve_price_columns config df1) df1 = Ok selected
    /\ df_empty selected = false
    /\ df_empty (if dropna config then df_dropna selected else selected)
       = false
    /\ match resample config with
       | Some rule =>
           if String.eqb rule "" then
             df = (if dropna config then df_dropna selected else selected)
           else
             exists resampled,
               resample_last period_of rule
                 (if dropna config then df_dropna selected else selected)
               = Ok resampled
               /\ df = df_dropna resampled
       | None => df = (if dropna config then df_dropna selected else selected)
       end.
Proof.
  unfold load_data.
  destruct (path_exists (input_csv config)); [|discriminate].
  destruct (read_csv (input_csv config)) as [df0|e]; [|discriminate].
  cbn [try_except emit eret lift ebind fst snd app].
  destruct (handle_date_column to_datetime config df0) as [out [df1|e]] eqn:Hdate;
    [|discriminate].
  cbn [ebind fst snd].
  destruct (resolve_price_columns config df1) as [|c cols] eqn:Hcols;
    [discriminate|].
  cbn [eret lift ebind fst snd].
  destruct (select_columns (c :: cols) df1) as [selected|e] eqn:Hsel;
    [|discriminate].
  cbn [ebind fst snd].
  destruct (df_empty selected) eqn:Hne; [discriminate|].
  cbn [eret ebind fst snd].
  intro H. exists df0, out, df1, selected.
  split; [reflexivity|]. split; [exact Hdate|]. rewrite Hcols.
  split; [discriminate|]. split; [exact Hsel|]. split; [exact Hne|].
  destruct (dropna config).
  - cbn [emit ebind fst snd] in H.
    destruct (df_empty (df_dropna selected)) eqn:Hne'; [discriminate|].
    cbn [eret ebind fst snd] in H. split; [reflexivity|].
    destruct (resample config) as [rule|]; [|cbn in H; congruence].
    destruct (String.eqb rule ""); [cbn in H; congruence|].
    destruct (resample_last period_of rule (df_dropna selected))
      as [resampled|e]; [|discriminate].
    exists resampled. split; [reflexivity|]. cbn in H. congruence.
  - cbn [eret ebind fst snd] in H. split; [exact Hne|].
    destruct (resample config) as [rule|]; [|cbn in H; congruence].
    destruct (String.eqb rule ""); [cbn in H; congruence|].
    destruct (resample_last period_of rule selected)
      as [resampled|e]; [|discriminate].
    exists resampled. split; [reflexivity|]. cbn in H. congruence.
Qed.

Lemma resolve_price_columns_not_excluded config df :
  Forall (fun col => mem_string col (price_columns_exclude config) = false)
    (resolve_price_columns config df).
Proof.
  unfold resolve_price_columns. apply Forall_forall. intros col Hin.
  apply filter_In in Hin as [_ H]. now apply negb_true_iff in H.
Qed.

End LoadedPanel.

(** X21.  What a panel returned by [load_data] looks like: it has at
    least one column and none of them is on the exclude list; with
    [dropna] or a resampling rule no column misses a value; with a
    resampling rule the index is a date index; and without one the panel
    is not empty. *)
Theorem load_data_panel_properties :
  forall (path_exists : string -> bool) (read_csv : string -> result DataFrame)
         (to_datetime : Series -> result (list Z))
         (period_of : string -> result (Z -> Z))
         (config : EDAConfig) (df : DataFrame),
    snd (load_data path_exists read_csv to_datetime period_of config) = Ok df ->
    column_names df <> []
    /\ Forall (fun col => mem_string col (price_columns_exclude config) = false)
         (column_names df)
    /\ (dropna config = true \/ resample_active config -> complete_frame df)
    /\ (resample_active config ->
        exists name stamps, index df = DatetimeIndex name stamps)
    /\ (~ resample_active config -> df_empty df = false).
Proof.
  intros path_exists read_csv to_datetime period_of config df H.
  apply load_data_ok_inv in H
    as [df0 [out [df1 [selected [_ [_ [Hcols [Hsel [_ [Hkept Hlast]]]]]]]]]].
  apply select_columns_index in Hsel as [_ Hnames].
  pose proof (resolve_price_columns_not_excluded config df1) as Hexcl.
  rewrite <- Hnames in Hcols, Hexcl.
  set (kept := if dropna config then df_dropna selected else selected) in *.
  assert (Hk : column_names kept = column_names selected).
  { unfold kept. destruct (dropna config);
      [apply df_dropna_column_names | reflexivity]. }
  assert (Hc : dropna config = true -> complete_frame kept).
  { unfold kept. intros ->. apply df_dropna_complete. }
  destruct (resample config) as [rule|] eqn:Hres.
  - destruct (String.eqb rule "") eqn:Hrule.
    + subst df. rewrite Hk. split; [assumption|]. split; [assumption|]. split; [|split].
      * intros [Hd|[rule' [Hr Hr']]]; [auto|]. congruence.
      * intros [rule' [Hr Hr']]. congruence.
      * intros _. exact Hkept.
    + destruct Hlast as [resampled [Hlast ->]].
      apply resample_last_outcome in Hlast
        as [Hn [name [stamps [bins [_ Hidx]]]]].
      rewrite df_dropna_column_names, Hn, Hk.
      split; [assumption|]. split; [assumption|]. split; [|split].
      * intros _. apply df_dropna_complete.
      * intros _. pose proof (df_dropna_index_kind resampled) as Hkind.
        rewrite Hidx in Hkind. destruct Hkind as [l Hl]. eauto.
      * intro Hno. elim Hno. exists rule. auto.
  - subst df. rewrite Hk. split; [assumption|]. split; [assumption|]. split; [|split].
    + intros [Hd|[rule' [Hr Hr']]]; [auto|]. congruence.
    + intros [rule' [Hr Hr']]. congruence.
    + intros _. exact Hkept.
Qed.

Lemma load_data_panel_properties_witness :
  let df := mkDataFrame (DatetimeIndex "Date" [0; 1]%Z)
              [("A"%string, NumSeries [Fin 100; Fin 101])] in
  column_names df <> []
  /\ Forall (fun col => mem_string col (price_columns_exclude sample_config)
                        = false) (column_names df)
  /\ (dropna sample_config = true \/ resample_active sample_config ->
      complete_frame df)
  /\ (resample_active sample_config ->
      exists name stamps, index df = DatetimeIndex name stamps)
  /\ (~ resample_active sample_config -> df_empty df = false).
Proof.
  apply (load_data_panel_properties (fun _ => true) (fun _ => Ok csv_dated)
           to_datetime_stub period_of_stub sample_config).
  vm_compute. reflexivity.
Defined.

(** X22.  Resampling needs a date index: when dates are not parsed
    ([parse_dates] off), the configured date column is not a column of
    the file and a resampling rule is set, [load_data] raises whatever
    the file holds, since the CSV reader numbers the rows. *)
Theorem resample_needs_date_index :
  forall (path_exists : string -> bool) (read_csv : string -> result DataFrame)
         (to_datetime : Series -> result (list Z))
         (period_of : string -> result (Z -> Z))
         (config : EDAConfig),
    parse_dates config = false ->
    (forall df0, read_csv (input_csv config) = Ok df0 ->
                 (exists labels, index df0 = RangeIndex labels)
                 /\ mem_string (date_column config) (column_names df0) = false) ->
    resample_active config ->
    exists e,
      snd (load_data path_exists read_csv to_datetime period_of config)
      = Raise e.
Proof.
  intros path_exists read_csv to_datetime period_of config Hparse Hfile
         [rule [Hres Hrule]].
  destruct (snd (load_data path_exists read_csv to_datetime period_of config))
    as [df|e] eqn:H; [|eauto].
  exfalso.
  apply load_data_ok_inv in H
    as [df0 [out [df1 [selected [Hread [Hdate [_ [Hsel [_ [_ Hlast]]]]]]]]]].
  destruct (Hfile df0 Hread) as [[labels Hidx] Hmem].
  unfold handle_date_column in Hdate.
  rewrite Hmem, andb_false_r, Hparse in Hdate.
  injection Hdate as _ <-.
  apply select_columns_index in Hsel as [Hsi _].
  rewrite Hres, Hrule in Hlast. destruct Hlast as [resampled [Hlast _]].
  apply resample_last_outcome in Hlast as [_ [name [stamps [bins [Hk _]]]]].
  destruct (dropna config).
  - pose proof (df_dropna_index_kind selected) as Hkind.
    rewrite Hsi, Hidx in Hkind. destruct Hkind as [l Hl]. congruence.
  - congruence.
Qed.

Lemma resample_needs_date_index_witness :
  exists e,
    snd (load_data (fun _ => true) (fun _ => Ok csv_dated) to_datetime_stub
           period_of_stub config_resample_no_dates)
    = Raise e.
Proof.
  apply (resample_needs_date_index (fun _ => true) (fun _ => Ok csv_dated)
           to_datetime_stub period_of_stub config_resample_no_dates).
  - reflexivity.
  - intros df0 H. injection H as <-. split; [eexists|]; reflexivity.
  - exists "W"%string. split; reflexivity.
Defined.

(* ================================================================== *)
(** ** The figures *)

Lemma panel_loop_panels df i cols :
  (1 <= i <= 9)%nat ->
  Forall (fun col => In col (column_names df)) cols ->
  panel_loop df i cols = (panels i cols, Ok tt).
Proof.
  intros Hi Hcols. revert i Hi.
  induction Hcols as [|col rest Hcol _ IH]; intros i Hi.
  - unfold panels. destruct (seq i (10 - i)); reflexivity.
  - cbn [panel_loop]. unfold subplot.
    replace ((1 <=? i)%nat && (i <=? 9)%nat) with true
      by (symmetry; apply andb_true_iff; split; apply Nat.leb_le; lia).
    destruct (lookup_column_present col df Hcol) as [s Hs]. rewrite Hs.
    cbn [emit lift ebind fst snd app].
    unfold panels.
    replace (10 - i)%nat with (S (10 - S i)) by lia.
    cbn [seq combine flat_map fst snd app].
    destruct (9 <=? i)%nat eqn:Hlast.
    + apply Nat.leb_le in Hlast.
      replace (10 - S i)%nat with 0%nat by lia. reflexivity.
    + apply Nat.leb_gt in Hlast.
      rewrite (IH (S i)) by lia. reflexivity.
Qed.

Lemma saved_files_app (a b : list plot_call) :
  saved_files (a ++ b) = saved_files a ++ saved_files b.
Proof. unfold saved_files. apply flat_map_app. Qed.

Lemma saved_files_panels i cols : saved_files (panels i cols) = [].
Proof.
  unfold saved_files, panels.
  induction (combine (seq i (10 - i)) cols) as [|p l IH]; [reflexivity|].
  cbn [flat_map app saved_path]. exact IH.
Qed.

Lemma ebind_ok {E A B} (c : eff E A) (k : A -> eff E B) (a : A) :
  snd c = Ok a -> ebind c k = (fst c ++ fst (k a), snd (k a)).
Proof. destruct c as [out r]. cbn [snd]. intros ->. reflexivity. Qed.

Lemma for_each_ok {E A} (l : list A) (body : A -> eff E unit) :
  Forall (fun a => snd (body a) = Ok tt) l ->
  for_each l body = (flat_map (fun a => fst (body a)) l, Ok tt).
Proof.
  induction 1 as [|a rest Ha _ IH]; [reflexivity|].
  cbn [for_each flat_map]. rewrite (ebind_ok _ _ tt Ha), IH. reflexivity.
Qed.

Lemma saved_files_flat_map {A} (f : A -> list plot_call) (g : A -> string)
      (l : list A) :
  Forall (fun a => saved_files (f a) = [g a]) l ->
  saved_files (flat_map f l) = map g l.
Proof.
  induction 1 as [|a rest Ha _ IH]; [reflexivity|].
  cbn [flat_map map]. rewrite saved_files_app, Ha, IH. reflexivity.
Qed.

Lemma savefig_ok config name reports :
  dict_get "reports" (output_dirs config) = Ok reports ->
  savefig config name = ([SaveFig (reports ++ "/" ++ name)], Ok tt).
Proof. unfold savefig. intros ->. reflexivity. Qed.

(** A panel figure draws its panels and saves one file. *)
Lemma panel_figure_ok config df name reports :
  dict_get "reports" (output_dirs config) = Ok reports ->
  panel_figure config df name
  = (NewFigure :: panels 1 (column_names df)
       ++ [SaveFig (reports ++ "/" ++ name)], Ok tt).
Proof.
  intro Hrep. unfold panel_figure.
  rewrite panel_loop_panels, (savefig_ok _ _ _ Hrep);
    [|lia|apply Forall_forall; auto].
  cbn [emit ebind fst snd app]. rewrite ?app_nil_r. reflexivity.
Qed.

(** X23.  A panel figure never asks matplotlib for a tenth cell: the loop
    over the columns stops after the ninth, so it draws the first nine
    columns, numbered from 1, and never raises, whatever the number of
    columns. *)
Theorem panel_loop_first_nine :
  forall (df : DataFrame),
    panel_loop df 1 (column_names df)
    = (flat_map (fun p => [Subplot (fst p); PlotLine (snd p)])
         (combine (seq 1 9) (firstn 9 (column_names df))),
       Ok tt).
Proof.
  intro df. rewrite panel_loop_panels; [|lia|apply Forall_forall; auto].
  unfold panels. f_equal. f_equal.
  change (10 - 1)%nat with 9%nat.
  generalize (column_names df) as cols. generalize 9%nat as n.
  generalize 1%nat as i.
  intros i n. revert i. induction n as [|n IH]; intros i cols; [reflexivity|].
  destruct cols as [|c cols]; [reflexivity|].
  cbn [seq firstn combine]. f_equal. apply IH.
Qed.

Lemma snd_ebind_ok {E A B} (out : list E) (a : A) (k : A -> eff E B) :
  snd (ebind (out, Ok a) k) = snd (k a).
Proof. reflexivity. Qed.

Lemma snd_ebind_lift_ok {E A B} (a : A) (k : A -> eff E B) :
  snd (ebind (lift (Ok a)) k) = snd (k a).
Proof. reflexivity. Qed.

Section PlotFacts.
Variable corr : DataFrame -> result unit.
Variable autocorrelation_plot : Series -> result unit.
Variable plot_pacf : Series -> nat -> result unit.
Variable probplot : Series -> result unit.

Lemma create_plots_without_flag prices returns config key :
  In key plot_flags ->
  dict_get key (plots config) = Raise (KeyError key) ->
  exists e,
    snd (create_plots corr autocorrelation_plot plot_pacf probplot
           prices returns config) = Raise e.
Proof.
  intros Hin Hkey. unfold create_plots.
  repeat match goal with
         | |- exists e, snd (ebind (lift (dict_get ?k ?d)) _) = Raise e =>
             destruct (dict_get k d) as [?|?] eqn:?;
               [rewrite snd_ebind_lift_ok; cbv beta | eexists; reflexivity]
         | |- exists e, snd (ebind ?c _) = Raise e =>
             destruct c as [? [?|?]];
               [rewrite snd_ebind_ok; cbv beta | eexists; reflexivity]
         end.
  exfalso. unfold plot_flags in Hin. cbn [In] in Hin.
  repeat (destruct Hin as [<-|Hin]; [congruence|]). exact Hin.
Qed.

Lemma acf_block_ok returns config reports :
  (forall col s, lookup_column col returns = Ok s ->
                 autocorrelation_plot s = Ok tt
                 /\ plot_pacf (series_dropna s) 40 = Ok tt) ->
  dict_get "reports" (output_dirs config) = Ok reports ->
  exists calls,
    for_each (column_names returns)
      (fun col =>
         emit NewFigure ;;;
         s <~ lift (lookup_column col returns) ;;
         lift (autocorrelation_plot s) ;;;
         emit (AcfPlot col) ;;;
         s <~ lift (lookup_column col returns) ;;
         lift (plot_pacf (series_dropna s) 40) ;;;
         emit (PacfPlot col) ;;;
         savefig config ("acf_" ++ col ++ ".png"))
    = (calls, Ok tt)
    /\ saved_files calls
       = map (fun col => (reports ++ "/" ++ "acf_" ++ col ++ ".png")%string)
           (column_names returns).
Proof.
  intros Hplots Hrep.
  assert (Hbody : forall col, In col (column_names returns) ->
            (emit NewFigure ;;;
             s <~ lift (lookup_column col returns) ;;
             lift (autocorrelation_plot s) ;;;
             emit (AcfPlot col) ;;;
             s <~ lift (lookup_column col returns) ;;
             lift (plot_pacf (series_dropna s) 40) ;;;
             emit (PacfPlot col) ;;;
             savefig config ("acf_" ++ col ++ ".png"))
            = ([NewFigure; AcfPlot col; PacfPlot col;
                SaveFig (reports ++ "/" ++ "acf_" ++ col ++ ".png")], Ok tt)).
  { intros col Hcol. destruct (lookup_column_present col returns Hcol) as [s Hs].
    destruct (Hplots col s Hs) as [Hacf Hpacf].
    rewrite Hs, (savefig_ok _ _ _ Hrep). cbn [emit lift ebind fst snd app].
    rewrite Hacf. cbn [emit lift ebind fst snd app].
    rewrite Hpacf. reflexivity. }
  eexists. split.
  - apply for_each_ok. apply Forall_forall. intros col Hcol.
    now rewrite (Hbody col Hcol).
  - apply saved_files_flat_map. apply Forall_forall. intros col Hcol.
    now rewrite (Hbody col Hcol).
Qed.

Lemma qq_block_ok returns config reports :
  (forall col s, lookup_column col returns = Ok s ->
                 probplot (series_dropna s) = Ok tt) ->
  dict_get "reports" (output_dirs config) = Ok reports ->
  exists calls,
    for_each (column_names returns)
      (fun col =>
         emit NewFigure ;;;
         s <~ lift (lookup_column col returns) ;;
         lift (probplot (series_dropna s)) ;;;
         emit (ProbPlot col) ;;;
         savefig config ("qq_" ++ col ++ ".png"))
    = (calls, Ok tt)
    /\ saved_files calls
       = map (fun col => (reports ++ "/" ++ "qq_" ++ col ++ ".png")%string)
           (column_names returns).
Proof.
  intros Hprob Hrep.
  assert (Hbody : forall col, In col (column_names returns) ->
            (emit NewFigure ;;;
             s <~ lift (lookup_column col returns) ;;
             lift (probplot (series_dropna s)) ;;;
             emit (ProbPlot col) ;;;
             savefig config ("qq_" ++ col ++ ".png"))
            = ([NewFigure; ProbPlot col;
                SaveFig (reports ++ "/" ++ "qq_" ++ col ++ ".png")], Ok tt)).
  { intros col Hcol. destruct (lookup_column_present col returns Hcol) as [s Hs].
    rewrite Hs, (savefig_ok _ _ _ Hrep). cbn [emit lift ebind fst snd app].
    rewrite (Hprob col s Hs). reflexivity. }
  eexists. split.
  - apply for_each_ok. apply Forall_forall. intros col Hcol.
    now rewrite (Hbody col Hcol).
  - apply saved_files_flat_map. apply Forall_forall. intros col Hcol.
    now rewrite (Hbody col Hcol).
Qed.

End PlotFacts.

(** X24.  [create_plots] reads the five flags by subscript: a
    configuration that leaves one of them out makes it raise, also when
    every figure that is named is switched off. *)
Theorem create_plots_needs_every_flag :
  forall (corr : DataFrame -> result unit)
         (autocorrelation_plot : Series -> result unit)
         (plot_pacf : Series -> nat -> result unit)
         (probplot : Series -> result unit)
         (prices returns : DataFrame) (config : EDAConfig) (key : string),
    In key plot_flags ->
    dict_get key (plots config) = Raise (KeyError key) ->
    exists e,
      snd (create_plots corr autocorrelation_plot plot_pacf probplot
             prices returns config) = Raise e.
Proof.
  intros corr autocorrelation_plot plot_pacf probplot prices returns config
         key Hin Hkey.
  exact (create_plots_without_flag corr autocorrelation_plot plot_pacf probplot
           prices returns config key Hin Hkey).
Qed.

Lemma create_plots_needs_every_flag_witness :
  exists e,
    snd (create_plots (fun _ => Ok tt) (fun _ => Ok tt) (fun _ _ => Ok tt)
           (fun _ => Ok tt) panel_ab panel_ab sample_config) = Raise e.
Proof.
  apply (create_plots_needs_every_flag _ _ _ _ panel_ab panel_ab sample_config
           "returns"%string).
  - unfold plot_flags. cbn [In]. right. left. reflexivity.
  - reflexivity.
Defined.

(** X25.  The files [create_plots] saves when the five flags are set,
    the reports directory is configured and the plotting routines that
    are called succeed on the columns of the returns (the partial
    autocorrelation with its 40 lags needs a series long enough): one
    file for each panel figure and the heat map that is switched on, and
    one file per column of the returns for the autocorrelation and for
    the probability plots, in this order; with every flag off no file is
    saved and no routine is called. *)
Theorem create_plots_saved_files :
  forall (corr : DataFrame -> result unit)
         (autocorrelation_plot : Series -> result unit)
         (plot_pacf : Series -> nat -> result unit)
         (probplot : Series -> result unit)
         (prices returns : DataFrame) (config : EDAConfig) (reports : string),
    (flag_on config "heatmap" = true -> corr returns = Ok tt) ->
    (flag_on config "acf_pacf" = true ->
     forall col s, lookup_column col returns = Ok s ->
                   autocorrelation_plot s = Ok tt
                   /\ plot_pacf (series_dropna s) 40%nat = Ok tt) ->
    (flag_on config "qq" = true ->
     forall col s, lookup_column col returns = Ok s ->
                   probplot (series_dropna s) = Ok tt) ->
    dict_get "reports" (output_dirs config) = Ok reports ->
    Forall (fun key => exists flag, dict_get key (plots config) = Ok flag)
      plot_flags ->
    let run := create_plots corr autocorrelation_plot plot_pacf probplot
                 prices returns config in
    snd run = Ok tt
    /\ saved_files (fst run)
       = (if flag_on config "timeseries"
          then [(reports ++ "/prices.png")%string] else [])
         ++ (if flag_on config "returns"
             then [(reports ++ "/returns.png")%string] else [])
         ++ (if flag_on config "heatmap"
             then [(reports ++ "/corr_heatmap.png")%string] else [])
         ++ (if flag_on config "acf_pacf"
             then map (fun col => (reports ++ "/acf_" ++ col ++ ".png")%string)
                    (column_names returns)
             else [])
         ++ (if flag_on config "qq"
             then map (fun col => (reports ++ "/qq_" ++ col ++ ".png")%string)
                    (column_names returns)
             else []).
Proof.
  intros corr autocorrelation_plot plot_pacf probplot prices returns config
         reports Hcorr Hacf Hprob Hrep Hflags run.
  unfold plot_flags in Hflags.
  repeat match goal with
         | H : Forall _ (_ :: _) |- _ =>
             let b := fresh "b" in
             let Hb := fresh "Hb" in
             apply Forall_cons_iff in H as [[b Hb] H]
         end.
  clear Hflags.
  unfold flag_on in *. rewrite Hb1 in Hcorr. rewrite Hb2 in Hacf.
  rewrite Hb3 in Hprob. rewrite Hb, Hb0, Hb1, Hb2, Hb3.
  subst run. unfold create_plots.
  rewrite Hb, Hb0, Hb1, Hb2, Hb3.
  rewrite !(panel_figure_ok _ _ _ _ Hrep), (savefig_ok _ _ _ Hrep).
  destruct b, b0, b1, b2, b3;
    try rewrite (Hcorr eq_refl);
    try (destruct (acf_block_ok autocorrelation_plot plot_pacf returns config
                     reports (Hacf eq_refl) Hrep)
           as [acf_calls [Hacf_run Hacf_files]];
         rewrite Hacf_run);
    try (destruct (qq_block_ok probplot returns config reports
                     (Hprob eq_refl) Hrep)
           as [qq_calls [Hqq_run Hqq_files]];
         rewrite Hqq_run);
    cbn [emit eret lift ebind fst snd];
    (split; [reflexivity|]);
    rewrite ?saved_files_app; cbn [saved_files flat_map saved_path app];
    rewrite ?saved_files_app;
    try fold (saved_files acf_calls); try fold (saved_files qq_calls);
    fold (saved_files (panels 1 (column_names prices)));
    fold (saved_files (panels 1 (column_names returns)));
    rewrite ?saved_files_panels, ?Hacf_files, ?Hqq_files;
    cbn [app]; rewrite ?app_nil_r; reflexivity.
Qed.

(** A hundred days of two series, every figure switched on, and a
    partial autocorrelation that needs more than twice as many
    observations as lags. *)
Lemma create_plots_saved_files_witness :
  let run := create_plots plot_stub plot_stub plot_pacf_stub plot_stub
               panel_100 panel_100 config_all_plots in
  snd run = Ok tt
  /\ saved_files (fst run)
     = ["reports/eda/prices.png"; "reports/eda/returns.png";
        "reports/eda/corr_heatmap.png"; "reports/eda/acf_A.png";
        "reports/eda/acf_B.png"; "reports/eda/qq_A.png";
        "reports/eda/qq_B.png"]%string.
Proof.
  apply (create_plots_saved_files plot_stub plot_stub plot_pacf_stub plot_stub
           panel_100 panel_100 config_all_plots "reports/eda"%string);
    try reflexivity.
  - intros _ col s H. unfold lookup_column in H.
    cbn [find columns panel_100 num_frame map_cols map fst snd] in H.
    destruct (String.eqb "A" col);
      [injection H as <-; split; vm_compute; reflexivity|].
    destruct (String.eqb "B" col);
      [injection H as <-; split; vm_compute; reflexivity | discriminate].
  - unfold plot_flags. repeat constructor; eexists; reflexivity.
Defined.

(* ================================================================== *)
(** ** Standardized names of the residual files *)

Lemma append_assoc (a b c : string) :
  ((a ++ b) ++ c)%string = (a ++ (b ++ c))%string.
Proof. induction a as [|x a IH]; simpl; congruence. Qed.

Lemma string_forall_app p (a b : string) :
  string_forall p (a ++ b) = string_forall p a && string_forall p b.
Proof.
  induction a as [|x a IH]; [reflexivity|].
  simpl. rewrite IH. apply andb_assoc.
Qed.

Lemma string_forall_impl (p q : ascii -> bool) (s : string) :
  (forall c, p c = true -> q c = true) ->
  string_forall p s = true -> string_forall q s = true.
Proof.
  intro Hpq. induction s as [|c s IH]; [reflexivity|].
  simpl. rewrite !andb_true_iff. intros [Hc Hs]. auto.
Qed.

Lemma word_forall class w : word class w = true -> string_forall class w = true.
Proof. destruct w; [discriminate|]. exact (fun H => H). Qed.

Lemma is_upper_alpha c : is_upper c = true -> is_alpha c = true.
Proof. unfold is_alpha. intros ->. reflexivity. Qed.

Lemma is_alpha_not_underscore c : is_alpha c = true -> Ascii.eqb "_" c = false.
Proof.
  intro H. apply Ascii.eqb_neq. intros <-. discriminate H.
Qed.

Lemma is_alpha_not_newline c : is_alpha c = true -> Ascii.eqb c newline = false.
Proof.
  intro H. apply Ascii.eqb_neq. intros ->. discriminate H.
Qed.

Lemma run_length_le class s : (run_length class s <= String.length s)%nat.
Proof.
  induction s as [|c s IH]; simpl; [lia|]. destruct (class c); simpl; lia.
Qed.

Lemma run_length_app class w c r :
  class c = false ->
  run_length class (w ++ String c r) = run_length class w.
Proof.
  intro Hc. induction w as [|x w IH]; simpl; [now rewrite Hc|].
  destruct (class x); congruence.
Qed.

Lemma run_length_all class s :
  string_forall class s = true <-> run_length class s = String.length s.
Proof.
  induction s as [|c s IH]; simpl; [tauto|].
  destruct (class c); simpl.
  - rewrite IH. split; [congruence | intro H; now injection H].
  - split; discriminate.
Qed.

Lemma string_drop_app k w r :
  (k <= String.length w)%nat ->
  string_drop k (w ++ r) = (string_drop k w ++ r)%string.
Proof.
  revert w. induction k as [|k IH]; intros w Hk.
  - destruct w; reflexivity.
  - destruct w as [|c w]; simpl in *; [lia|]. apply IH. lia.
Qed.

Lemma string_drop_all w : string_drop (String.length w) w = EmptyString.
Proof. induction w as [|c w IH]; simpl; auto. Qed.

Lemma string_take_app w r : string_take (String.length w) (w ++ r) = w.
Proof.
  induction w as [|c w IH]; simpl; [destruct r; reflexivity|]. congruence.
Qed.

Lemma string_take_all w : string_take (String.length w) w = w.
Proof. induction w as [|c w IH]; simpl; congruence. Qed.

(** Before the end of a word, what is left starts with a letter. *)
Lemma string_drop_inside k w :
  string_forall is_alpha w = true ->
  (k < String.length w)%nat ->
  exists c r, string_drop k w = String c r /\ is_alpha c = true
              /\ string_forall is_alpha r = true.
Proof.
  revert w. induction k as [|k IH]; intros [|c w] Hw Hk; simpl in *; try lia;
    apply andb_true_iff in Hw as [Hc Hw].
  - eauto.
  - apply IH; [assumption | lia].
Qed.

Lemma longest_first_none {X} (n : nat) (f : nat -> option X) :
  (forall k, (1 <= k <= n)%nat -> f k = None) -> longest_first n f = None.
Proof.
  induction n as [|n IH]; intro H; [reflexivity|].
  cbn [longest_first]. rewrite (H (S n)) by lia. apply IH.
  intros k Hk. apply H. lia.
Qed.

Lemma longest_first_top {X} (n : nat) (f : nat -> option X) :
  (forall k, (1 <= k < n)%nat -> f k = None) ->
  longest_first n f = match n with O => None | S _ => f n end.
Proof.
  destruct n as [|n]; intro H; [reflexivity|].
  cbn [longest_first]. destruct (f (S n)); [reflexivity|].
  apply longest_first_none. intros k Hk. apply H. lia.
Qed.

(** A group followed by an underscore takes a whole word or fails. *)
Lemma re_match_group_word class d tail rest :
  class "_"%char = false ->
  string_forall is_alpha d = true ->
  re_match (Group class :: Lit "_" :: rest) (d ++ String "_" tail)
  = if word class d then option_map (cons d) (re_match rest tail) else None.
Proof.
  intros Hclass Hd. cbn [re_match].
  rewrite (run_length_app class d "_"%char tail Hclass).
  assert (Hin : forall k, (k < String.length d)%nat ->
            strip_prefix "_" (string_drop k (d ++ String "_" tail))
            = None).
  { intros k Hk. rewrite string_drop_app by lia.
    destruct (string_drop_inside k d Hd Hk) as [c [r [-> [Hc _]]]].
    cbn [append strip_prefix]. now rewrite (is_alpha_not_underscore c Hc). }
  destruct (string_forall class d) eqn:Hall.
  - pose proof (proj1 (run_length_all class d) Hall) as Hn. rewrite Hn.
    rewrite longest_first_top.
    + destruct d as [|c d]; [reflexivity|].
      change (word class (String c d)) with (string_forall class (String c d)).
      rewrite Hall. cbn [String.length].
      change (S (String.length d)) with (String.length (String c d)).
      rewrite string_drop_app, string_drop_all, string_take_app by lia.
      cbn [append strip_prefix].
      rewrite Ascii.eqb_refl.
      destruct (re_match rest tail); reflexivity.
    + intros k Hk. rewrite Hin by lia. reflexivity.
  - replace (word class d) with false
      by (destruct d; [reflexivity | symmetry; exact Hall]).
    apply longest_first_none. intros k Hk. rewrite Hin; [reflexivity|].
    pose proof (run_length_le class d) as Hle.
    assert (run_length class d <> String.length d)
      by (intro E; apply run_length_all in E; congruence).
    lia.
Qed.

Lemma strip_word w d tail :
  string_forall is_alpha w = true ->
  string_forall is_alpha d = true ->
  match strip_prefix w (d ++ String "_" tail) with
  | Some r => strip_prefix "_" r
  | None => None
  end
  = if String.eqb w d then Some tail else None.
Proof.
  revert d. induction w as [|a w IH]; intros [|b d] Hw Hd;
    cbn [strip_prefix append string_forall String.eqb] in *.
  - now rewrite Ascii.eqb_refl.
  - apply andb_true_iff in Hd as [Hb _].
    now rewrite (is_alpha_not_underscore b Hb).
  - apply andb_true_iff in Hw as [Ha _].
    rewrite Ascii.eqb_sym.
    now rewrite (is_alpha_not_underscore a Ha).
  - apply andb_true_iff in Hw as [_ Hw]. apply andb_true_iff in Hd as [_ Hd].
    destruct (Ascii.eqb a b); [now apply IH | reflexivity].
Qed.

(** A literal word followed by an underscore takes that word or fails. *)
Lemma re_match_lit_word w d tail rest :
  string_forall is_alpha w = true ->
  string_forall is_alpha d = true ->
  re_match (Lit w :: Lit "_" :: rest) (d ++ String "_" tail)
  = if String.eqb w d then re_match rest tail else None.
Proof.
  intros Hw Hd. cbn [re_match].
  pose proof (strip_word w d tail Hw Hd) as H.
  destruct (strip_prefix w (d ++ String "_" tail)) as [r|].
  - rewrite H. destruct (String.eqb w d); reflexivity.
  - destruct (String.eqb w d); [discriminate | reflexivity].
Qed.

Lemma at_end_before_underscore s tail :
  at_end (s ++ String "_" tail) = false.
Proof.
  destruct s as [|c s]; cbn [append at_end].
  - destruct tail; reflexivity.
  - destruct s; reflexivity.
Qed.

Lemma at_end_word s :
  string_forall is_alpha s = true -> at_end s = match s with
                                                | EmptyString => true
                                                | _ => false
                                                end.
Proof.
  destruct s as [|c s]; [reflexivity|]. cbn [string_forall at_end].
  intro H. apply andb_true_iff in H as [Hc _].
  destruct s; [apply (is_alpha_not_newline c Hc) | reflexivity].
Qed.

Lemma string_drop_forall p k s :
  string_forall p s = true -> string_forall p (string_drop k s) = true.
Proof.
  revert s. induction k as [|k IH]; intros [|c s] H; try exact H.
  cbn [string_drop]. apply IH. cbn [string_forall] in H.
  now apply andb_true_iff in H as [_ H].
Qed.

Lemma strip_underscore_word s :
  string_forall is_alpha s = true -> strip_prefix "_" s = None.
Proof.
  destruct s as [|c s]; [reflexivity|]. cbn [string_forall strip_prefix].
  intro H. apply andb_true_iff in H as [Hc _].
  now rewrite (is_alpha_not_underscore c Hc).
Qed.

Lemma strip_suffix_word w d :
  string_forall is_alpha d = true ->
  match strip_prefix w d with
  | Some r => string_forall is_alpha r = true
  | None => True
  end.
Proof.
  revert d. induction w as [|a w IH]; intros d Hd; [exact Hd|].
  destruct d as [|b d]; [exact I|]. cbn [strip_prefix].
  destruct (Ascii.eqb a b); [|exact I]. apply IH.
  cbn [string_forall] in Hd. now apply andb_true_iff in Hd as [_ Hd].
Qed.

Lemma strip_final w d :
  string_forall is_alpha d = true ->
  match strip_prefix w d with
  | Some r => if at_end r then Some (@nil string) else None
  | None => None
  end
  = if String.eqb w d then Some [] else None.
Proof.
  revert d. induction w as [|a w IH]; intros [|b d] Hd;
    cbn [strip_prefix String.eqb]; try reflexivity.
  - now rewrite (at_end_word _ Hd).
  - cbn [string_forall] in Hd. apply andb_true_iff in Hd as [_ Hd].
    destruct (Ascii.eqb a b); [now apply IH | reflexivity].
Qed.

Lemma strip_not_end w d tail :
  string_forall is_alpha w = true ->
  match strip_prefix w (d ++ String "_" tail) with
  | Some r => if at_end r then Some (@nil string) else None
  | None => None
  end = None.
Proof.
  revert d. induction w as [|a w IH]; intros d Hw.
  - cbn [strip_prefix]. now rewrite at_end_before_underscore.
  - cbn [string_forall] in Hw. apply andb_true_iff in Hw as [Ha Hw].
    destruct d as [|b d]; cbn [append strip_prefix].
    + rewrite Ascii.eqb_sym, (is_alpha_not_underscore a Ha). reflexivity.
    + destruct (Ascii.eqb a b); [now apply IH | reflexivity].
Qed.

(** A group that ends the pattern takes the last word or fails. *)
Lemma re_match_group_last class d :
  string_forall is_alpha d = true ->
  re_match [Group class] d = if word class d then Some [d] else None.
Proof.
  intro Hd. cbn [re_match].
  assert (Hin : forall k, (k < String.length d)%nat ->
                          at_end (string_drop k d) = false).
  { intros k Hk.
    destruct (string_drop_inside k d Hd Hk) as [c [r [E [Hc Hr]]]].
    rewrite at_end_word; rewrite E; [reflexivity|].
    cbn [string_forall]. now rewrite Hc, Hr. }
  destruct (string_forall class d) eqn:Hall.
  - pose proof (proj1 (run_length_all class d) Hall) as Hn. rewrite Hn.
    rewrite longest_first_top.
    + destruct d as [|c d]; [reflexivity|].
      change (word class (String c d)) with (string_forall class (String c d)).
      rewrite Hall. cbn [String.length].
      change (S (String.length d)) with (String.length (String c d)).
      now rewrite string_drop_all, string_take_all.
    + intros k Hk. rewrite Hin by lia. reflexivity.
  - replace (word class d) with false
      by (destruct d; [reflexivity | symmetry; exact Hall]).
    apply longest_first_none. intros k Hk. rewrite Hin; [reflexivity|].
    pose proof (run_length_le class d) as Hle.
    assert (run_length class d <> String.length d)
      by (intro E; apply run_length_all in E; congruence).
    lia.
Qed.

Lemma re_match_group_more class d tail :
  class "_"%char = false ->
  re_match [Group class] (d ++ String "_" tail) = None.
Proof.
  intro Hclass. cbn [re_match].
  rewrite (run_length_app class d "_"%char tail Hclass).
  apply longest_first_none. intros k Hk.
  pose proof (run_length_le class d) as Hle.
  rewrite string_drop_app by lia.
  now rewrite at_end_before_underscore.
Qed.

Lemma re_match_group_short class d rest :
  string_forall is_alpha d = true ->
  re_match (Group class :: Lit "_" :: rest) d = None.
Proof.
  intro Hd. cbn [re_match]. apply longest_first_none. intros k _.
  now rewrite (strip_underscore_word _ (string_drop_forall _ k d Hd)).
Qed.

Lemma re_match_lit_short w d rest :
  string_forall is_alpha d = true ->
  re_match (Lit w :: Lit "_" :: rest) d = None.
Proof.
  intro Hd. cbn [re_match].
  pose proof (strip_suffix_word w d Hd) as H.
  destruct (strip_prefix w d) as [r|]; [|reflexivity].
  now rewrite (strip_underscore_word r H).
Qed.

Lemma join_cons d d' words :
  join (d :: d' :: words) = (d ++ String "_" (join (d' :: words)))%string.
Proof. reflexivity. Qed.

Lemma token_match_nil t tokens : token_match (t :: tokens) [] = None.
Proof. destruct t; reflexivity. Qed.

Lemma re_match_empty t rest :
  well_formed_token t = true ->
  re_match (token_item t :: rest) EmptyString = None.
Proof.
  destruct t as [w|class]; cbn [well_formed_token token_item re_match].
  - destruct w; [discriminate | reflexivity].
  - reflexivity.
Qed.

(** On a name made of words a pattern matches word by word. *)
Lemma re_match_tokens tokens :
  Forall (fun t => well_formed_token t = true) tokens ->
  forall words,
    Forall (fun w => word is_alpha w = true) words ->
    re_match (token_pattern tokens) (join words) = token_match tokens words.
Proof.
  induction 1 as [|t rest Ht Hrest IH]; intros words Hwords.
  - destruct words as [|d words]; [reflexivity|].
    cbn [token_pattern re_match token_match].
    apply Forall_inv in Hwords as Hd. pose proof (word_forall _ _ Hd) as Hd'.
    destruct words as [|d' words].
    + cbn [join]. rewrite (at_end_word d Hd').
      destruct d; [discriminate | reflexivity].
    + rewrite join_cons, at_end_before_underscore. reflexivity.
  - destruct words as [|d words].
    + rewrite token_match_nil. cbn [join].
      destruct rest; apply re_match_empty; exact Ht.
    + apply Forall_inv in Hwords as Hd. apply Forall_inv_tail in Hwords as Hws.
      pose proof (word_forall _ _ Hd) as Hd'.
      destruct rest as [|t' rest'].
      * cbn [token_pattern]. destruct words as [|d' words].
        -- cbn [join]. destruct t as [w|class];
             cbn [token_item token_match well_formed_token] in *.
           ++ cbn [re_match]. rewrite strip_final by assumption.
              destruct (String.eqb w d); reflexivity.
           ++ rewrite re_match_group_last by assumption.
              replace (word class d) with (string_forall class d)
                by (destruct d; [discriminate | reflexivity]).
              destruct (string_forall class d); reflexivity.
        -- rewrite join_cons. destruct t as [w|class];
             cbn [token_item token_match well_formed_token] in *.
           ++ cbn [re_match]. rewrite strip_not_end by (now apply word_forall).
              destruct (String.eqb w d); reflexivity.
           ++ rewrite re_match_group_more by (now apply negb_true_iff).
              destruct (string_forall class d); reflexivity.
      * change (token_pattern (t :: t' :: rest'))
          with (token_item t :: Lit "_" :: token_pattern (t' :: rest')).
        destruct words as [|d' words].
        -- cbn [join]. destruct t as [w|class];
             cbn [token_item token_match].
           ++ rewrite re_match_lit_short by assumption.
              destruct t'; destruct (String.eqb w d); reflexivity.
           ++ rewrite re_match_group_short by assumption.
              destruct t'; destruct (string_forall class d); reflexivity.
        -- rewrite join_cons. specialize (IH (d' :: words) Hws).
           destruct t as [w|class];
             cbn [token_item well_formed_token] in *.
           ++ rewrite re_match_lit_word by (try assumption; now apply word_forall).
              rewrite IH. reflexivity.
           ++ rewrite re_match_group_word
                by (try assumption; now apply negb_true_iff).
              rewrite IH.
              replace (word class d) with (string_forall class d)
                by (destruct d; [discriminate | reflexivity]).
              reflexivity.
Qed.

Lemma longest_first_ext {X} (n : nat) (f g : nat -> option X) :
  (forall k, f k = g k) -> longest_first n f = longest_first n g.
Proof.
  intro H. induction n as [|n IH]; [reflexivity|].
  cbn [longest_first]. now rewrite H, IH.
Qed.

Lemma re_equiv_refl p : re_equiv p p.
Proof. intro s. reflexivity. Qed.

Lemma re_equiv_cons i p q : re_equiv p q -> re_equiv (i :: p) (i :: q).
Proof.
  intros H s. destruct i as [text|class]; cbn [re_match].
  - destruct (strip_prefix text s); [apply H | reflexivity].
  - apply longest_first_ext. intro k. now rewrite H.
Qed.

Lemma strip_prefix_app a b s :
  strip_prefix (a ++ b) s
  = match strip_prefix a s with
    | Some r => strip_prefix b r
    | None => None
    end.
Proof.
  revert s. induction a as [|x a IH]; intro s; [reflexivity|].
  cbn [append strip_prefix]. destruct s as [|y s]; [reflexivity|].
  destruct (Ascii.eqb x y); [apply IH | reflexivity].
Qed.

(** A literal can be cut in two. *)
Lemma re_equiv_split a b p q :
  re_equiv (Lit b :: p) q -> re_equiv (Lit (a ++ b) :: p) (Lit a :: q).
Proof.
  intros H s. cbn [re_match]. rewrite strip_prefix_app.
  destruct (strip_prefix a s) as [r|]; [|reflexivity].
  rewrite <- (H r). reflexivity.
Qed.

Ltac split_lit :=
  match goal with
  | |- re_equiv (Lit ?t :: _) (Lit ?a :: _) =>
      let b := eval vm_compute in (string_drop (String.length a) t) in
      apply (re_equiv_split a b)
  end.

(** The patterns of [standardize_filename] are the four layouts. *)
Lemma patterns_layouts : Forall2 re_equiv patterns (map token_pattern layouts).
Proof.
  unfold patterns, layouts. cbn [map token_pattern token_item].
  repeat apply Forall2_cons; try apply Forall2_nil;
    repeat first [apply re_equiv_refl | apply re_equiv_cons | split_lit].
Qed.

Lemma layouts_well_formed :
  Forall (Forall (fun t => well_formed_token t = true)) layouts.
Proof. unfold layouts. repeat constructor. Qed.

Lemma first_pattern_layouts ps ls words :
  Forall2 re_equiv ps (map token_pattern ls) ->
  Forall (Forall (fun t => well_formed_token t = true)) ls ->
  Forall (fun w => word is_alpha w = true) words ->
  first_pattern ps (join words) = first_layout ls words.
Proof.
  intros Heq Hwf Hwords. revert ps Heq.
  induction Hwf as [|tokens ls Htokens _ IH]; intros ps Heq;
    cbn [map] in Heq; inversion Heq as [|p q ps' qs Hp Hps]; subst;
    [reflexivity|].
  cbn [first_pattern first_layout].
  rewrite (Hp (join words)), (re_match_tokens tokens Htokens words Hwords).
  rewrite (IH ps' Hps). reflexivity.
Qed.

Lemma str_remove_csv s :
  string_forall (fun c => negb (Ascii.eqb c ".")) s = true ->
  str_remove ".csv" (s ++ ".csv") = s.
Proof.
  unfold str_remove. induction s as [|c s IH]; intro H; [reflexivity|].
  cbn [string_forall] in H. apply andb_true_iff in H as [Hc H].
  apply negb_true_iff, Ascii.eqb_neq in Hc.
  cbn [append remove_from String.prefix].
  destruct (ascii_dec "." c) as [E|_]; [congruence|].
  now rewrite IH.
Qed.

Lemma join_cons_ne a l :
  l <> [] -> join (a :: l) = (a ++ String "_" (join l))%string.
Proof. destruct l; [congruence | reflexivity]. Qed.

Lemma join_chars words :
  Forall (fun w => word is_alpha w = true) words ->
  string_forall name_char (join words) = true.
Proof.
  induction 1 as [|w words Hw _ IH]; [reflexivity|].
  assert (Hw' : string_forall name_char w = true).
  { apply (string_forall_impl is_alpha); [|now apply word_forall].
    intros c Hc. unfold name_char. now rewrite Hc. }
  destruct words as [|d words]; [exact Hw'|].
  rewrite join_cons, string_forall_app, Hw'. cbn [string_forall andb].
  exact IH.
Qed.

Lemma name_char_not_dot c :
  name_char c = true -> negb (Ascii.eqb c ".") = true.
Proof.
  intro H. apply negb_true_iff, Ascii.eqb_neq. intros ->. discriminate H.
Qed.

(** On a name made of words [standardize_filename] goes by the layouts. *)
Lemma standardize_join words :
  Forall (fun w => word is_alpha w = true) words ->
  standardize_filename (join words ++ ".csv")
  = match first_layout layouts words with
    | Some new_name => new_name
    | None => (join words ++ ".csv")%string
    end.
Proof.
  intro Hwords. unfold standardize_filename.
  rewrite str_remove_csv
    by (apply (string_forall_impl name_char);
        [apply name_char_not_dot | now apply join_chars]).
  now rewrite (first_pattern_layouts patterns layouts words patterns_layouts
                 layouts_well_formed Hwords).
Qed.

Lemma join_suffix words w suffix :
  (join (words ++ [w]) ++ suffix)%string = join (words ++ [w ++ suffix]%string).
Proof.
  induction words as [|a words IH]; [reflexivity|].
  cbn [app]. rewrite !join_cons_ne by (now destruct words).
  rewrite append_assoc. cbn [append]. now rewrite IH.
Qed.

Lemma token_match_length tokens words groups :
  token_match tokens words = Some groups -> length words = length tokens.
Proof.
  revert words groups.
  induction tokens as [|t tokens IH]; intros [|d words] groups H;
    try reflexivity; try discriminate; try (destruct t; discriminate).
  destruct t as [w|class]; cbn [token_match] in H.
  - destruct (String.eqb w d); [|discriminate].
    cbn [length]. f_equal. eauto.
  - destruct (string_forall class d); [|discriminate].
    destruct (token_match tokens words) as [gs|] eqn:E; [|discriminate].
    cbn [length]. f_equal. eauto.
Qed.

Lemma token_match_other_length tokens words :
  length words <> length tokens -> token_match tokens words = None.
Proof.
  intro H. destruct (token_match tokens words) as [gs|] eqn:E; [|reflexivity].
  apply token_match_length in E. congruence.
Qed.

Lemma word_upper_alpha w : word is_upper w = true -> word is_alpha w = true.
Proof.
  destruct w as [|c w]; [discriminate|].
  apply string_forall_impl. exact is_upper_alpha.
Qed.

Lemma first_layout_skip tokens ls words :
  token_match tokens words = None ->
  first_layout (tokens :: ls) words = first_layout ls words.
Proof. cbn [first_layout]. now intros ->. Qed.

Lemma first_layout_hit tokens ls words g1 g2 g3 g4 :
  token_match tokens words = Some [g1; g2; g3; g4] ->
  first_layout (tokens :: ls) words
  = Some (if mem_string g1 ["fx"; "equity"]%string
          then standard_name g3 g4 g1 g2
          else standard_name g1 g2 g3 g4).
Proof.
  cbn [first_layout]. intros ->.
  destruct (mem_string g1 ["fx"; "equity"]%string); reflexivity.
Qed.

Ltac known_words :=
  repeat match goal with
         | H : word is_upper ?w = true |- _ =>
             pose proof (word_upper_alpha w H);
             pose proof (word_forall _ _ H); clear H
         end;
  repeat match goal with
         | H : word is_alpha ?w = true |- _ =>
             pose proof (word_forall _ _ H); revert H
         end;
  intros.

Ltac token_facts :=
  repeat match goal with
         | H : string_forall ?p ?w = true |- context [string_forall ?p ?w] =>
             rewrite H
         end.

Ltac token_none :=
  first [ apply token_match_other_length; cbn [length]; lia
        | cbn [token_match]; token_facts; cbn; reflexivity ].

Ltac token_some := cbn [token_match]; token_facts; cbn; reflexivity.

Ltac by_layouts words last :=
  match goal with
  | |- standardize_filename ?f = _ =>
      replace f with (join (words ++ [last]) ++ ".csv")%string
        by (exact (join_suffix words last ".csv"))
  end;
  known_words;
  rewrite standardize_join
    by (repeat constructor; first [assumption | reflexivity]);
  unfold layouts; cbn [app];
  repeat (rewrite first_layout_skip by token_none);
  try (erewrite first_layout_hit by token_some).

(** X26.  The three legacy layouts of a residual file of an FX or equity
    asset, with or without the split marker, are renamed to one and the
    same standardized name: model configuration, distribution, asset type
    and asset. *)
Theorem standardize_legacy_names :
  forall (asset_type asset config dist infix : string),
    In asset_type ["fx"; "equity"]%string ->
    word is_upper asset = true ->
    word is_alpha config = true ->
    word is_alpha dist = true ->
    In infix ["_residuals_"; "_TS_CV_residuals_";
              "_Chrono_Split_residuals_"]%string ->
    standardize_filename
      (asset_type ++ "_" ++ asset ++ infix ++ config ++ "_" ++ dist
       ++ "_residuals_synthetic_synthetic.csv")
    = standard_name config dist asset_type asset.
Proof.
  intros t A c d infix Ht HA Hc Hd Hinfix.
  cbn [In] in Ht, Hinfix.
  destruct Hinfix as [<-|[<-|[<-|[]]]]; destruct Ht as [<-|[<-|[]]].
  - by_layouts ["fx"; A; "residuals"; c; d; "residuals"; "synthetic"]%string
               "synthetic"%string.
    reflexivity.
  - by_layouts ["equity"; A; "residuals"; c; d; "residuals";
                "synthetic"]%string
               "synthetic"%string.
    reflexivity.
  - by_layouts ["fx"; A; "TS"; "CV"; "residuals"; c; d; "residuals";
                "synthetic"]%string
               "synthetic"%string.
    reflexivity.
  - by_layouts ["equity"; A; "TS"; "CV"; "residuals"; c; d; "residuals";
                "synthetic"]%string
               "synthetic"%string.
    reflexivity.
  - by_layouts ["fx"; A; "Chrono"; "Split"; "residuals"; c; d; "residuals";
                "synthetic"]%string
               "synthetic"%string.
    reflexivity.
  - by_layouts ["equity"; A; "Chrono"; "Split"; "residuals"; c; d;
                "residuals"; "synthetic"]%string
               "synthetic"%string.
    reflexivity.
Qed.

Lemma standardize_legacy_names_witness :
  standardize_filename
    "fx_USDZAR_TS_CV_residuals_sGARCH_sstd_residuals_synthetic_synthetic.csv"
  = "sGARCH_sstd_fx_USDZAR_residuals_synthetic.csv"%string.
Proof.
  apply (standardize_legacy_names "fx" "USDZAR" "sGARCH" "sstd"
           "_TS_CV_residuals_");
    try reflexivity; cbn [In]; auto.
Defined.

(** X27.  A standardized name whose model configuration is not called
    [fx] or [equity] is left as it is. *)
Theorem standardize_is_stable :
  forall (config dist asset_type asset : string),
    word is_alpha config = true ->
    word is_alpha dist = true ->
    word is_alpha asset_type = true ->
    word is_upper asset = true ->
    mem_string config ["fx"; "equity"]%string = false ->
    standardize_filename (standard_name config dist asset_type asset)
    = standard_name config dist asset_type asset.
Proof.
  intros c d t A Hc Hd Ht HA Hmem. unfold standard_name at 1.
  by_layouts [c; d; t; A; "residuals"]%string "synthetic"%string.
  rewrite Hmem. reflexivity.
Qed.

Lemma standardize_is_stable_witness :
  standardize_filename "sGARCH_sstd_fx_USDZAR_residuals_synthetic.csv"
  = "sGARCH_sstd_fx_USDZAR_residuals_synthetic.csv"%string.
Proof.
  apply (standardize_is_stable "sGARCH" "sstd" "fx" "USDZAR"); reflexivity.
Defined.

(** X28.  The branch is chosen by the first part of the name, not by the
    pattern that matched: a standardized name whose first part is [fx]
    or [equity] is taken for a legacy name and its parts are
    re-ordered. *)
Theorem standardize_reorders_on_first_part :
  forall (first second third asset : string),
    In first ["fx"; "equity"]%string ->
    word is_alpha second = true ->
    word is_alpha third = true ->
    word is_upper asset = true ->
    standardize_filename (standard_name first second third asset)
    = standard_name third asset first second.
Proof.
  intros t d u A Ht Hd Hu HA. cbn [In] in Ht. unfold standard_name at 1.
  destruct Ht as [<-|[<-|[]]].
  - by_layouts ["fx"; d; u; A; "residuals"]%string "synthetic"%string.
    reflexivity.
  - by_layouts ["equity"; d; u; A; "residuals"]%string "synthetic"%string.
    reflexivity.
Qed.

Lemma standardize_reorders_on_first_part_witness :
  standardize_filename "fx_sstd_equity_USDZAR_residuals_synthetic.csv"
  = "equity_USDZAR_fx_sstd_residuals_synthetic.csv"%string.
Proof.
  apply (standardize_reorders_on_first_part "fx" "sstd" "equity" "USDZAR");
    try reflexivity; cbn [In]; auto.
Defined.

(** X29.  A legacy name of an asset type other than [fx] and [equity]
    loses its markers but keeps the order of its parts: asset type and
    asset stay in front. *)
Theorem standardize_other_asset_type :
  forall (asset_type asset config dist infix : string),
    word is_alpha asset_type = true ->
    mem_string asset_type ["fx"; "equity"]%string = false ->
    word is_upper asset = true ->
    word is_alpha config = true ->
    word is_alpha dist = true ->
    In infix ["_residuals_"; "_TS_CV_residuals_";
              "_Chrono_Split_residuals_"]%string ->
    standardize_filename
      (asset_type ++ "_" ++ asset ++ infix ++ config ++ "_" ++ dist
       ++ "_residuals_synthetic_synthetic.csv")
    = standard_name asset_type asset config dist.
Proof.
  intros t A c d infix Ht Hmem HA Hc Hd Hinfix.
  cbn [In] in Hinfix.
  destruct Hinfix as [<-|[<-|[<-|[]]]].
  - by_layouts [t; A; "residuals"; c; d; "residuals"; "synthetic"]%string
               "synthetic"%string.
    rewrite Hmem. reflexivity.
  - by_layouts [t; A; "TS"; "CV"; "residuals"; c; d; "residuals";
                "synthetic"]%string
               "synthetic"%string.
    rewrite Hmem. reflexivity.
  - by_layouts [t; A; "Chrono"; "Split"; "residuals"; c; d; "residuals";
                "synthetic"]%string
               "synthetic"%string.
    rewrite Hmem. reflexivity.
Qed.

Lemma standardize_other_asset_type_witness :
  standardize_filename
    "crypto_BTC_residuals_sGARCH_sstd_residuals_synthetic_synthetic.csv"
  = "crypto_BTC_sGARCH_sstd_residuals_synthetic.csv"%string.
Proof.
  apply (standardize_other_asset_type "crypto" "BTC" "sGARCH" "sstd"
           "_residuals_");
    try reflexivity; cbn [In]; auto.
Defined.

(** X30.  A file name made of words of letters is renamed only when it
    has six, eight or ten words: every other name is returned as it is. *)
Theorem standardize_keeps_other_names :
  forall (words : list string),
    Forall (fun w => word is_alpha w = true) words ->
    length words <> 6%nat ->
    length words <> 8%nat ->
    length words <> 10%nat ->
    standardize_filename (join words ++ ".csv") = (join words ++ ".csv")%string.
Proof.
  intros words Hwords H6 H8 H10.
  rewrite (standardize_join words Hwords). unfold layouts.
  rewrite !first_layout_skip
    by (apply token_match_other_length; cbn [length]; assumption).
  reflexivity.
Qed.

Lemma standardize_keeps_other_names_witness :
  standardize_filename "sGARCH_sstd_residuals.csv"
  = "sGARCH_sstd_residuals.csv"%string.
Proof.
  apply (standardize_keeps_other_names ["sGARCH"; "sstd"; "residuals"]%string);
    [repeat constructor | discriminate | discriminate | discriminate].
Defined.
